(** * The metadata endpoint of policyengine-api

    A shallow embedding of [policyengine_api/endpoints/metadata.py] and the
    properties of its projectors: the handler [metadata], the variable,
    parameter and entity projectors and the economy-options table.

    Python values are an inductive type [pyval]; dictionaries are finite
    maps with string keys; code that can raise returns a [result]. *)

From Stdlib Require Import ZArith String List.
From Stdlib Require Import Floats.SpecFloat.
From stdpp Require Import gmap strings list fin_maps.

#[local] Set Warnings "-register-all".

(** ** Python values *)

(** The values the endpoint reads and writes.  A float is carried as its
    IEEE-754 description, an enumeration member by its [name] and [value]
    attributes; every dictionary of the endpoint has string keys. *)
Inductive pyval : Type :=
  | PNone
  | PBool (b : bool)
  | PInt (z : Z)
  | PFloat (f : spec_float)
  | PStr (s : string)
  | PList (l : list pyval)
  | PDict (d : gmap string pyval)
  | PEnum (name : string) (value : pyval).

(** Truth value of an object, as tested by [if obj:]. *)
Definition truthy (v : pyval) : bool :=
  match v with
  | PNone => false
  | PBool b => b
  | PInt z => negb (Z.eqb z 0)
  | PFloat f => match f with S754_zero _ => false | _ => true end
  | PStr s => negb (String.eqb s "")
  | PList l => match l with [] => false | _ :: _ => true end
  | PDict d => negb (Nat.eqb (size d) 0)
  | PEnum _ _ => true
  end.

(** [isinstance(v, (int, float, bool))]; [bool] is a subclass of [int]. *)
Definition isinstance_int_float_bool (v : pyval) : bool :=
  match v with
  | PBool _ | PInt _ | PFloat _ => true
  | _ => false
  end.

(** A dictionary display [{k1: v1, ..., kn: vn}] or call [dict(k1=v1, ...)]:
    the items are stored from left to right, a later key replacing an
    earlier equal one. *)
Definition pydict (items : list (string * pyval)) : gmap string pyval :=
  foldl (λ d kv, <[kv.1 := kv.2]> d) ∅ items.

(** [d.get(k)]: the value at [k], [None] when the key is absent. *)
Definition dict_get (d : gmap string pyval) (k : string) : pyval :=
  default PNone (d !! k).

(** ** Exceptions *)

Inductive exn : Type :=
  | AttributeError (object attribute : string)
  | KeyError (key : string)
  | TypeError (object : string).

Inductive result (A : Type) : Type :=
  | Ok (a : A)
  | Raise (e : exn).
Arguments Ok {A} a.
Arguments Raise {A} e.

#[export] Instance result_ret : MRet result := λ A a, Ok a.
#[export] Instance result_bind : MBind result := λ A B f m,
  match m with
  | Ok a => f a
  | Raise e => Raise e
  end.

(** [for x in xs: s = body(s, x)], stopping at the first exception. *)
Fixpoint for_each {A S : Type} (body : S → A → result S) (s : S)
    (xs : list A) : result S :=
  match xs with
  | [] => Ok s
  | x :: xs' => s' ← body s x; for_each body s' xs'
  end.

(** [d[k1][k2] = v]: the dictionary stored at [k1] is updated in place. *)
Definition setitem_at (d : gmap string pyval) (k1 k2 : string) (v : pyval)
    : result (gmap string pyval) :=
  match d !! k1 with
  | Some (PDict inner) => Ok (<[k1 := PDict (<[k2 := v]> inner)]> d)
  | Some _ => Raise (TypeError "item assignment")
  | None => Raise (KeyError k1)
  end.

(** [obj.name] on a value: only enumeration members have the attribute. *)
Definition getattr_name (v : pyval) : result string :=
  match v with
  | PEnum name _ => Ok name
  | _ => Raise (AttributeError "object" "name")
  end.

(** ** The rule system read by the endpoint *)

(** A member of an enumeration class. *)
Record EnumMember : Type := {
  member_name : string;
  member_value : pyval
}.

Definition enum_object (m : EnumMember) : pyval :=
  PEnum (member_name m) (member_value m).

Record Role : Type := {
  role_key : string;
  role_plural : pyval;
  role_label : pyval;
  role_doc : pyval
}.

(** [ent_roles] is [None] for an entity object without a [roles]
    attribute. *)
Record Entity : Type := {
  ent_plural : pyval;
  ent_label : pyval;
  ent_doc : pyval;
  ent_is_person : pyval;
  ent_key : string;
  ent_roles : option (list Role)
}.

(** A variable of the rule system.  [var_value_type_name] is
    [value_type.__name__], [var_is_input_variable] the result of the
    method [is_input_variable()], [var_possible_values] the members that
    iterating [possible_values] yields ([None]: no such attribute). *)
Record PEVariable : Type := {
  var_documentation : pyval;
  var_entity : Entity;
  var_value_type_name : string;
  var_definition_period : pyval;
  var_label : pyval;
  var_category : pyval;
  var_unit : pyval;
  var_module_name : pyval;
  var_index_in_module : pyval;
  var_is_input_variable : bool;
  var_default_value : pyval;
  var_adds : pyval;
  var_subtracts : pyval;
  var_possible_values : option (list EnumMember)
}.

(** The four classes imported from [policyengine_core.parameters]:
    [ParameterNode], [Parameter], [ParameterScale] and
    [ParameterScaleBracket]. *)
Inductive pclass : Type :=
  | ClsParameterNode
  | ClsParameter
  | ClsParameterScale
  | ClsParameterScaleBracket.

#[export] Instance pclass_eq_dec : EqDecision pclass.
Proof. solve_decision. Defined.

Record ValueAtInstant : Type := {
  instant_str : string;
  vai_value : pyval
}.

(** An object of the parameter tree.  [node_classes] lists those of the
    four classes the object is an instance of (its own class and the
    classes that one inherits from). *)
Record ParameterObject : Type := {
  node_classes : list pclass;
  node_name : string;
  node_description : pyval;
  node_metadata : gmap string pyval;
  node_values_list : list ValueAtInstant
}.

Definition isinstance (o : ParameterObject) (c : pclass) : bool :=
  bool_decide (c ∈ node_classes o).

(** The root of the parameter tree: the object itself and what its
    method [get_descendants()] yields, in order. *)
Record ParameterTree : Type := {
  tree_root : ParameterObject;
  get_descendants : list ParameterObject
}.

Record TaxBenefitSystem : Type := {
  variables : gmap string PEVariable;
  parameters : ParameterTree;
  entities : list Entity;
  variable_module_metadata : pyval
}.

Record PolicyEngineCountry : Type := {
  tax_benefit_system : TaxBenefitSystem
}.

(** [country.tax_benefit_system], where [country] is the result of
    [COUNTRIES.get(...)] and so may be [None]. *)
Definition getattr_tax_benefit_system (country : option PolicyEngineCountry)
    : result TaxBenefitSystem :=
  match country with
  | Some c => Ok (tax_benefit_system c)
  | None => Raise (AttributeError "NoneType" "tax_benefit_system")
  end.

(** ** The projectors *)

(** [dict(name=..., label=...)] of the economy options. *)
Definition option_entry (name : pyval) (label : string) : pyval :=
  PDict (pydict [("name", name); ("label", PStr label)]).

Definition build_microsimulation_options (country : option PolicyEngineCountry)
    (country_id : string) : gmap string pyval :=
  let options := ∅ in
  if String.eqb country_id "uk" then
    let region := [
      option_entry (PStr "uk") "the UK";
      option_entry (PStr "ni") "Northern Ireland"
    ] in
    let time_period := [
      option_entry (PInt 2022) "2022"
    ] in
    let options := <["region" := PList region]> options in
    let options := <["time_period" := PList time_period]> options in
    options
  else if String.eqb country_id "us" then
    let region := [
      option_entry (PStr "us") "the US";
      option_entry (PStr "ak") "Alaska";
      option_entry (PStr "fl") "Florida";
      option_entry (PStr "md") "Maryland";
      option_entry (PStr "ma") "Massachusetts";
      option_entry (PStr "nv") "Nevada";
      option_entry (PStr "ny") "New York";
      option_entry (PStr "or") "Oregon";
      option_entry (PStr "pa") "Pennsylvania";
      option_entry (PStr "sd") "South Dakota";
      option_entry (PStr "tn") "Tennessee";
      option_entry (PStr "tx") "Texas";
      option_entry (PStr "wa") "Washington"
    ] in
    let time_period := [
      option_entry (PInt 2022) "2022"
    ] in
    let options := <["region" := PList region]> options in
    let options := <["time_period" := PList time_period]> options in
    options
  else options.

(** [variable.possible_values], iterated. *)
Definition getattr_possible_values (variable : PEVariable)
    : result (list EnumMember) :=
  match var_possible_values variable with
  | Some members => Ok members
  | None => Raise (AttributeError "Variable" "possible_values")
  end.

(** The dictionary display stored for one variable (before the
    enumeration fields are set). *)
Definition variable_fields (variable_name : string) (variable : PEVariable)
    : gmap string pyval :=
  pydict [
    ("documentation", var_documentation variable);
    ("entity", PStr (ent_key (var_entity variable)));
    ("valueType", PStr (var_value_type_name variable));
    ("definitionPeriod", var_definition_period variable);
    ("name", PStr variable_name);
    ("label", var_label variable);
    ("category", var_category variable);
    ("unit", var_unit variable);
    ("moduleName", var_module_name variable);
    ("indexInModule", var_index_in_module variable);
    ("isInputVariable", PBool (var_is_input_variable variable));
    ("defaultValue",
      if isinstance_int_float_bool (var_default_value variable)
      then var_default_value variable
      else PNone);
    ("adds", var_adds variable);
    ("subtracts", var_subtracts variable)
  ].

(** [dict(value=value.name, label=value.value)] *)
Definition possible_value (value : EnumMember) : pyval :=
  PDict (pydict [
    ("value", PStr (member_name value));
    ("label", member_value value)]).

(** The body of the loop of [build_variables]. *)
Definition build_variables_body (variable_data : gmap string pyval)
    (item : string * PEVariable) : result (gmap string pyval) :=
  let '(variable_name, variable) := item in
  let variable_data :=
    <[variable_name := PDict (variable_fields variable_name variable)]>
      variable_data in
  if String.eqb (var_value_type_name variable) "Enum" then
    possible_values ← getattr_possible_values variable;
    variable_data ← setitem_at variable_data variable_name "possibleValues"
      (PList (map possible_value possible_values));
    name ← getattr_name (var_default_value variable);
    variable_data ← setitem_at variable_data variable_name "defaultValue"
      (PStr name);
    Ok variable_data
  else Ok variable_data.

Definition build_variables (country : option PolicyEngineCountry)
    : result (gmap string pyval) :=
  tbs ← getattr_tax_benefit_system country;
  let variables := variables tbs in
  let variable_data := ∅ in
  for_each build_variables_body variable_data (map_to_list variables).

Section Collaborators.

(** What the endpoint imports from the rest of the service: the country
    registry, the validator of country identifiers (it returns [None]
    or an error response) and the coercion of parameter values. *)
Variable COUNTRIES : gmap string PolicyEngineCountry.
Variable validate_country : string → pyval.
Variable get_safe_json : pyval → pyval.

(** The record of a plain parameter. *)
Definition parameter_fields (parameter : ParameterObject)
    : gmap string pyval :=
  pydict [
    ("type", PStr "parameter");
    ("parameter", PStr (node_name parameter));
    ("description", node_description parameter);
    ("label", dict_get (node_metadata parameter) "label");
    ("unit", dict_get (node_metadata parameter) "unit");
    ("period", dict_get (node_metadata parameter) "period");
    ("values", PDict (pydict (map
       (λ value_at_instant,
          (instant_str value_at_instant,
           get_safe_json (vai_value value_at_instant)))
       (node_values_list parameter))))
  ].

(** The record of a parameter node. *)
Definition parameter_node_fields (parameter : ParameterObject)
    : gmap string pyval :=
  pydict [
    ("type", PStr "parameterNode");
    ("parameter", PStr (node_name parameter));
    ("description", node_description parameter);
    ("label", dict_get (node_metadata parameter) "label")
  ].

(** The body of the loop of [build_parameters]; [continue] leaves the
    mapping as it is.  The last test is on [parameters], the root. *)
Definition build_parameters_body (parameters : ParameterTree)
    (parameter_data : gmap string pyval) (parameter : ParameterObject)
    : gmap string pyval :=
  if negb (String.eqb "gov" (substring 0 3 (node_name parameter))) then
    parameter_data
  else if isinstance parameter ClsParameterScale
          || isinstance parameter ClsParameterScaleBracket then
    parameter_data
  else if isinstance parameter ClsParameter then
    <[node_name parameter := PDict (parameter_fields parameter)]>
      parameter_data
  else if isinstance (tree_root parameters) ClsParameterNode then
    <[node_name parameter := PDict (parameter_node_fields parameter)]>
      parameter_data
  else parameter_data.

Definition build_parameters (country : option PolicyEngineCountry)
    : result (gmap string pyval) :=
  tbs ← getattr_tax_benefit_system country;
  let parameters := parameters tbs in
  let parameter_data := ∅ in
  Ok (foldl (build_parameters_body parameters) parameter_data
        (get_descendants parameters)).

(** [{"plural": role.plural, "label": role.label, "doc": role.doc}] *)
Definition role_fields (role : Role) : pyval :=
  PDict (pydict [
    ("plural", role_plural role);
    ("label", role_label role);
    ("doc", role_doc role)]).

(** The record [entity_data] of one entity; [hasattr(entity, "roles")]
    is the test on [ent_roles]. *)
Definition entity_fields (entity : Entity) : gmap string pyval :=
  let entity_data := pydict [
    ("plural", ent_plural entity);
    ("label", ent_label entity);
    ("doc", ent_doc entity);
    ("is_person", ent_is_person entity);
    ("key", PStr (ent_key entity))
  ] in
  match ent_roles entity with
  | Some roles =>
      <["roles" := PDict (pydict (map
         (λ role, (role_key role, role_fields role)) roles))]> entity_data
  | None => <["roles" := PDict ∅]> entity_data
  end.

(** The body of the loop of [build_entities]. *)
Definition build_entities_body (data : gmap string pyval) (entity : Entity)
    : gmap string pyval :=
  <[ent_key entity := PDict (entity_fields entity)]> data.

Definition build_entities (country : option PolicyEngineCountry)
    : result (gmap string pyval) :=
  tbs ← getattr_tax_benefit_system country;
  let data := ∅ in
  Ok (foldl build_entities_body data (entities tbs)).

(** [/<country_id>/metadata (GET)] *)
Definition metadata (country_id : string) : result pyval :=
  let country := COUNTRIES !! country_id in
  let country_not_found := validate_country country_id in
  if truthy country_not_found then Ok country_not_found
  else
    variables ← build_variables country;
    parameters ← build_parameters country;
    entities ← build_entities country;
    tbs ← getattr_tax_benefit_system country;
    Ok (PDict (pydict [
      ("status", PStr "ok");
      ("message", PNone);
      ("result", PDict (pydict [
        ("variables", PDict variables);
        ("parameters", PDict parameters);
        ("entities", PDict entities);
        ("variableModules", variable_module_metadata tbs);
        ("economy_options",
          PDict (build_microsimulation_options country country_id));
        ("current_law_id",
          PInt (if String.eqb country_id "uk" then 1 else 2))
      ]))
    ])).

End Collaborators.

(** ** Auxiliary definitions for the properties *)

(** The items a loop stores: for each element of the collection the key
    and the record stored for it, if any. *)
Definition stored_items {A : Type} (key : A → string)
    (stored : A → option pyval) (xs : list A) : list (string * pyval) :=
  omap (λ x, pair (key x) <$> stored x) xs.

(** A variable is well formed when, its value type being named ["Enum"],
    it has possible values and its default is an enumeration member. *)
Definition well_formed_variable (variable : PEVariable) : bool :=
  if String.eqb (var_value_type_name variable) "Enum" then
    match var_possible_values variable, var_default_value variable with
    | Some _, PEnum _ _ => true
    | _, _ => false
    end
  else true.

(** The record that one iteration of [build_variables] leaves for a
    variable, [None] when the iteration raises. *)
Definition variable_record (item : string * PEVariable) : option pyval :=
  let '(variable_name, variable) := item in
  if String.eqb (var_value_type_name variable) "Enum" then
    match var_possible_values variable, var_default_value variable with
    | Some members, PEnum name _ =>
        Some (PDict (
          <["defaultValue" := PStr name]> (
          <["possibleValues" := PList (map possible_value members)]> (
          variable_fields variable_name variable))))
    | _, _ => None
    end
  else Some (PDict (variable_fields variable_name variable)).

(** The record that one iteration of [build_parameters] stores for a
    descendant, [None] when the iteration stores nothing. *)
Definition parameter_record (get_safe_json : pyval → pyval)
    (parameters : ParameterTree) (parameter : ParameterObject)
    : option pyval :=
  if negb (String.eqb "gov" (substring 0 3 (node_name parameter))) then None
  else if isinstance parameter ClsParameterScale
          || isinstance parameter ClsParameterScaleBracket then None
  else if isinstance parameter ClsParameter then
    Some (PDict (parameter_fields get_safe_json parameter))
  else if isinstance (tree_root parameters) ClsParameterNode then
    Some (PDict (parameter_node_fields parameter))
  else None.

(** [roles] is the mapping of the roles of [entity]: empty when the
    entity has no role collection; otherwise keyed by the role keys, each
    entry being the [{plural, label, doc}] record of a role of that key
    (of the role itself when no other role has the key). *)
Definition roles_mapping_of (entity : Entity) (roles : gmap string pyval)
    : Prop :=
  match ent_roles entity with
  | None => roles = ∅
  | Some collection =>
      dom roles = list_to_set (role_key <$> collection)
      ∧ (∀ k v, roles !! k = Some v →
           ∃ role, role ∈ collection ∧ role_key role = k
             ∧ v = PDict (pydict [
                 ("plural", role_plural role);
                 ("label", role_label role);
                 ("doc", role_doc role)]))
      ∧ (∀ role, role ∈ collection →
           (∀ other, other ∈ collection →
              role_key other = role_key role → other = role) →
           roles !! role_key role = Some (PDict (pydict [
             ("plural", role_plural role);
             ("label", role_label role);
             ("doc", role_doc role)])))
  end.

(** Modelled from the spec: the error response of the validator, whose
    declaration is not part of the endpoint; a mapping with [status] and
    [message] fields. *)
Definition error_envelope (v : pyval) : Prop :=
  ∃ d, v = PDict d ∧ is_Some (d !! "status") ∧ is_Some (d !! "message").

(** The [name] fields of a list of [{name, label}] entries. *)
Definition entry_names (entries : list pyval) : list pyval :=
  omap (λ entry,
    match entry with PDict d => d !! "name" | _ => None end) entries.

(** ** A small rule system

    A country with two variables, a parameter tree of seven descendants
    and two entities, on which the properties below are exercised. *)

Definition person_entity : Entity := {|
  ent_plural := PStr "people";
  ent_label := PStr "Person";
  ent_doc := PStr "An individual.";
  ent_is_person := PBool true;
  ent_key := "person";
  ent_roles := None
|}.

Definition household_entity : Entity := {|
  ent_plural := PStr "households";
  ent_label := PStr "Household";
  ent_doc := PStr "People living together.";
  ent_is_person := PBool false;
  ent_key := "household";
  ent_roles := Some [
    {| role_key := "adult"; role_plural := PStr "adults";
       role_label := PStr "Adult"; role_doc := PNone |};
    {| role_key := "child"; role_plural := PStr "children";
       role_label := PStr "Child"; role_doc := PNone |}
  ]
|}.

Definition single_member : EnumMember :=
  {| member_name := "SINGLE"; member_value := PStr "Single" |}.

Definition joint_member : EnumMember :=
  {| member_name := "JOINT"; member_value := PStr "Joint" |}.

Definition age_variable : PEVariable := {|
  var_documentation := PNone;
  var_entity := person_entity;
  var_value_type_name := "int";
  var_definition_period := PStr "year";
  var_label := PStr "Age";
  var_category := PNone;
  var_unit := PStr "year";
  var_module_name := PStr "demographic.age";
  var_index_in_module := PInt 0;
  var_is_input_variable := true;
  var_default_value := PInt 40;
  var_adds := PNone;
  var_subtracts := PNone;
  var_possible_values := None
|}.

Definition filing_status_variable : PEVariable := {|
  var_documentation := PStr "Filing status of the tax unit.";
  var_entity := household_entity;
  var_value_type_name := "Enum";
  var_definition_period := PStr "year";
  var_label := PStr "Filing status";
  var_category := PNone;
  var_unit := PNone;
  var_module_name := PStr "demographic.filing_status";
  var_index_in_module := PInt 0;
  var_is_input_variable := true;
  var_default_value := enum_object single_member;
  var_adds := PNone;
  var_subtracts := PNone;
  var_possible_values := Some [single_member; joint_member]
|}.

Definition sample_node (classes : list pclass) (name : string)
    : ParameterObject := {|
  node_classes := classes;
  node_name := name;
  node_description := PNone;
  node_metadata := ∅;
  node_values_list := []
|}.

Definition rate_parameter : ParameterObject := {|
  node_classes := [ClsParameter];
  node_name := "gov.tax.rate";
  node_description := PStr "Basic rate";
  node_metadata := {["label" := PStr "Basic rate"; "unit" := PStr "/1"]};
  node_values_list := [
    {| instant_str := "2022-01-01"; vai_value := PInt 20 |};
    {| instant_str := "2015-01-01"; vai_value := PInt 22 |}
  ]
|}.

(** A descendant that belongs to none of the four classes. *)
Definition odd_node : ParameterObject := sample_node [] "gov.odd".

Definition scale_node : ParameterObject :=
  sample_node [ClsParameterScale] "gov.tax.scale".

Definition sample_tree : ParameterTree := {|
  tree_root := sample_node [ClsParameterNode] "";
  get_descendants := [
    sample_node [ClsParameterNode] "gov";
    sample_node [ClsParameterNode] "gov.tax";
    rate_parameter;
    scale_node;
    sample_node [ClsParameterScaleBracket; ClsParameterNode]
      "gov.tax.scale[0]";
    odd_node;
    sample_node [ClsParameter] "calibration.weight"
  ]
|}.

Definition sample_country : PolicyEngineCountry := {|
  tax_benefit_system := {|
    variables := {["age" := age_variable;
                   "filing_status" := filing_status_variable]};
    parameters := sample_tree;
    entities := [person_entity; household_entity];
    variable_module_metadata := PDict ∅
  |}
|}.

Definition sample_countries : gmap string PolicyEngineCountry :=
  {["uk" := sample_country; "us" := sample_country]}.

(** A validator in the manner of the service: [None] for a registered
    country, an error response otherwise. *)
Definition sample_validate_country (country_id : string) : pyval :=
  match sample_countries !! country_id with
  | Some _ => PNone
  | None => PDict (pydict [
      ("status", PStr "error");
      ("message", PStr ("Country " +:+ country_id +:+ " not found."))])
  end.

(** ** The endpoint over a store of objects

    A second model of the endpoint, over a store in which dictionaries
    and lists are objects with an identity: a value is an immutable value
    or a reference to an object, an assignment [d[k] = v] changes the
    object that [d] refers to, and a display allocates a new object.  The
    values held by the rule system may themselves be references, so that
    the records built by the endpoint can share objects with it. *)

Abbreviation loc := positive.

Inductive sval : Type :=
  | Imm (p : pyval)
  | Ref (l : loc).

Inductive hobj : Type :=
  | ODict (d : gmap string sval)
  | OList (xs : list sval).

Abbreviation heap := (gmap loc hobj).

(** Computations that read and change the store and may raise; the
    store is kept when an exception is raised. *)
Definition M (A : Type) : Type := heap → result A * heap.

#[export] Instance M_ret : MRet M := λ A a h, (Ok a, h).
#[export] Instance M_bind : MBind M := λ A B f m h,
  match m h with
  | (Ok a, h') => f a h'
  | (Raise e, h') => (Raise e, h')
  end.

Definition raise {A : Type} (e : exn) : M A := λ h, (Raise e, h).

(** A new object, at a location that the store does not use. *)
Definition alloc (o : hobj) : M sval := λ h,
  let l := fresh (dom h) in (Ok (Ref l), <[l := o]> h).

(** The items of a display, stored from left to right. *)
Definition store_dict (items : list (string * sval)) : gmap string sval :=
  foldl (λ d kv, <[kv.1 := kv.2]> d) ∅ items.

(** [target[k] = v] *)
Definition setitem (target : sval) (k : string) (v : sval) : M unit := λ h,
  match target with
  | Ref l =>
      match h !! l with
      | Some (ODict d) => (Ok tt, <[l := ODict (<[k := v]> d)]> h)
      | _ => (Raise (TypeError "item assignment"), h)
      end
  | Imm _ => (Raise (TypeError "item assignment"), h)
  end.

(** [target[k]] *)
Definition getitem (target : sval) (k : string) : M sval := λ h,
  match target with
  | Ref l =>
      match h !! l with
      | Some (ODict d) =>
          match d !! k with
          | Some v => (Ok v, h)
          | None => (Raise (KeyError k), h)
          end
      | _ => (Raise (TypeError "subscript"), h)
      end
  | Imm (PDict d) =>
      match d !! k with
      | Some p => (Ok (Imm p), h)
      | None => (Raise (KeyError k), h)
      end
  | Imm _ => (Raise (TypeError "subscript"), h)
  end.

(** [target.get(k)] *)
Definition store_dict_get (target : sval) (k : string) : M sval := λ h,
  match target with
  | Ref l =>
      match h !! l with
      | Some (ODict d) => (Ok (default (Imm PNone) (d !! k)), h)
      | _ => (Raise (AttributeError "object" "get"), h)
      end
  | Imm (PDict d) => (Ok (Imm (dict_get d k)), h)
  | Imm _ => (Raise (AttributeError "object" "get"), h)
  end.

(** The truth value of an object. *)
Definition store_truthy (v : sval) : M bool := λ h,
  match v with
  | Imm p => (Ok (truthy p), h)
  | Ref l =>
      match h !! l with
      | Some (ODict d) => (Ok (negb (Nat.eqb (size d) 0)), h)
      | Some (OList xs) => (Ok (match xs with [] => false | _ => true end), h)
      | None => (Raise (TypeError "reference"), h)
      end
  end.

(** [isinstance(v, (int, float, bool))]: no dictionary or list is one. *)
Definition store_isinstance_int_float_bool (v : sval) : bool :=
  match v with
  | Imm p => isinstance_int_float_bool p
  | Ref _ => false
  end.

(** [obj.name] *)
Definition store_getattr_name (v : sval) : M string :=
  match v with
  | Imm (PEnum name _) => mret name
  | _ => raise (AttributeError "object" "name")
  end.

(** [for x in xs: body(x)], stopping at the first exception. *)
Fixpoint store_for_each {A : Type} (body : A → M unit) (xs : list A)
    : M unit :=
  match xs with
  | [] => mret tt
  | x :: xs' => _ ← body x; store_for_each body xs'
  end.

(** The elements of a display or comprehension, evaluated in order. *)
Fixpoint store_map {A B : Type} (f : A → M B) (xs : list A) : M (list B) :=
  match xs with
  | [] => mret []
  | x :: xs' => y ← f x; ys ← store_map f xs'; mret (y :: ys)
  end.

(** *** The rule system in the store *)

Record StoredRole : Type := {
  srole_key : string;
  srole_plural : sval;
  srole_label : sval;
  srole_doc : sval
}.

Record StoredEntity : Type := {
  sent_plural : sval;
  sent_label : sval;
  sent_doc : sval;
  sent_is_person : sval;
  sent_key : string;
  sent_roles : option (list StoredRole)
}.

Record StoredVariable : Type := {
  svar_documentation : sval;
  svar_entity : StoredEntity;
  svar_value_type_name : string;
  svar_definition_period : sval;
  svar_label : sval;
  svar_category : sval;
  svar_unit : sval;
  svar_module_name : sval;
  svar_index_in_module : sval;
  svar_is_input_variable : bool;
  svar_default_value : sval;
  svar_adds : sval;
  svar_subtracts : sval;
  svar_possible_values : option (list EnumMember)
}.

Record StoredValueAtInstant : Type := {
  sinstant_str : string;
  svai_value : sval
}.

Record StoredParameter : Type := {
  snode_classes : list pclass;
  snode_name : string;
  snode_description : sval;
  snode_metadata : sval;
  snode_values_list : list StoredValueAtInstant
}.

Definition store_isinstance (o : StoredParameter) (c : pclass) : bool :=
  bool_decide (c ∈ snode_classes o).

Record StoredTree : Type := {
  stree_root : StoredParameter;
  sget_descendants : list StoredParameter
}.

Record StoredSystem : Type := {
  svariables : gmap string StoredVariable;
  sparameters : StoredTree;
  sentities : list StoredEntity;
  svariable_module_metadata : sval
}.

Record StoredCountry : Type := {
  stax_benefit_system : StoredSystem
}.

Definition store_getattr_tax_benefit_system (country : option StoredCountry)
    : M StoredSystem :=
  match country with
  | Some c => mret (stax_benefit_system c)
  | None => raise (AttributeError "NoneType" "tax_benefit_system")
  end.

(** *** The projectors over the store *)

Definition store_option_entry (entry : pyval * string) : M sval :=
  alloc (ODict (store_dict [
    ("name", Imm entry.1); ("label", Imm (PStr entry.2))])).

Definition store_build_microsimulation_options
    (country : option StoredCountry) (country_id : string) : M sval :=
  options ← alloc (ODict ∅);
  if String.eqb country_id "uk" then
    entries ← store_map store_option_entry [
      (PStr "uk", "the UK");
      (PStr "ni", "Northern Ireland")
    ];
    region ← alloc (OList entries);
    entries ← store_map store_option_entry [
      (PInt 2022, "2022")
    ];
    time_period ← alloc (OList entries);
    _ ← setitem options "region" region;
    _ ← setitem options "time_period" time_period;
    mret options
  else if String.eqb country_id "us" then
    entries ← store_map store_option_entry [
      (PStr "us", "the US");
      (PStr "ak", "Alaska");
      (PStr "fl", "Florida");
      (PStr "md", "Maryland");
      (PStr "ma", "Massachusetts");
      (PStr "nv", "Nevada");
      (PStr "ny", "New York");
      (PStr "or", "Oregon");
      (PStr "pa", "Pennsylvania");
      (PStr "sd", "South Dakota");
      (PStr "tn", "Tennessee");
      (PStr "tx", "Texas");
      (PStr "wa", "Washington")
    ];
    region ← alloc (OList entries);
    entries ← store_map store_option_entry [
      (PInt 2022, "2022")
    ];
    time_period ← alloc (OList entries);
    _ ← setitem options "region" region;
    _ ← setitem options "time_period" time_period;
    mret options
  else mret options.

Definition store_variable_fields (variable_name : string)
    (variable : StoredVariable) : M sval :=
  alloc (ODict (store_dict [
    ("documentation", svar_documentation variable);
    ("entity", Imm (PStr (sent_key (svar_entity variable))));
    ("valueType", Imm (PStr (svar_value_type_name variable)));
    ("definitionPeriod", svar_definition_period variable);
    ("name", Imm (PStr variable_name));
    ("label", svar_label variable);
    ("category", svar_category variable);
    ("unit", svar_unit variable);
    ("moduleName", svar_module_name variable);
    ("indexInModule", svar_index_in_module variable);
    ("isInputVariable", Imm (PBool (svar_is_input_variable variable)));
    ("defaultValue",
      if store_isinstance_int_float_bool (svar_default_value variable)
      then svar_default_value variable
      else Imm PNone);
    ("adds", svar_adds variable);
    ("subtracts", svar_subtracts variable)
  ])).

Definition store_possible_value (value : EnumMember) : M sval :=
  alloc (ODict (store_dict [
    ("value", Imm (PStr (member_name value)));
    ("label", Imm (member_value value))])).

Definition store_getattr_possible_values (variable : StoredVariable)
    : M (list EnumMember) :=
  match svar_possible_values variable with
  | Some members => mret members
  | None => raise (AttributeError "Variable" "possible_values")
  end.

(** The body of the loop of [build_variables]: the right-hand side of an
    assignment is evaluated before its target. *)
Definition store_build_variables_body (variable_data : sval)
    (item : string * StoredVariable) : M unit :=
  let '(variable_name, variable) := item in
  fields ← store_variable_fields variable_name variable;
  _ ← setitem variable_data variable_name fields;
  if String.eqb (svar_value_type_name variable) "Enum" then
    possible_values ← store_getattr_possible_values variable;
    entries ← store_map store_possible_value possible_values;
    possible ← alloc (OList entries);
    target ← getitem variable_data variable_name;
    _ ← setitem target "possibleValues" possible;
    name ← store_getattr_name (svar_default_value variable);
    target ← getitem variable_data variable_name;
    _ ← setitem target "defaultValue" (Imm (PStr name));
    mret tt
  else mret tt.

Definition store_build_variables (country : option StoredCountry) : M sval :=
  tbs ← store_getattr_tax_benefit_system country;
  variable_data ← alloc (ODict ∅);
  _ ← store_for_each (store_build_variables_body variable_data)
        (map_to_list (svariables tbs));
  mret variable_data.

Definition store_role_fields (role : StoredRole) : M sval :=
  alloc (ODict (store_dict [
    ("plural", srole_plural role);
    ("label", srole_label role);
    ("doc", srole_doc role)])).

Definition store_entity_fields (entity : StoredEntity) : M sval :=
  entity_data ← alloc (ODict (store_dict [
    ("plural", sent_plural entity);
    ("label", sent_label entity);
    ("doc", sent_doc entity);
    ("is_person", sent_is_person entity);
    ("key", Imm (PStr (sent_key entity)))
  ]));
  match sent_roles entity with
  | Some roles =>
      items ← store_map
        (λ role, fields ← store_role_fields role;
                 mret (srole_key role, fields)) roles;
      roles ← alloc (ODict (store_dict items));
      _ ← setitem entity_data "roles" roles;
      mret entity_data
  | None =>
      roles ← alloc (ODict ∅);
      _ ← setitem entity_data "roles" roles;
      mret entity_data
  end.

Definition store_build_entities_body (data : sval) (entity : StoredEntity)
    : M unit :=
  entity_data ← store_entity_fields entity;
  setitem data (sent_key entity) entity_data.

Definition store_build_entities (country : option StoredCountry) : M sval :=
  tbs ← store_getattr_tax_benefit_system country;
  data ← alloc (ODict ∅);
  _ ← store_for_each (store_build_entities_body data) (sentities tbs);
  mret data.

Section StoreCollaborators.

Variable STORED_COUNTRIES : gmap string StoredCountry.
Variable store_validate_country : string → M sval.
Variable store_get_safe_json : sval → M sval.

Definition store_parameter_fields (parameter : StoredParameter) : M sval :=
  label ← store_dict_get (snode_metadata parameter) "label";
  unit ← store_dict_get (snode_metadata parameter) "unit";
  period ← store_dict_get (snode_metadata parameter) "period";
  items ← store_map
    (λ value_at_instant,
       value ← store_get_safe_json (svai_value value_at_instant);
       mret (sinstant_str value_at_instant, value))
    (snode_values_list parameter);
  values ← alloc (ODict (store_dict items));
  alloc (ODict (store_dict [
    ("type", Imm (PStr "parameter"));
    ("parameter", Imm (PStr (snode_name parameter)));
    ("description", snode_description parameter);
    ("label", label);
    ("unit", unit);
    ("period", period);
    ("values", values)
  ])).

Definition store_parameter_node_fields (parameter : StoredParameter)
    : M sval :=
  label ← store_dict_get (snode_metadata parameter) "label";
  alloc (ODict (store_dict [
    ("type", Imm (PStr "parameterNode"));
    ("parameter", Imm (PStr (snode_name parameter)));
    ("description", snode_description parameter);
    ("label", label)
  ])).

Definition store_build_parameters_body (parameters : StoredTree)
    (parameter_data : sval) (parameter : StoredParameter) : M unit :=
  if negb (String.eqb "gov" (substring 0 3 (snode_name parameter))) then
    mret tt
  else if store_isinstance parameter ClsParameterScale
          || store_isinstance parameter ClsParameterScaleBracket then
    mret tt
  else if store_isinstance parameter ClsParameter then
    fields ← store_parameter_fields parameter;
    setitem parameter_data (snode_name parameter) fields
  else if store_isinstance (stree_root parameters) ClsParameterNode then
    fields ← store_parameter_node_fields parameter;
    setitem parameter_data (snode_name parameter) fields
  else mret tt.

Definition store_build_parameters (country : option StoredCountry)
    : M sval :=
  tbs ← store_getattr_tax_benefit_system country;
  let parameters := sparameters tbs in
  parameter_data ← alloc (ODict ∅);
  _ ← store_for_each (store_build_parameters_body parameters parameter_data)
        (sget_descendants parameters);
  mret parameter_data.

Definition store_metadata (country_id : string) : M sval :=
  let country := STORED_COUNTRIES !! country_id in
  country_not_found ← store_validate_country country_id;
  is_true ← store_truthy country_not_found;
  if is_true : bool then mret country_not_found
  else
    variables ← store_build_variables country;
    parameters ← store_build_parameters country;
    entities ← store_build_entities country;
    tbs ← store_getattr_tax_benefit_system country;
    economy_options ← store_build_microsimulation_options country country_id;
    res ← alloc (ODict (store_dict [
      ("variables", variables);
      ("parameters", parameters);
      ("entities", entities);
      ("variableModules", svariable_module_metadata tbs);
      ("economy_options", economy_options);
      ("current_law_id",
        Imm (PInt (if String.eqb country_id "uk" then 1 else 2)))
    ]));
    alloc (ODict (store_dict [
      ("status", Imm (PStr "ok"));
      ("message", Imm PNone);
      ("result", res)
    ])).

End StoreCollaborators.

(** *** What the store denotes *)

(** [denotes h v p]: in the store [h], the value [v] reads as [p]. *)
Inductive denotes (h : heap) : sval → pyval → Prop :=
  | denotes_imm p : denotes h (Imm p) p
  | denotes_dict l d pd :
      h !! l = Some (ODict d) →
      dom d = dom pd →
      (∀ k v p, d !! k = Some v → pd !! k = Some p → denotes h v p) →
      denotes h (Ref l) (PDict pd)
  | denotes_list l xs ps :
      h !! l = Some (OList xs) →
      length xs = length ps →
      (∀ i v p, xs !! i = Some v → ps !! i = Some p → denotes h v p) →
      denotes h (Ref l) (PList ps).

Definition role_denotes (h : heap) (s : StoredRole) (r : Role) : Prop :=
  srole_key s = role_key r
  ∧ denotes h (srole_plural s) (role_plural r)
  ∧ denotes h (srole_label s) (role_label r)
  ∧ denotes h (srole_doc s) (role_doc r).

Definition entity_denotes (h : heap) (s : StoredEntity) (e : Entity) : Prop :=
  denotes h (sent_plural s) (ent_plural e)
  ∧ denotes h (sent_label s) (ent_label e)
  ∧ denotes h (sent_doc s) (ent_doc e)
  ∧ denotes h (sent_is_person s) (ent_is_person e)
  ∧ sent_key s = ent_key e
  ∧ option_Forall2 (Forall2 (role_denotes h)) (sent_roles s) (ent_roles e).

Definition variable_denotes (h : heap) (s : StoredVariable) (v : PEVariable)
    : Prop :=
  denotes h (svar_documentation s) (var_documentation v)
  ∧ entity_denotes h (svar_entity s) (var_entity v)
  ∧ svar_value_type_name s = var_value_type_name v
  ∧ denotes h (svar_definition_period s) (var_definition_period v)
  ∧ denotes h (svar_label s) (var_label v)
  ∧ denotes h (svar_category s) (var_category v)
  ∧ denotes h (svar_unit s) (var_unit v)
  ∧ denotes h (svar_module_name s) (var_module_name v)
  ∧ denotes h (svar_index_in_module s) (var_index_in_module v)
  ∧ svar_is_input_variable s = var_is_input_variable v
  ∧ denotes h (svar_default_value s) (var_default_value v)
  ∧ denotes h (svar_adds s) (var_adds v)
  ∧ denotes h (svar_subtracts s) (var_subtracts v)
  ∧ svar_possible_values s = var_possible_values v.

Definition value_at_instant_denotes (h : heap) (s : StoredValueAtInstant)
    (v : ValueAtInstant) : Prop :=
  sinstant_str s = instant_str v ∧ denotes h (svai_value s) (vai_value v).

Definition parameter_denotes (h : heap) (s : StoredParameter)
    (p : ParameterObject) : Prop :=
  snode_classes s = node_classes p
  ∧ snode_name s = node_name p
  ∧ denotes h (snode_description s) (node_description p)
  ∧ denotes h (snode_metadata s) (PDict (node_metadata p))
  ∧ Forall2 (value_at_instant_denotes h)
      (snode_values_list s) (node_values_list p).

Definition tree_denotes (h : heap) (s : StoredTree) (t : ParameterTree)
    : Prop :=
  parameter_denotes h (stree_root s) (tree_root t)
  ∧ Forall2 (parameter_denotes h) (sget_descendants s) (get_descendants t).

Definition system_denotes (h : heap) (s : StoredSystem) (t : TaxBenefitSystem)
    : Prop :=
  (∀ name, option_Forall2 (variable_denotes h)
             (svariables s !! name) (variables t !! name))
  ∧ tree_denotes h (sparameters s) (parameters t)
  ∧ Forall2 (entity_denotes h) (sentities s) (entities t)
  ∧ denotes h (svariable_module_metadata s) (variable_module_metadata t).

Definition country_denotes (h : heap) (s : StoredCountry)
    (c : PolicyEngineCountry) : Prop :=
  system_denotes h (stax_benefit_system s) (tax_benefit_system c).

Definition registry_denotes (h : heap)
    (stored : gmap string StoredCountry)
    (countries : gmap string PolicyEngineCountry) : Prop :=
  ∀ country_id, option_Forall2 (country_denotes h)
                  (stored !! country_id) (countries !! country_id).

(** *** Auxiliary definitions for the store *)

(** The store without the objects at the locations of [X]. *)
Definition hide (X : gset loc) (h : heap) : heap :=
  filter (λ lo, lo.1 ∉ X) h.

Definition dict_denotes (h : heap) (d : gmap string sval)
    (pd : gmap string pyval) : Prop :=
  dom d = dom pd
  ∧ ∀ k v p, d !! k = Some v → pd !! k = Some p → denotes h v p.

Definition item_denotes (h : heap) (a : string * sval) (b : string * pyval)
    : Prop :=
  a.1 = b.1 ∧ denotes h a.2 b.2.

(** [m], run in [h], refines the pure computation [pure]: it changes no
    object of [h]; it returns when [pure] does, a result related to that
    of [pure] by [R] in the final store without the locations of [X]; it
    raises when [pure] does. *)
Definition refines {A B : Type} (X : gset loc) (R : heap → A → B → Prop)
    (m : M A) (h : heap) (pure : result B) : Prop :=
  let '(r, h') := m h in
  h ⊆ h'
  ∧ match r, pure with
    | Ok a, Ok b => R (hide X h') a b
    | Raise _, Raise _ => True
    | _, _ => False
    end.

(** A relation that keeps holding when the store grows. *)
Definition monotone {A B : Type} (R : heap → A → B → Prop) : Prop :=
  ∀ h h' a b, h ⊆ h' → R h a b → R h' a b.

(** What a loop over pure items builds, when an item either raises
    ([None]), stores nothing ([Some None]) or stores a record under its
    key. *)
Definition accumulate {B : Type} (key : B → string)
    (outcome : B → option (option pyval)) (acc : gmap string pyval)
    (pxs : list B) : gmap string pyval :=
  foldl (λ acc px,
    from_option (λ v, <[key px := v]> acc) acc (mjoin (outcome px))) acc pxs.

(** One iteration of a loop on the dictionary at [l], for an item that
    denotes [px]: the rest of the store is kept; the iteration raises
    when that of [px] does, and otherwise stores at the key of [px] a
    value that denotes the record of [px], or nothing. *)
Definition iteration_refines {A B : Type} (key : B → string)
    (outcome : B → option (option pyval)) (body : sval → A → M unit)
    (X : gset loc) (l : loc) (h : heap) (d : gmap string sval)
    (x : A) (px : B) : Prop :=
  let '(r, h') := body (Ref l) x h in
  hide {[l]} h ⊆ hide {[l]} h'
  ∧ match r, outcome px with
    | Ok _, Some (Some p) =>
        ∃ v, h' !! l = Some (ODict (<[key px := v]> d))
             ∧ denotes (hide (X ∪ {[l]}) h') v p
    | Ok _, Some None => h' !! l = Some (ODict d)
    | Raise _, None => True
    | _, _ => False
    end.

(** The result of a projector, a dictionary. *)
Definition denotes_dict_of (h : heap) (v : sval) (pd : gmap string pyval)
    : Prop :=
  denotes h v (PDict pd).

Definition variable_item_denotes (h : heap) (a : string * StoredVariable)
    (b : string * PEVariable) : Prop :=
  a.1 = b.1 ∧ variable_denotes h a.2 b.2.

(** *** A rule system in the store

    A pure rule system put in the store with immutable values, and the
    sample country with the metadata of its rate parameter and the
    metadata of its variable modules as objects of the store. *)

Definition imm_role (r : Role) : StoredRole := {|
  srole_key := role_key r;
  srole_plural := Imm (role_plural r);
  srole_label := Imm (role_label r);
  srole_doc := Imm (role_doc r)
|}.

Definition imm_entity (e : Entity) : StoredEntity := {|
  sent_plural := Imm (ent_plural e);
  sent_label := Imm (ent_label e);
  sent_doc := Imm (ent_doc e);
  sent_is_person := Imm (ent_is_person e);
  sent_key := ent_key e;
  sent_roles := option_map (map imm_role) (ent_roles e)
|}.

Definition imm_variable (v : PEVariable) : StoredVariable := {|
  svar_documentation := Imm (var_documentation v);
  svar_entity := imm_entity (var_entity v);
  svar_value_type_name := var_value_type_name v;
  svar_definition_period := Imm (var_definition_period v);
  svar_label := Imm (var_label v);
  svar_category := Imm (var_category v);
  svar_unit := Imm (var_unit v);
  svar_module_name := Imm (var_module_name v);
  svar_index_in_module := Imm (var_index_in_module v);
  svar_is_input_variable := var_is_input_variable v;
  svar_default_value := Imm (var_default_value v);
  svar_adds := Imm (var_adds v);
  svar_subtracts := Imm (var_subtracts v);
  svar_possible_values := var_possible_values v
|}.

Definition imm_value_at_instant (v : ValueAtInstant) : StoredValueAtInstant := {|
  sinstant_str := instant_str v;
  svai_value := Imm (vai_value v)
|}.

Definition imm_parameter (p : ParameterObject) : StoredParameter := {|
  snode_classes := node_classes p;
  snode_name := node_name p;
  snode_description := Imm (node_description p);
  snode_metadata := Imm (PDict (node_metadata p));
  snode_values_list := imm_value_at_instant <$> node_values_list p
|}.

Definition sample_heap : heap :=
  <[1%positive := ODict (<["label" := Imm (PStr "Basic rate")]>
                           (<["unit" := Imm (PStr "/1")]> ∅))]>
    (<[2%positive := ODict ∅]> ∅).

Definition stored_rate_parameter : StoredParameter := {|
  snode_classes := [ClsParameter];
  snode_name := "gov.tax.rate";
  snode_description := Imm (PStr "Basic rate");
  snode_metadata := Ref 1%positive;
  snode_values_list := imm_value_at_instant <$> node_values_list rate_parameter
|}.

Definition sample_stored_country : StoredCountry := {|
  stax_benefit_system := {|
    svariables := imm_variable <$> variables (tax_benefit_system sample_country);
    sparameters := {|
      stree_root := imm_parameter (tree_root sample_tree);
      sget_descendants := [
        imm_parameter (sample_node [ClsParameterNode] "gov");
        imm_parameter (sample_node [ClsParameterNode] "gov.tax");
        stored_rate_parameter;
        imm_parameter scale_node;
        imm_parameter
          (sample_node [ClsParameterScaleBracket; ClsParameterNode]
             "gov.tax.scale[0]");
        imm_parameter odd_node;
        imm_parameter (sample_node [ClsParameter] "calibration.weight")
      ]
    |};
    sentities := imm_entity <$> entities (tax_benefit_system sample_country);
    svariable_module_metadata := Ref 2%positive
  |}
|}.

Definition sample_stored_countries : gmap string StoredCountry :=
  {["uk" := sample_stored_country; "us" := sample_stored_country]}.

Definition sample_store_validate_country (country_id : string) : M sval :=
  mret (Imm (sample_validate_country country_id)).

Definition sample_store_get_safe_json (v : sval) : M sval := mret v.

(** ** A rule system with an ill-formed variable

    The sample country with the default of its enumeration variable
    missing. *)

Definition broken_variable : PEVariable := {|
  var_documentation := PNone;
  var_entity := household_entity;
  var_value_type_name := "Enum";
  var_definition_period := PStr "year";
  var_label := PStr "Filing status";
  var_category := PNone;
  var_unit := PNone;
  var_module_name := PStr "demographic.filing_status";
  var_index_in_module := PInt 0;
  var_is_input_variable := true;
  var_default_value := PNone;
  var_adds := PNone;
  var_subtracts := PNone;
  var_possible_values := Some [single_member; joint_member]
|}.

Definition broken_country : PolicyEngineCountry := {|
  tax_benefit_system := {|
    variables := {["age" := age_variable;
                   "filing_status" := broken_variable]};
    parameters := sample_tree;
    entities := [person_entity; household_entity];
    variable_module_metadata := PDict ∅
  |}
|}.

(** The sample country with other descendants in its parameter tree, or
    other entities. *)
Definition country_with_descendants (descendants : list ParameterObject)
    : PolicyEngineCountry := {|
  tax_benefit_system := {|
    variables := variables (tax_benefit_system sample_country);
    parameters := {|
      tree_root := tree_root sample_tree;
      get_descendants := descendants
    |};
    entities := entities (tax_benefit_system sample_country);
    variable_module_metadata := PDict ∅
  |}
|}.

Definition country_with_entities (collection : list Entity)
    : PolicyEngineCountry := {|
  tax_benefit_system := {|
    variables := variables (tax_benefit_system sample_country);
    parameters := sample_tree;
    entities := collection;
    variable_module_metadata := PDict ∅
  |}
|}.

(** An enumeration variable without members, its default a member of
    another enumeration. *)
Definition empty_enum_variable : PEVariable := {|
  var_documentation := PNone;
  var_entity := household_entity;
  var_value_type_name := "Enum";
  var_definition_period := PStr "year";
  var_label := PStr "Filing status";
  var_category := PNone;
  var_unit := PNone;
  var_module_name := PStr "demographic.filing_status";
  var_index_in_module := PInt 0;
  var_is_input_variable := true;
  var_default_value := enum_object single_member;
  var_adds := PNone;
  var_subtracts := PNone;
  var_possible_values := Some []
|}.


(** The rate parameter with its value at the first instant given once
    more, after the others. *)
Definition revised_rate_parameter : ParameterObject := {|
  node_classes := [ClsParameter];
  node_name := "gov.tax.rate";
  node_description := PStr "Basic rate";
  node_metadata := {["label" := PStr "Basic rate"; "unit" := PStr "/1"]};
  node_values_list := [
    {| instant_str := "2022-01-01"; vai_value := PInt 20 |};
    {| instant_str := "2015-01-01"; vai_value := PInt 22 |};
    {| instant_str := "2022-01-01"; vai_value := PInt 19 |}
  ]
|}.

(** * Properties *)

(** ** Dictionaries *)

Lemma pydict_snoc (items : list (string * pyval)) k v :
  pydict (items ++ [(k, v)]) = <[k := v]> (pydict items).
Proof. unfold pydict. by rewrite foldl_app. Qed.

Lemma pydict_list_to_map (items : list (string * pyval)) :
  pydict items = list_to_map (reverse items).
Proof.
  induction items as [|[k v] items IH] using rev_ind; [done|].
  by rewrite pydict_snoc, reverse_snoc, IH.
Qed.

Lemma dom_pydict (items : list (string * pyval)) :
  dom (pydict items) = list_to_set (items.*1).
Proof.
  rewrite pydict_list_to_map, dom_list_to_map_L, fmap_reverse.
  apply set_eq. intros k. rewrite !elem_of_list_to_set. apply elem_of_reverse.
Qed.

(** A stored value comes from one of the items. *)
Lemma pydict_lookup_Some (items : list (string * pyval)) k v :
  pydict items !! k = Some v → (k, v) ∈ items.
Proof.
  rewrite pydict_list_to_map. intros H.
  apply elem_of_reverse. by apply elem_of_list_to_map_2.
Qed.

(** Every key of the items is stored. *)
Lemma pydict_lookup_is_Some (items : list (string * pyval)) k :
  k ∈ items.*1 → is_Some (pydict items !! k).
Proof.
  intros H. apply elem_of_dom. rewrite dom_pydict.
  by apply elem_of_list_to_set.
Qed.

(** A key that occurs with one value only is stored with that value. *)
Lemma pydict_lookup_unique (items : list (string * pyval)) k v :
  (k, v) ∈ items → (∀ v', (k, v') ∈ items → v' = v) →
  pydict items !! k = Some v.
Proof.
  intros Hin Huniq.
  destruct (pydict_lookup_is_Some items k) as [v' Hv'].
  { apply list_elem_of_fmap. by exists (k, v). }
  rewrite Hv'. f_equal. apply Huniq. by apply pydict_lookup_Some.
Qed.

(** ** Loops that store one record per item

    Each loop of the endpoint walks a collection and, for an item [x],
    either stores a record at the key of [x] or leaves the mapping as it
    is.  Such a loop builds the dictionary of the stored records, a later
    item replacing an earlier one with the same key. *)

Section StoreLoop.

Context {A : Type}.
Variable key : A → string.
Variable stored : A → option pyval.
Variable body : gmap string pyval → A → gmap string pyval.

Hypothesis body_stores : ∀ acc x,
  body acc x = from_option (λ v, <[key x := v]> acc) acc (stored x).

#[local] Abbreviation items_of := (stored_items key stored).

Lemma elem_of_stored_items xs k v :
  (k, v) ∈ items_of xs ↔ ∃ x, x ∈ xs ∧ key x = k ∧ stored x = Some v.
Proof.
  unfold stored_items. rewrite list_elem_of_omap. split.
  - intros (x & Hx & Heq). exists x. destruct (stored x); naive_solver.
  - intros (x & Hx & <- & Hs). exists x. by rewrite Hs.
Qed.

Lemma store_loop_pydict xs :
  foldl body ∅ xs = pydict (items_of xs).
Proof.
  induction xs as [|x xs IH] using rev_ind; [done|].
  rewrite foldl_app. simpl. rewrite body_stores, IH.
  unfold stored_items. rewrite omap_app. simpl.
  destruct (stored x) as [v|]; simpl.
  - by rewrite pydict_snoc.
  - by rewrite app_nil_r.
Qed.

(** Every entry of the result was stored for some item. *)
Lemma store_loop_lookup_Some xs k v :
  foldl body ∅ xs !! k = Some v →
  ∃ x, x ∈ xs ∧ key x = k ∧ stored x = Some v.
Proof.
  rewrite store_loop_pydict. intros H.
  by apply elem_of_stored_items, pydict_lookup_Some.
Qed.

(** An item for which a record is stored has its key in the result,
    with the record of an item of that key. *)
Lemma store_loop_lookup_key xs x v :
  x ∈ xs → stored x = Some v →
  ∃ y w, y ∈ xs ∧ key y = key x ∧ stored y = Some w
         ∧ foldl body ∅ xs !! key x = Some w.
Proof.
  intros Hx Hs.
  destruct (pydict_lookup_is_Some (items_of xs) (key x)) as [w Hw].
  { apply list_elem_of_fmap. exists (key x, v). split; [done|].
    apply elem_of_stored_items. eauto. }
  destruct (proj1 (elem_of_stored_items xs (key x) w)) as (y & ? & ? & ?).
  { by apply pydict_lookup_Some. }
  exists y, w. by rewrite store_loop_pydict.
Qed.

(** When the item is the only one of its key, the record is its own. *)
Lemma store_loop_lookup_unique xs x :
  x ∈ xs → (∀ y, y ∈ xs → key y = key x → y = x) →
  foldl body ∅ xs !! key x = stored x.
Proof.
  intros Hx Huniq. destruct (stored x) as [v|] eqn:Hs.
  - rewrite store_loop_pydict. apply pydict_lookup_unique.
    + apply elem_of_stored_items. eauto.
    + intros v' (y & Hy & Hk & Hv')%elem_of_stored_items.
      rewrite (Huniq y Hy Hk) in Hv'. congruence.
  - destruct (foldl body ∅ xs !! key x) as [v|] eqn:Hl; [|done].
    apply store_loop_lookup_Some in Hl as (y & Hy & Hk & Hv).
    rewrite (Huniq y Hy Hk) in Hv. congruence.
Qed.

End StoreLoop.

(** ** The economy options *)

(** C7: for ["uk"] the economy options hold exactly two regions, named
    ["uk"] and ["ni"], and exactly one time period, the year 2022; for
    ["us"] exactly thirteen regions and one time period; for every other
    identifier the mapping is empty, with no [region] and no
    [time_period] key. *)
Theorem build_microsimulation_options_table
    (country : option PolicyEngineCountry) :
  (∃ regions periods,
     build_microsimulation_options country "uk" !! "region"
       = Some (PList regions)
     ∧ build_microsimulation_options country "uk" !! "time_period"
       = Some (PList periods)
     ∧ dom (build_microsimulation_options country "uk")
       = {["region"; "time_period"]}
     ∧ length regions = 2
     ∧ entry_names regions = [PStr "uk"; PStr "ni"]
     ∧ length periods = 1
     ∧ entry_names periods = [PInt 2022])
  ∧ (∃ regions periods,
     build_microsimulation_options country "us" !! "region"
       = Some (PList regions)
     ∧ build_microsimulation_options country "us" !! "time_period"
       = Some (PList periods)
     ∧ dom (build_microsimulation_options country "us")
       = {["region"; "time_period"]}
     ∧ length regions = 13
     ∧ length periods = 1)
  ∧ (∀ country_id : string,
     country_id ≠ "uk" → country_id ≠ "us" →
     build_microsimulation_options country country_id = ∅
     ∧ build_microsimulation_options country country_id !! "region" = None
     ∧ build_microsimulation_options country country_id !! "time_period"
       = None).
Proof.
  split; [|split].
  - eexists _, _. unfold build_microsimulation_options. simpl.
    repeat split; reflexivity.
  - eexists _, _. unfold build_microsimulation_options. simpl.
    repeat split; reflexivity.
  - intros country_id Huk Hus. unfold build_microsimulation_options.
    apply String.eqb_neq in Huk, Hus. rewrite Huk, Hus. done.
Qed.

Lemma build_microsimulation_options_table_witness :
  build_microsimulation_options None "ca" = ∅
  ∧ build_microsimulation_options None "ca" !! "region" = None
  ∧ build_microsimulation_options None "ca" !! "time_period" = None.
Proof.
  apply (proj2 (proj2 (build_microsimulation_options_table None)) "ca");
    discriminate.
Defined.

(** ** The parameter projector *)

(** The test [name[:3] == "gov"] holds exactly for the names that begin
    with the three characters [gov]. *)
Lemma gov_slice_prefix (name : string) :
  String.eqb "gov" (substring 0 3 name) = true
  ↔ ∃ rest, name = "gov" +:+ rest.
Proof.
  rewrite String.eqb_eq. split.
  - destruct name as [|a [|b [|c rest]]]; simpl; try discriminate.
    destruct rest; intros [= <- <- <-]; by eexists.
  - intros [rest ->]. by destruct rest.
Qed.

Section ParameterProjector.

Variable get_safe_json : pyval → pyval.

Lemma build_parameters_body_stores parameters parameter_data parameter :
  build_parameters_body get_safe_json parameters parameter_data parameter
  = from_option (λ v, <[node_name parameter := v]> parameter_data)
      parameter_data (parameter_record get_safe_json parameters parameter).
Proof.
  unfold build_parameters_body, parameter_record.
  destruct (negb _); [done|].
  destruct (_ || _); [done|].
  destruct (isinstance parameter _); [done|].
  by destruct (isinstance (tree_root parameters) _).
Qed.

(** What is stored for a descendant, case by case. *)
Lemma parameter_record_Some parameters parameter v :
  parameter_record get_safe_json parameters parameter = Some v →
  (∃ rest, node_name parameter = "gov" +:+ rest)
  ∧ isinstance parameter ClsParameterScale = false
  ∧ isinstance parameter ClsParameterScaleBracket = false
  ∧ (v = PDict (parameter_fields get_safe_json parameter)
     ∨ v = PDict (parameter_node_fields parameter)).
Proof.
  unfold parameter_record.
  destruct (String.eqb "gov" _) eqn:Hgov; simpl; [|done].
  apply gov_slice_prefix in Hgov.
  destruct (isinstance parameter ClsParameterScale); simpl; [done|].
  destruct (isinstance parameter ClsParameterScaleBracket); simpl; [done|].
  destruct (isinstance parameter ClsParameter).
  { intros [= <-]. eauto. }
  destruct (isinstance (tree_root parameters) ClsParameterNode); [|done].
  intros [= <-]. eauto.
Qed.

(** C1: a descendant that passes both filters (its name begins with
    [gov]; it is neither a scale nor a scale bracket) and is not a plain
    parameter gets the record [{type: "parameterNode", parameter: name,
    description, label}], whatever its own class is: the test of the
    last branch is on the root of the parameter tree, which is a
    parameter node.  The iteration for the descendant stores the record;
    the mapping returned holds it when no other descendant has the same
    name. *)
Theorem build_parameters_branch_b (c : PolicyEngineCountry)
    (parameter : ParameterObject) :
  let tree := parameters (tax_benefit_system c) in
  let record := PDict (pydict [
    ("type", PStr "parameterNode");
    ("parameter", PStr (node_name parameter));
    ("description", node_description parameter);
    ("label", dict_get (node_metadata parameter) "label")]) in
  isinstance (tree_root tree) ClsParameterNode = true →
  parameter ∈ get_descendants tree →
  (∃ rest, node_name parameter = "gov" +:+ rest) →
  isinstance parameter ClsParameterScale = false →
  isinstance parameter ClsParameterScaleBracket = false →
  isinstance parameter ClsParameter = false →
  (∀ parameter_data,
     build_parameters_body get_safe_json tree parameter_data parameter
     = <[node_name parameter := record]> parameter_data)
  ∧ ∃ out,
      build_parameters get_safe_json (Some c) = Ok out
      ∧ ((∀ other, other ∈ get_descendants tree →
            node_name other = node_name parameter → other = parameter) →
         out !! node_name parameter = Some record).
Proof.
  intros tree record Hroot Hin Hgov Hscale Hbracket Hparam.
  assert (parameter_record get_safe_json tree parameter = Some record)
    as Hrec.
  { unfold parameter_record.
    apply gov_slice_prefix in Hgov.
    by rewrite Hgov, Hscale, Hbracket, Hparam, Hroot. }
  split.
  - intros parameter_data.
    by rewrite build_parameters_body_stores, Hrec.
  - eexists. split; [reflexivity|]. intros Huniq. fold tree.
    rewrite <- Hrec.
    apply (store_loop_lookup_unique node_name
             (parameter_record get_safe_json tree)); [|done..].
    intros. apply build_parameters_body_stores.
Qed.

(** C6: every key of the mapping returned by the parameter projector is
    the name of a descendant whose name begins with [gov] and that is
    neither a scale nor a scale bracket, the entry being the record of
    that descendant; a descendant whose name does not begin with [gov]
    has no entry, and neither has a scale or scale bracket (unless
    another descendant carries the same name). *)
Theorem build_parameters_keys (c : PolicyEngineCountry) :
  let tree := parameters (tax_benefit_system c) in
  ∃ out,
    build_parameters get_safe_json (Some c) = Ok out
    ∧ (∀ k v, out !! k = Some v →
         ∃ parameter,
           parameter ∈ get_descendants tree
           ∧ node_name parameter = k
           ∧ (∃ rest, k = "gov" +:+ rest)
           ∧ isinstance parameter ClsParameterScale = false
           ∧ isinstance parameter ClsParameterScaleBracket = false
           ∧ (v = PDict (parameter_fields get_safe_json parameter)
              ∨ v = PDict (parameter_node_fields parameter)))
    ∧ (∀ parameter,
         parameter ∈ get_descendants tree →
         (¬ ∃ rest, node_name parameter = "gov" +:+ rest) →
         out !! node_name parameter = None)
    ∧ (∀ parameter,
         parameter ∈ get_descendants tree →
         isinstance parameter ClsParameterScale = true
         ∨ isinstance parameter ClsParameterScaleBracket = true →
         (∀ other, other ∈ get_descendants tree →
            node_name other = node_name parameter → other = parameter) →
         out !! node_name parameter = None).
Proof.
  intros tree. eexists. split; [reflexivity|]. fold tree.
  assert (∀ k v,
    foldl (build_parameters_body get_safe_json tree) ∅
      (get_descendants tree) !! k = Some v →
    ∃ parameter, parameter ∈ get_descendants tree
      ∧ node_name parameter = k
      ∧ parameter_record get_safe_json tree parameter = Some v) as Hinv.
  { intros k v. apply store_loop_lookup_Some.
    intros. apply build_parameters_body_stores. }
  split; [|split].
  - intros k v (parameter & Hin & <- & Hrec)%Hinv.
    apply parameter_record_Some in Hrec as (? & ? & ? & ?).
    by exists parameter.
  - intros parameter Hin Hgov.
    destruct (foldl _ _ _ !! _) as [v|] eqn:Hl; [|done].
    apply Hinv in Hl as (other & _ & Hname & Hrec).
    apply parameter_record_Some in Hrec as (Hpre & _).
    by rewrite Hname in Hpre.
  - intros parameter Hin Hcls Huniq.
    destruct (foldl _ _ _ !! _) as [v|] eqn:Hl; [|done].
    apply Hinv in Hl as (other & Hother & Hname & Hrec).
    rewrite (Huniq other Hother Hname) in Hrec.
    apply parameter_record_Some in Hrec as (_ & ? & ? & _).
    destruct Hcls; congruence.
Qed.

End ParameterProjector.

(** The sample tree has no two descendants of the same name. *)
Lemma sample_tree_names_unique (parameter other : ParameterObject) :
  parameter ∈ get_descendants sample_tree →
  other ∈ get_descendants sample_tree →
  node_name other = node_name parameter → other = parameter.
Proof.
  simpl. rewrite !elem_of_cons, !elem_of_nil.
  intros Hp Ho.
  repeat (destruct Hp as [Hp|Hp]); try done; subst parameter;
    repeat (destruct Ho as [Ho|Ho]); try done; subst other;
    try reflexivity; discriminate.
Qed.

Lemma build_parameters_branch_b_witness :
  ∃ out,
    build_parameters (λ v, v) (Some sample_country) = Ok out
    ∧ out !! "gov.odd" = Some (PDict (pydict [
        ("type", PStr "parameterNode");
        ("parameter", PStr "gov.odd");
        ("description", PNone);
        ("label", PNone)])).
Proof.
  destruct (build_parameters_branch_b (λ v, v) sample_country odd_node)
    as [_ (out & Hout & Hlookup)].
  - reflexivity.
  - simpl. rewrite !elem_of_cons. auto 10.
  - by exists ".odd".
  - reflexivity.
  - reflexivity.
  - reflexivity.
  - exists out. split; [exact Hout|]. apply Hlookup.
    intros other Hother. apply sample_tree_names_unique; [|exact Hother].
    simpl. rewrite !elem_of_cons. auto 10.
Defined.

Lemma build_parameters_keys_witness :
  ∃ out,
    build_parameters (λ v, v) (Some sample_country) = Ok out
    ∧ out !! "gov.tax.scale" = None.
Proof.
  destruct (build_parameters_keys (λ v, v) sample_country)
    as (out & Hout & _ & _ & Hscale).
  exists out. split; [exact Hout|].
  apply (Hscale scale_node).
  - simpl. rewrite !elem_of_cons. auto 10.
  - by left.
  - intros other Hother. apply sample_tree_names_unique; [|exact Hother].
    simpl. rewrite !elem_of_cons. auto 10.
Defined.

(** ** Loops that may raise *)

Section RaisingStoreLoop.

Context {A : Type}.
Variable key : A → string.
Variable stored : A → option pyval.
Variable body : gmap string pyval → A → result (gmap string pyval).

Hypothesis body_stores : ∀ acc x v,
  stored x = Some v → body acc x = Ok (<[key x := v]> acc).
Hypothesis body_raises : ∀ acc x,
  stored x = None → ∃ e, body acc x = Raise e.

#[local] Abbreviation pure_body :=
  (λ (acc : gmap string pyval) x,
     from_option (λ v, <[key x := v]> acc) acc (stored x)).

(** The loop returns exactly when no iteration raises, and then it
    returns what the loop of the stored records builds. *)
Lemma for_each_Ok acc xs out :
  for_each body acc xs = Ok out
  ↔ Forall (λ x, is_Some (stored x)) xs ∧ out = foldl pure_body acc xs.
Proof.
  revert acc. induction xs as [|x xs IH]; intros acc; simpl.
  - split; [intros [= <-]; by split|]. by intros [_ ->].
  - rewrite Forall_cons. destruct (stored x) as [v|] eqn:Hs.
    + rewrite (body_stores acc x v Hs). simpl.
      unfold mbind, result_bind. rewrite IH.
      split; [intros [? ?]; by repeat split|]. by intros [[_ ?] ?].
    + destruct (body_raises acc x Hs) as [e ->]. simpl.
      unfold mbind, result_bind.
      split; [done|]. intros [[[] ?] ?]. done.
Qed.

End RaisingStoreLoop.

(** ** The variable projector *)

(** Looking a key up in a dictionary display with known keys. *)
Ltac dict_lookup :=
  unfold pydict at 1; cbn [foldl fst snd];
  repeat first
    [ rewrite lookup_insert_eq
    | rewrite lookup_insert_ne by discriminate ];
  try reflexivity.

Lemma well_formed_variable_record (item : string * PEVariable) :
  is_Some (variable_record item) ↔ well_formed_variable item.2 = true.
Proof.
  destruct item as [variable_name variable].
  unfold variable_record, well_formed_variable. simpl.
  destruct (String.eqb _ _); [|by split; eauto].
  destruct (var_possible_values variable), (var_default_value variable);
    split; (done || by inversion 1 || eauto).
Qed.

Lemma build_variables_body_stores variable_data item v :
  variable_record item = Some v →
  build_variables_body variable_data item = Ok (<[item.1 := v]> variable_data).
Proof.
  destruct item as [variable_name variable].
  unfold variable_record, build_variables_body. simpl.
  destruct (String.eqb _ _).
  - unfold getattr_possible_values.
    destruct (var_possible_values variable) as [members|]; [|done].
    destruct (var_default_value variable); try done. intros [= <-].
    simpl. unfold mbind, result_bind, setitem_at.
    rewrite lookup_insert_eq, insert_insert_eq. simpl.
    by rewrite lookup_insert_eq, insert_insert_eq.
  - by intros [= <-].
Qed.

Lemma build_variables_body_raises variable_data item :
  variable_record item = None →
  ∃ e, build_variables_body variable_data item = Raise e.
Proof.
  destruct item as [variable_name variable].
  unfold variable_record, build_variables_body.
  destruct (String.eqb _ _); [|done].
  unfold getattr_possible_values.
  destruct (var_possible_values variable) as [members|]; [|by eexists].
  simpl. unfold mbind, result_bind, setitem_at.
  rewrite lookup_insert_eq, insert_insert_eq. simpl.
  destruct (var_default_value variable); try done; by eexists.
Qed.

(** The variable projector returns exactly on rule systems whose
    variables are all well formed. *)
Lemma build_variables_returns (c : PolicyEngineCountry) :
  (∃ out, build_variables (Some c) = Ok out)
  ↔ ∀ variable_name variable,
      variables (tax_benefit_system c) !! variable_name = Some variable →
      well_formed_variable variable = true.
Proof.
  unfold build_variables. simpl. unfold mbind, result_bind.
  split.
  - intros [out Hout] variable_name variable Hlookup.
    apply (for_each_Ok fst variable_record) in Hout as [Hall _];
      [|apply build_variables_body_stores|apply build_variables_body_raises].
    rewrite Forall_forall in Hall.
    apply (well_formed_variable_record (variable_name, variable)), Hall.
    by apply elem_of_map_to_list.
  - intros Hwf. eexists.
    apply (for_each_Ok fst variable_record);
      [apply build_variables_body_stores|apply build_variables_body_raises|].
    split; [|reflexivity].
    apply Forall_forall. intros [variable_name variable] Hin.
    apply well_formed_variable_record. simpl.
    apply (Hwf variable_name). by apply elem_of_map_to_list.
Qed.

(** When it returns, the mapping holds under each variable name the
    record of that variable, and nothing else. *)
Lemma build_variables_lookup (c : PolicyEngineCountry) out variable_name :
  build_variables (Some c) = Ok out →
  out !! variable_name
  = variables (tax_benefit_system c) !! variable_name
    ≫= λ variable, variable_record (variable_name, variable).
Proof.
  unfold build_variables. simpl. unfold mbind at 1, result_bind.
  intros Hout.
  apply (for_each_Ok fst variable_record) in Hout as [_ ->];
    [|apply build_variables_body_stores|apply build_variables_body_raises].
  destruct (variables _ !! variable_name) as [variable|] eqn:Hlookup; simpl.
  - apply (store_loop_lookup_unique fst variable_record _
             (λ acc x, eq_refl) _ (variable_name, variable)).
    + by apply elem_of_map_to_list.
    + intros [n v] Hin%elem_of_map_to_list. simpl. intros ->. congruence.
  - destruct (foldl _ _ _ !! _) as [v|] eqn:Hl; [|done].
    apply (store_loop_lookup_Some fst variable_record _ (λ acc x, eq_refl))
      in Hl as ([n v'] & Hin%elem_of_map_to_list & Hk & _).
    simpl in Hk. congruence.
Qed.


Lemma sample_variables_well_formed (name : string) (variable : PEVariable) :
  variables (tax_benefit_system sample_country) !! name = Some variable →
  well_formed_variable variable = true.
Proof.
  simpl. intros Hlookup.
  apply lookup_insert_Some in Hlookup as [[_ <-]|[_ Hlookup]]; [reflexivity|].
  apply lookup_singleton_Some in Hlookup as [_ <-]. reflexivity.
Qed.



(** C5: for a variable whose value type is not named ["Enum"], the record
    of the variable has [defaultValue] equal to the raw default when that
    is an integer, a float or a boolean, and [None] otherwise (so for a
    string, a list and [None]).  The iteration for the variable stores
    this record and the mapping returned holds it under the name of the
    variable. *)
Theorem build_variables_default_value (c : PolicyEngineCountry)
    (variable_name : string) (variable : PEVariable) :
  variables (tax_benefit_system c) !! variable_name = Some variable →
  var_value_type_name variable ≠ "Enum" →
  ∃ record,
    (∀ variable_data,
       build_variables_body variable_data (variable_name, variable)
       = Ok (<[variable_name := PDict record]> variable_data))
    ∧ record !! "defaultValue"
      = Some (match var_default_value variable with
              | PInt _ | PFloat _ | PBool _ => var_default_value variable
              | PNone | PStr _ | PList _ | PDict _ | PEnum _ _ => PNone
              end)
    ∧ (∀ out, build_variables (Some c) = Ok out →
         out !! variable_name = Some (PDict record))
    ∧ ((∀ name other,
          variables (tax_benefit_system c) !! name = Some other →
          well_formed_variable other = true) →
       ∃ out, build_variables (Some c) = Ok out).
Proof.
  intros Hlookup Htype. apply String.eqb_neq in Htype.
  assert (variable_record (variable_name, variable)
          = Some (PDict (variable_fields variable_name variable))) as Hrec.
  { unfold variable_record. by rewrite Htype. }
  eexists. repeat split.
  - intros variable_data.
    by rewrite (build_variables_body_stores _ _ _ Hrec).
  - unfold variable_fields. dict_lookup.
    by destruct (var_default_value variable).
  - intros out Hout.
    by rewrite (build_variables_lookup c out variable_name Hout), Hlookup.
  - apply build_variables_returns.
Qed.

Lemma build_variables_default_value_witness :
  ∃ out record,
    build_variables (Some sample_country) = Ok out
    ∧ out !! "age" = Some (PDict record)
    ∧ record !! "defaultValue" = Some (PInt 40).
Proof.
  destruct (build_variables_default_value sample_country "age" age_variable)
    as (record & _ & Hdefault & Hout & Hreturns).
  - reflexivity.
  - discriminate.
  - destruct Hreturns as [out Hbuild].
    + apply sample_variables_well_formed.
    + exists out, record. repeat split; [exact Hbuild|by apply Hout|].
      exact Hdefault.
Defined.

(** ** The entity projector *)

(** The record of an entity always has a [roles] entry, the mapping of
    its roles. *)
Lemma entity_fields_roles (entity : Entity) :
  ∃ roles,
    entity_fields entity !! "roles" = Some (PDict roles)
    ∧ roles_mapping_of entity roles.
Proof.
  unfold entity_fields, roles_mapping_of.
  destruct (ent_roles entity) as [collection|].
  - eexists. split; [by rewrite lookup_insert_eq|].
    split; [|split].
    + rewrite dom_pydict. f_equal. rewrite <- list_fmap_compose.
      by apply list_fmap_ext.
    + intros k v Hl%pydict_lookup_Some.
      apply list_elem_of_fmap in Hl as (role & [= -> ->] & Hrole).
      by exists role.
    + intros role Hrole Huniq. apply pydict_lookup_unique.
      * apply list_elem_of_fmap. by exists role.
      * intros v' (other & [= Hk ->] & Hother)%list_elem_of_fmap.
        by rewrite (Huniq other Hother).
  - eexists. split; [by rewrite lookup_insert_eq|done].
Qed.


(** C9: the record of every entity of the collection has a [roles] key.
    Each entry of the mapping returned by the entity projector is the
    record of an entity under its key, with [roles] the mapping keyed by
    role key of the [{plural, label, doc}] records when the entity has a
    role collection and the empty mapping when it has none; every entity
    has its key in the mapping, with its own record when no other entity
    has the key. *)
Theorem build_entities_roles (c : PolicyEngineCountry) :
  ∃ out,
    build_entities (Some c) = Ok out
    ∧ (∀ k v, out !! k = Some v →
         ∃ entity record roles,
           entity ∈ entities (tax_benefit_system c)
           ∧ ent_key entity = k
           ∧ v = PDict record
           ∧ record !! "roles" = Some (PDict roles)
           ∧ roles_mapping_of entity roles)
    ∧ (∀ entity, entity ∈ entities (tax_benefit_system c) →
         is_Some (out !! ent_key entity))
    ∧ (∀ entity, entity ∈ entities (tax_benefit_system c) →
         (∀ other, other ∈ entities (tax_benefit_system c) →
            ent_key other = ent_key entity → other = entity) →
         ∃ record roles,
           out !! ent_key entity = Some (PDict record)
           ∧ record !! "roles" = Some (PDict roles)
           ∧ roles_mapping_of entity roles
           ∧ (ent_roles entity = None → roles = ∅)).
Proof.
  eexists. split; [reflexivity|].
  set (stored := λ entity, Some (PDict (entity_fields entity))).
  assert (∀ acc entity, build_entities_body acc entity
    = from_option (λ v, <[ent_key entity := v]> acc) acc (stored entity))
    as Hbody by done.
  split; [|split].
  - intros k v Hl.
    apply (store_loop_lookup_Some ent_key stored _ Hbody)
      in Hl as (entity & Hin & Hk & [= <-]).
    destruct (entity_fields_roles entity) as (roles & ? & ?).
    by exists entity, (entity_fields entity), roles.
  - intros entity Hin.
    destruct (store_loop_lookup_key ent_key stored _ Hbody _ entity _ Hin
                eq_refl) as (? & w & _ & _ & _ & ->).
    by exists w.
  - intros entity Hin Huniq.
    destruct (entity_fields_roles entity) as (roles & Hroles & Hmap).
    exists (entity_fields entity), roles. repeat split; [|done..|].
    + by rewrite (store_loop_lookup_unique ent_key stored _ Hbody _ entity).
    + intros Hnone. unfold roles_mapping_of in Hmap. by rewrite Hnone in Hmap.
Qed.

Lemma build_entities_roles_witness :
  ∃ out record,
    build_entities (Some sample_country) = Ok out
    ∧ out !! "person" = Some (PDict record)
    ∧ record !! "roles" = Some (PDict ∅).
Proof.
  destruct (build_entities_roles sample_country)
    as (out & Hout & _ & _ & Hown).
  destruct (Hown person_entity) as (record & roles & Hl & Hroles & _ & Hempty).
  - apply elem_of_cons. by left.
  - simpl. intros other Hother Hkey.
    rewrite !elem_of_cons, elem_of_nil in Hother.
    destruct Hother as [->|[->|[]]]; [reflexivity|discriminate].
  - exists out, record. repeat split; [exact Hout|exact Hl|].
    rewrite Hroles. by rewrite (Hempty eq_refl).
Defined.

(** ** The handler *)

Lemma truthy_PDict (d : gmap string pyval) :
  truthy (PDict d) = true ↔ d ≠ ∅.
Proof.
  simpl. rewrite negb_true_iff, Nat.eqb_neq. apply not_iff_compat.
  apply map_size_empty_iff.
Qed.

(** An error response is neither [None] nor false. *)
Lemma error_envelope_truthy (v : pyval) :
  error_envelope v → v ≠ PNone ∧ truthy v = true.
Proof.
  intros (d & -> & [status Hstatus] & _). split; [done|].
  apply truthy_PDict. intros ->. by rewrite lookup_empty in Hstatus.
Qed.

Section Handler.

Variable COUNTRIES : gmap string PolicyEngineCountry.
Variable validate_country : string → pyval.
Variable get_safe_json : pyval → pyval.

(** Whatever the validator returns, if true, is returned as it is. *)
Lemma metadata_passes_through (country_id : string) :
  truthy (validate_country country_id) = true →
  metadata COUNTRIES validate_country get_safe_json country_id
  = Ok (validate_country country_id).
Proof. unfold metadata. by intros ->. Qed.

(** On a registered country whose variables are well formed, and that
    the validator accepts, the projectors return and the handler returns
    the envelope of their results. *)
Lemma metadata_accepted (country_id : string) (c : PolicyEngineCountry) :
  truthy (validate_country country_id) = false →
  COUNTRIES !! country_id = Some c →
  (∀ name variable,
     variables (tax_benefit_system c) !! name = Some variable →
     well_formed_variable variable = true) →
  ∃ variables parameters entities,
    build_variables (Some c) = Ok variables
    ∧ build_parameters get_safe_json (Some c) = Ok parameters
    ∧ build_entities (Some c) = Ok entities
    ∧ metadata COUNTRIES validate_country get_safe_json country_id
      = Ok (PDict (pydict [
          ("status", PStr "ok");
          ("message", PNone);
          ("result", PDict (pydict [
            ("variables", PDict variables);
            ("parameters", PDict parameters);
            ("entities", PDict entities);
            ("variableModules",
              variable_module_metadata (tax_benefit_system c));
            ("economy_options",
              PDict (build_microsimulation_options (Some c) country_id));
            ("current_law_id",
              PInt (if String.eqb country_id "uk" then 1 else 2))
          ]))
        ])).
Proof.
  intros Hvalid Hcountry Hwf.
  destruct (proj2 (build_variables_returns c) Hwf) as [vars Hvars].
  eexists vars, _, _. split; [done|]. split; [reflexivity|].
  split; [reflexivity|].
  unfold metadata. rewrite Hvalid, Hcountry, Hvars. reflexivity.
Qed.

(** C2: for a country identifier that the validator accepts (it returns
    [None]), registered, with well-formed variables, the handler returns
    an envelope with [status] equal to ["ok"], [message] equal to [None]
    and [result] a mapping with exactly the six keys [variables],
    [parameters], [entities], [variableModules], [economy_options] and
    [current_law_id], the first three holding what the projectors
    return. *)
Theorem metadata_ok (country_id : string) (c : PolicyEngineCountry) :
  validate_country country_id = PNone →
  COUNTRIES !! country_id = Some c →
  (∀ name variable,
     variables (tax_benefit_system c) !! name = Some variable →
     well_formed_variable variable = true) →
  ∃ envelope res variables parameters entities,
    metadata COUNTRIES validate_country get_safe_json country_id
    = Ok (PDict envelope)
    ∧ dom envelope = {["status"; "message"; "result"]}
    ∧ envelope !! "status" = Some (PStr "ok")
    ∧ envelope !! "message" = Some PNone
    ∧ envelope !! "result" = Some (PDict res)
    ∧ dom res = {["variables"; "parameters"; "entities";
                  "variableModules"; "economy_options";
                  "current_law_id"]}
    ∧ build_variables (Some c) = Ok variables
    ∧ res !! "variables" = Some (PDict variables)
    ∧ build_parameters get_safe_json (Some c) = Ok parameters
    ∧ res !! "parameters" = Some (PDict parameters)
    ∧ build_entities (Some c) = Ok entities
    ∧ res !! "entities" = Some (PDict entities)
    ∧ res !! "variableModules"
      = Some (variable_module_metadata (tax_benefit_system c))
    ∧ res !! "economy_options"
      = Some (PDict (build_microsimulation_options (Some c) country_id)).
Proof.
  intros Hvalid Hcountry Hwf.
  destruct (metadata_accepted country_id c)
    as (vars & params & ents & Hvars & Hparams & Hents & ->);
    [by rewrite Hvalid|done..|].
  eexists _, _, vars, params, ents.
  split; [reflexivity|]. split; [rewrite dom_pydict; simpl; set_solver|].
  do 3 (split; [dict_lookup|]).
  split; [rewrite dom_pydict; simpl; set_solver|].
  repeat split; (assumption || dict_lookup).
Qed.

(** C8: for a valid country identifier, the [current_law_id] field of
    the result is 1 when the identifier is exactly ["uk"] and 2 for any
    other identifier. *)
Theorem metadata_current_law_id (country_id : string)
    (c : PolicyEngineCountry) :
  validate_country country_id = PNone →
  COUNTRIES !! country_id = Some c →
  (∀ name variable,
     variables (tax_benefit_system c) !! name = Some variable →
     well_formed_variable variable = true) →
  ∃ envelope res,
    metadata COUNTRIES validate_country get_safe_json country_id
    = Ok (PDict envelope)
    ∧ envelope !! "result" = Some (PDict res)
    ∧ (country_id = "uk" → res !! "current_law_id" = Some (PInt 1))
    ∧ (country_id ≠ "uk" → res !! "current_law_id" = Some (PInt 2)).
Proof.
  intros Hvalid Hcountry Hwf.
  destruct (metadata_accepted country_id c)
    as (vars & params & ents & _ & _ & _ & ->);
    [by rewrite Hvalid|done..|].
  eexists _, _. split; [reflexivity|]. split; [dict_lookup|].
  split; intros Hid; dict_lookup.
  - by rewrite Hid.
  - apply String.eqb_neq in Hid. by rewrite Hid.
Qed.

(** C3: when the validator returns an error envelope, not [None], the
    handler returns exactly that envelope, whatever the registry holds:
    the projectors are not run, and an exception that they would raise
    is not raised. *)
Theorem metadata_invalid_country (country_id : string) (envelope : pyval) :
  validate_country country_id = envelope →
  envelope ≠ PNone →
  error_envelope envelope →
  metadata COUNTRIES validate_country get_safe_json country_id
  = Ok envelope.
Proof.
  intros <- _ [_ Htruthy]%error_envelope_truthy.
  by apply metadata_passes_through.
Qed.

End Handler.

Lemma metadata_ok_witness :
  ∃ envelope res,
    metadata sample_countries sample_validate_country (λ v, v) "uk"
    = Ok (PDict envelope)
    ∧ envelope !! "status" = Some (PStr "ok")
    ∧ envelope !! "message" = Some PNone
    ∧ envelope !! "result" = Some (PDict res)
    ∧ dom res = {["variables"; "parameters"; "entities"; "variableModules";
                  "economy_options"; "current_law_id"]}.
Proof.
  destruct (metadata_ok sample_countries sample_validate_country (λ v, v)
              "uk" sample_country)
    as (envelope & res & _ & _ & _ & Hmeta & _ & Hstatus & Hmessage
        & Hresult & Hdom & _).
  - reflexivity.
  - reflexivity.
  - apply sample_variables_well_formed.
  - exists envelope, res. repeat split; assumption.
Defined.

Lemma metadata_current_law_id_witness :
  ∃ envelope res,
    metadata sample_countries sample_validate_country (λ v, v) "us"
    = Ok (PDict envelope)
    ∧ envelope !! "result" = Some (PDict res)
    ∧ res !! "current_law_id" = Some (PInt 2).
Proof.
  destruct (metadata_current_law_id sample_countries sample_validate_country
              (λ v, v) "us" sample_country)
    as (envelope & res & Hmeta & Hresult & _ & Hother).
  - reflexivity.
  - reflexivity.
  - apply sample_variables_well_formed.
  - exists envelope, res. repeat split; [exact Hmeta|exact Hresult|].
    apply Hother. discriminate.
Defined.

Lemma metadata_invalid_country_witness :
  build_variables (sample_countries !! "fr")
  = Raise (AttributeError "NoneType" "tax_benefit_system")
  ∧ metadata sample_countries sample_validate_country (λ v, v) "fr"
    = Ok (PDict (pydict [
        ("status", PStr "error");
        ("message", PStr "Country fr not found.")])).
Proof.
  split; [reflexivity|].
  apply (metadata_invalid_country sample_countries sample_validate_country
           (λ v, v) "fr").
  - reflexivity.
  - discriminate.
  - eexists. split; [reflexivity|]. split; eexists; dict_lookup.
Defined.

(** * The endpoint over the store *)

(** ** Stores *)

Lemma lookup_hide (X : gset loc) (h : heap) l o :
  hide X h !! l = Some o ↔ h !! l = Some o ∧ l ∉ X.
Proof. unfold hide. by rewrite map_lookup_filter_Some. Qed.

Lemma hide_subseteq (X : gset loc) (h : heap) : hide X h ⊆ h.
Proof. apply map_filter_subseteq. Qed.

Lemma hide_mono (X : gset loc) (h h' : heap) :
  h ⊆ h' → hide X h ⊆ hide X h'.
Proof. apply map_filter_subseteq_mono. Qed.

Lemma hide_empty (h : heap) : hide ∅ h = h.
Proof.
  apply map_eq. intros l. apply option_eq. intros o.
  rewrite lookup_hide. set_solver.
Qed.

(** Hiding more locations gives a smaller store; a change at a hidden
    location is not seen. *)
Lemma hide_subseteq_hide (X Y : gset loc) (h h' : heap) :
  X ⊆ Y → hide X h ⊆ hide X h' → hide Y h ⊆ hide Y h'.
Proof.
  intros HXY Hsub. apply map_subseteq_spec. intros l o.
  rewrite !lookup_hide. intros [Hl HY]. split; [|done].
  assert (hide X h !! l = Some o) as Hh by (apply lookup_hide; set_solver).
  eapply lookup_weaken in Hh; [|done]. by apply lookup_hide in Hh as [? _].
Qed.

Lemma hide_insert_hidden (X : gset loc) (h : heap) l o :
  l ∈ X → hide X (<[l := o]> h) = hide X h.
Proof.
  intros Hl. apply map_eq. intros l'. apply option_eq. intros o'.
  rewrite !lookup_hide. destruct (decide (l = l')) as [<-|Hne].
  - naive_solver.
  - by rewrite lookup_insert_ne.
Qed.

Lemma hide_insert_fresh (X : gset loc) (h : heap) l o :
  h !! l = None → hide X h ⊆ hide X (<[l := o]> h).
Proof. intros Hl. by apply hide_mono, insert_subseteq. Qed.

Lemma fresh_lookup_None (h : heap) : h !! fresh (dom h) = None.
Proof. apply not_elem_of_dom, is_fresh. Qed.

Lemma fresh_not_hidden (X : gset loc) (h : heap) :
  X ⊆ dom h → fresh (dom h) ∉ X.
Proof. intros HX Hin. by apply (is_fresh (dom h)), HX. Qed.

Lemma subseteq_dom_trans (X : gset loc) (h h' : heap) :
  X ⊆ dom h → h ⊆ h' → X ⊆ dom h'.
Proof. intros HX Hsub. etrans; [done|]. by apply subseteq_dom. Qed.

Lemma union_subseteq_dom (X : gset loc) (h : heap) l o :
  X ⊆ dom h → h !! l = Some o → X ∪ {[l]} ⊆ dom h.
Proof.
  intros HX Hl. apply union_subseteq. split; [done|].
  apply singleton_subseteq_l, elem_of_dom. eauto.
Qed.

(** ** Denotations *)

Lemma denotes_mono : monotone denotes.
Proof.
  intros h h' v p Hsub Hden.
  induction Hden as [p|l d pd Hl Hdom _ IH|l xs ps Hl Hlen _ IH].
  - constructor.
  - eapply denotes_dict; [by eapply lookup_weaken|done|done].
  - eapply denotes_list; [by eapply lookup_weaken|done|done].
Qed.

Lemma dict_denotes_mono : monotone dict_denotes.
Proof.
  intros h h' d pd Hsub [Hdom Hall]. split; [done|].
  intros k v p Hv Hp. eapply denotes_mono; eauto.
Qed.

Lemma item_denotes_mono : monotone item_denotes.
Proof. intros h h' a b Hsub [? ?]. split; [done|]. by eapply denotes_mono. Qed.

Lemma Forall2_monotone {A B : Type} (R : heap → A → B → Prop) :
  monotone R → monotone (λ h, Forall2 (R h)).
Proof.
  intros HR h h' xs ys Hsub Hall.
  eapply Forall2_impl; [done|]. intros a b. by apply HR.
Qed.

Lemma denotes_dict_intro (h : heap) l d pd :
  h !! l = Some (ODict d) → dict_denotes h d pd →
  denotes h (Ref l) (PDict pd).
Proof. intros Hl [Hdom Hall]. by eapply denotes_dict. Qed.

Lemma denotes_list_intro (h : heap) l xs ps :
  h !! l = Some (OList xs) → Forall2 (denotes h) xs ps →
  denotes h (Ref l) (PList ps).
Proof.
  intros Hl Hall. eapply denotes_list; [done|by eapply Forall2_length|].
  intros i v p Hv Hp. by eapply Forall2_lookup_lr.
Qed.

Lemma dict_denotes_empty (h : heap) : dict_denotes h ∅ ∅.
Proof. split; [by rewrite !dom_empty_L|]. intros k v p. by rewrite lookup_empty. Qed.

Lemma dict_denotes_insert (h : heap) d pd k v p :
  denotes h v p → dict_denotes h d pd →
  dict_denotes h (<[k := v]> d) (<[k := p]> pd).
Proof.
  intros Hv [Hdom Hall]. split; [by rewrite !dom_insert_L, Hdom|].
  intros k' v' p'. destruct (decide (k = k')) as [<-|Hne].
  - rewrite !lookup_insert_eq. by intros [= <-] [= <-].
  - rewrite !lookup_insert_ne by done. apply Hall.
Qed.

(** A display of items that denote pure items denotes their display. *)
Lemma dict_denotes_display (h : heap) items pitems :
  Forall2 (item_denotes h) items pitems →
  dict_denotes h (store_dict items) (pydict pitems).
Proof.
  unfold store_dict, pydict. generalize (dict_denotes_empty h).
  generalize (∅ : gmap string sval) (∅ : gmap string pyval).
  intros d pd Hd Hall. revert d pd Hd.
  induction Hall as [|[k v] [k' p] items pitems [Hk Hv] _ IH];
    intros d pd Hd; simpl in *; [done|].
  subst k'. by apply IH, dict_denotes_insert.
Qed.

Lemma dict_denotes_get (h : heap) d pd k :
  dict_denotes h d pd →
  denotes h (default (Imm PNone) (d !! k)) (dict_get pd k).
Proof.
  intros [Hdom Hall]. unfold dict_get.
  destruct (d !! k) as [v|] eqn:Hv, (pd !! k) as [p|] eqn:Hp; simpl.
  - by eapply Hall.
  - apply not_elem_of_dom in Hp. rewrite <- Hdom in Hp.
    by apply not_elem_of_dom in Hp; congruence.
  - apply not_elem_of_dom in Hv. rewrite Hdom in Hv.
    by apply not_elem_of_dom in Hv; congruence.
  - constructor.
Qed.

Lemma dict_denotes_size (h : heap) d pd :
  dict_denotes h d pd → size d = size pd.
Proof. intros [Hdom _]. by rewrite <- !size_dom, Hdom. Qed.

(** A value has one denotation only. *)
Lemma denotes_functional (h : heap) v p p' :
  denotes h v p → denotes h v p' → p = p'.
Proof.
  intros Hden. revert p'.
  induction Hden as [p|l d pd Hl Hdom _ IH|l xs ps Hl Hlen _ IH];
    intros p' Hden'; inversion Hden'; subst; try congruence.
  - f_equal. apply map_eq. intros k.
    assert (d0 = d) as -> by congruence.
    destruct (pd !! k) as [p|] eqn:Hp, (pd0 !! k) as [p0|] eqn:Hp0.
    + assert (is_Some (d !! k)) as [v Hv].
      { apply elem_of_dom. rewrite Hdom. by apply elem_of_dom. }
      f_equal. eauto.
    + apply not_elem_of_dom in Hp0. apply elem_of_dom_2 in Hp. congruence.
    + apply not_elem_of_dom in Hp. apply elem_of_dom_2 in Hp0. congruence.
    + done.
  - f_equal. assert (xs0 = xs) as -> by congruence.
    apply list_eq_same_length with (length xs); [done|congruence|].
    intros i p p0 Hi Hp Hp0.
    destruct (lookup_lt_is_Some_2 xs i Hi) as [v Hv]. eauto.
Qed.

(** ** Refinement rules *)

Lemma bind_run {A B : Type} (m : M A) (k : A → M B) (h : heap) :
  (m ≫= k) h
  = match m h with
    | (Ok a, h') => k a h'
    | (Raise e, h') => (Raise e, h')
    end.
Proof. reflexivity. Qed.

Lemma refines_ret {A B : Type} X (R : heap → A → B → Prop) (h : heap) a b :
  R (hide X h) a b → refines X R (mret a) h (Ok b).
Proof. intros HR. by split. Qed.

Lemma refines_raise {A B : Type} X (R : heap → A → B → Prop) (h : heap) e e' :
  refines X R (raise e) h (Raise e').
Proof. by split. Qed.

Lemma refines_bind {A B C D : Type} X (R1 : heap → A → B → Prop)
    (R2 : heap → C → D → Prop) (m : M A) (k : A → M C) (h : heap)
    (pm : result B) (pk : B → result D) :
  refines X R1 m h pm →
  (∀ a b h1, h ⊆ h1 → R1 (hide X h1) a b → refines X R2 (k a) h1 (pk b)) →
  refines X R2 (m ≫= k) h (pm ≫= pk).
Proof.
  unfold refines. rewrite bind_run. intros Hm Hk.
  destruct (m h) as [[a|e] h1], Hm as [Hsub HR], pm as [b|e']; try done.
  specialize (Hk a b h1 Hsub HR). simpl.
  destruct (k a h1) as [r h2], Hk as [Hsub2 HR2]. split; [by etrans|done].
Qed.

Lemma refines_bind_eq {A B C D : Type} X (R1 : heap → A → B → Prop)
    (R2 : heap → C → D → Prop) (m : M A) (k : A → M C) (h : heap)
    (pm : result B) (pk : B → result D) (pure : result D) :
  pure = pm ≫= pk →
  refines X R1 m h pm →
  (∀ a b h1, h ⊆ h1 → R1 (hide X h1) a b → refines X R2 (k a) h1 (pk b)) →
  refines X R2 (m ≫= k) h pure.
Proof. intros ->. apply refines_bind. Qed.

(** Hiding fewer locations. *)
Lemma refines_hide_fewer {A B : Type} X Y (R : heap → A → B → Prop)
    (m : M A) (h : heap) (pure : result B) :
  monotone R → X ⊆ Y → refines Y R m h pure → refines X R m h pure.
Proof.
  unfold refines. intros HR HXY. destruct (m h) as [r h'].
  intros [Hsub Hres]. split; [done|].
  destruct r, pure; try done. eapply HR; [|done].
  apply map_subseteq_spec. intros l o. rewrite !lookup_hide. set_solver.
Qed.

Lemma refines_alloc_dict X (h : heap) d pd :
  X ⊆ dom h → dict_denotes (hide X h) d pd →
  refines X denotes (alloc (ODict d)) h (Ok (PDict pd)).
Proof.
  intros HX Hd. split; [apply insert_subseteq, fresh_lookup_None|].
  apply denotes_dict_intro with d.
  - apply lookup_hide. split; [apply lookup_insert_eq|by apply fresh_not_hidden].
  - eapply dict_denotes_mono; [|done].
    apply hide_insert_fresh, fresh_lookup_None.
Qed.

Lemma refines_alloc_list X (h : heap) xs ps :
  X ⊆ dom h → Forall2 (denotes (hide X h)) xs ps →
  refines X denotes (alloc (OList xs)) h (Ok (PList ps)).
Proof.
  intros HX Hd. split; [apply insert_subseteq, fresh_lookup_None|].
  apply denotes_list_intro with xs.
  - apply lookup_hide. split; [apply lookup_insert_eq|by apply fresh_not_hidden].
  - eapply Forall2_monotone; [apply denotes_mono| |done].
    apply hide_insert_fresh, fresh_lookup_None.
Qed.

Lemma refines_dict_get X (h : heap) target pd k :
  denotes (hide X h) target (PDict pd) →
  refines X denotes (store_dict_get target k) h (Ok (dict_get pd k)).
Proof.
  intros Hden. unfold refines, store_dict_get.
  inversion Hden as [p|l d pd' Hl Hdom Hall|]; subst.
  - split; [done|]. constructor.
  - apply lookup_hide in Hl as [Hl _]. rewrite Hl. split; [done|].
    by apply dict_denotes_get.
Qed.

(** The elements of a display, each refining a pure element. *)
Lemma refines_store_map {A B C D : Type} X (Rin : heap → A → B → Prop)
    (Rout : heap → C → D → Prop) (f : A → M C) (pf : B → D) :
  monotone Rin → monotone Rout →
  (∀ h a b, X ⊆ dom h → Rin (hide X h) a b →
     refines X Rout (f a) h (Ok (pf b))) →
  ∀ xs pxs h, X ⊆ dom h → Forall2 (Rin (hide X h)) xs pxs →
    refines X (λ h, Forall2 (Rout h)) (store_map f xs) h (Ok (pf <$> pxs)).
Proof.
  intros Hin Hout Hf xs pxs h HX Hall. revert h HX Hall.
  revert pxs. induction xs as [|x xs IH]; intros pxs h HX Hall.
  - apply Forall2_nil_inv_l in Hall as ->. by apply refines_ret.
  - apply Forall2_cons_inv_l in Hall as (px & pxs' & Hx & Hall & ->).
    change (store_map f (x :: xs))
      with (y ← f x; ys ← store_map f xs; mret (y :: ys)).
    apply (refines_bind_eq X Rout _ _ _ _ (Ok (pf px))
             (λ y, Ok (y :: (pf <$> pxs')))); [done|by apply Hf|].
    intros y py h1 Hsub1 Hy.
    assert (X ⊆ dom h1) as HX1 by by eapply subseteq_dom_trans.
    apply (refines_bind_eq X (λ h, Forall2 (Rout h)) _ _ _ _
             (Ok (pf <$> pxs')) (λ ys, Ok (py :: ys))); [done| |].
    + apply IH; [done|].
      eapply Forall2_monotone; [done|by apply hide_mono|done].
    + intros ys pys h2 Hsub2 Hys. apply refines_ret.
      constructor; [|done]. eapply Hout; [by apply hide_mono|done].
Qed.

(** An object that is allocated, then initialised by an assignment after
    other objects have been built without it. *)
Lemma init_after_alloc X (h h2 : heap) e base pbase k v pv :
  X ⊆ dom h → h !! e = None → <[e := ODict base]> h ⊆ h2 →
  dict_denotes (hide X h) base pbase →
  denotes (hide (X ∪ {[e]}) h2) v pv →
  let h4 := <[e := ODict (<[k := v]> base)]> h2 in
  setitem (Ref e) k v h2 = (Ok tt, h4)
  ∧ h ⊆ h4
  ∧ denotes (hide X h4) (Ref e) (PDict (<[k := pv]> pbase)).
Proof.
  intros HX He Hsub Hbase Hv h4.
  assert (h2 !! e = Some (ODict base)) as He2.
  { eapply lookup_weaken; [apply lookup_insert_eq|done]. }
  assert (h ⊆ h2) as Hsub2.
  { etrans; [by apply insert_subseteq|done]. }
  assert (h ⊆ h4) as Hsub4 by by apply insert_subseteq_r.
  assert (e ∉ X) as HeX.
  { intros Hin. apply HX, elem_of_dom in Hin as [? ?]. congruence. }
  split; [|split; [done|]].
  - unfold setitem. by rewrite He2.
  - apply denotes_dict_intro with (<[k := v]> base).
    { apply lookup_hide. split; [apply lookup_insert_eq|done]. }
    apply dict_denotes_insert.
    + eapply denotes_mono; [|done]. unfold h4.
      rewrite <- (hide_insert_hidden (X ∪ {[e]}) h2 e
                    (ODict (<[k := v]> base))) by set_solver.
      apply map_subseteq_spec. intros l o. rewrite !lookup_hide. set_solver.
    + eapply dict_denotes_mono; [|done]. by apply hide_mono.
Qed.

(** ** Loops on an accumulator *)

Lemma hidden_subseteq_dom (X : gset loc) (l : loc) (h h' : heap) :
  X ⊆ dom h → l ∉ X → hide {[l]} h ⊆ hide {[l]} h' → X ⊆ dom h'.
Proof.
  intros HX Hl Hsub x Hx. assert (x ≠ l) by set_solver.
  apply HX in Hx as Hdom. apply elem_of_dom in Hdom as [o Ho].
  assert (hide {[l]} h !! x = Some o) as Hh by (apply lookup_hide; set_solver).
  eapply lookup_weaken in Hh; [|done]. apply lookup_hide in Hh as [Hh _].
  by apply elem_of_dom_2 in Hh.
Qed.

Section AccumulatorLoop.

Context {A B : Type}.
Variable item_rel : heap → A → B → Prop.
Variable key : B → string.
Variable outcome : B → option (option pyval).
Variable body : sval → A → M unit.

Hypothesis item_rel_mono : monotone item_rel.
Hypothesis body_refines : ∀ X l h d x px,
  X ⊆ dom h → l ∉ X → h !! l = Some (ODict d) →
  item_rel (hide (X ∪ {[l]}) h) x px →
  iteration_refines key outcome body X l h d x px.

Lemma store_for_each_accumulates X l xs pxs (h : heap) d pacc :
  X ⊆ dom h → l ∉ X → h !! l = Some (ODict d) →
  Forall2 (item_rel (hide (X ∪ {[l]}) h)) xs pxs →
  dict_denotes (hide (X ∪ {[l]}) h) d pacc →
  let '(r, h') := store_for_each (body (Ref l)) xs h in
  hide {[l]} h ⊆ hide {[l]} h'
  ∧ match r with
    | Ok _ =>
        Forall (λ px, is_Some (outcome px)) pxs
        ∧ ∃ d', h' !! l = Some (ODict d')
                ∧ dict_denotes (hide (X ∪ {[l]}) h') d'
                    (accumulate key outcome pacc pxs)
    | Raise _ => Exists (λ px, outcome px = None) pxs
    end.
Proof.
  intros HX Hl Hd Hall. revert h d pacc HX Hd Hall.
  revert pxs. induction xs as [|x xs IH]; intros pxs h d pacc HX Hd Hall Hacc.
  - apply Forall2_nil_inv_l in Hall as ->. simpl.
    split; [done|]. split; [constructor|]. by exists d.
  - apply Forall2_cons_inv_l in Hall as (px & pxs' & Hx & Hall & ->).
    change (store_for_each (body (Ref l)) (x :: xs))
      with (_ ← body (Ref l) x; store_for_each (body (Ref l)) xs).
    rewrite bind_run.
    pose proof (body_refines X l h d x px HX Hl Hd Hx) as Hbody.
    unfold iteration_refines in Hbody.
    destruct (body (Ref l) x h) as [[[]|e] h1], Hbody as [Hsub1 Hres].
    2: { split; [done|]. destruct (outcome px) eqn:Ho; [done|]. by left. }
    assert (hide (X ∪ {[l]}) h ⊆ hide (X ∪ {[l]}) h1) as Hsub1'.
    { eapply hide_subseteq_hide; [|done]. set_solver. }
    assert (X ⊆ dom h1) as HX1 by by eapply hidden_subseteq_dom.
    assert (Forall2 (item_rel (hide (X ∪ {[l]}) h1)) xs pxs') as Hall1.
    { eapply Forall2_monotone; [done..|]. done. }
    assert (∃ d1, h1 !! l = Some (ODict d1)
      ∧ dict_denotes (hide (X ∪ {[l]}) h1) d1
          (accumulate key outcome pacc [px])
      ∧ is_Some (outcome px)) as (d1 & Hd1 & Hacc1 & Hsome).
    { unfold accumulate. simpl.
      destruct (outcome px) as [[p|]|]; [| |done]; simpl.
      - destruct Hres as (v & Hd1 & Hv). eexists. split; [done|].
        split; [|done]. apply dict_denotes_insert; [done|].
        by eapply dict_denotes_mono.
      - exists d. split; [done|]. split; [|done].
        by eapply dict_denotes_mono. }
    specialize (IH pxs' h1 d1 _ HX1 Hd1 Hall1 Hacc1).
    destruct (store_for_each (body (Ref l)) xs h1) as [[[]|e] h2],
      IH as [Hsub2 Hres2].
    + split; [by etrans|]. destruct Hres2 as [Hsomes Hd2].
      split; [by constructor|done].
    + split; [by etrans|]. by right.
Qed.

(** A projector: a new dictionary, filled by a loop and returned. *)
Lemma refines_accumulator X xs pxs (h : heap)
    (pure : result (gmap string pyval)) :
  X ⊆ dom h →
  Forall2 (item_rel (hide X h)) xs pxs →
  (Forall (λ px, is_Some (outcome px)) pxs →
   pure = Ok (accumulate key outcome ∅ pxs)) →
  (Exists (λ px, outcome px = None) pxs → ∃ e, pure = Raise e) →
  refines X denotes_dict_of
    (acc ← alloc (ODict ∅); _ ← store_for_each (body acc) xs; mret acc)
    h pure.
Proof.
  intros HX Hall Hok Hraise. unfold refines. rewrite bind_run.
  unfold alloc at 1. set (l := fresh (dom h)). set (h1 := <[l := _]> h).
  assert (h !! l = None) as Hfresh by apply fresh_lookup_None.
  assert (l ∉ X) as Hl by by apply fresh_not_hidden.
  assert (h ⊆ h1) as Hsub1 by by apply insert_subseteq.
  assert (hide X h ⊆ hide (X ∪ {[l]}) h1) as Hsub1'.
  { apply map_subseteq_spec. intros l' o. rewrite !lookup_hide.
    intros [Hl' ?]. split; [by eapply lookup_weaken|].
    assert (l' ≠ l) by congruence. set_solver. }
  pose proof (store_for_each_accumulates X l xs pxs h1 ∅ ∅) as Hloop.
  rewrite bind_run.
  destruct (store_for_each (body (Ref l)) xs h1) as [[[]|e] h2].
  - destruct Hloop as (Hsub2 & Hsomes & d' & Hd' & Hacc).
    { by eapply subseteq_dom_trans. } { done. } { apply lookup_insert_eq. }
    { eapply Forall2_monotone; [done..|]. done. }
    { apply dict_denotes_empty. }
    rewrite (Hok Hsomes). split.
    + apply map_subseteq_spec. intros l' o Hl'.
      assert (hide {[l]} h1 !! l' = Some o) as Hh.
      { apply lookup_hide. split; [by eapply lookup_weaken|].
        assert (l' ≠ l) by congruence. set_solver. }
      eapply lookup_weaken in Hh; [|done]. by apply lookup_hide in Hh as [? _].
    + apply denotes_dict_intro with d'.
      { by apply lookup_hide. }
      eapply dict_denotes_mono; [|done].
      apply map_subseteq_spec. intros l' o. rewrite !lookup_hide. set_solver.
  - destruct Hloop as (Hsub2 & Hex).
    { by eapply subseteq_dom_trans. } { done. } { apply lookup_insert_eq. }
    { eapply Forall2_monotone; [done..|]. done. }
    { apply dict_denotes_empty. }
    destruct (Hraise Hex) as [e' ->]. split; [|done].
    apply map_subseteq_spec. intros l' o Hl'.
    assert (hide {[l]} h1 !! l' = Some o) as Hh.
    { apply lookup_hide. split; [by eapply lookup_weaken|].
      assert (l' ≠ l) by congruence. set_solver. }
    eapply lookup_weaken in Hh; [|done]. by apply lookup_hide in Hh as [? _].
Qed.

End AccumulatorLoop.

Lemma accumulate_foldl {B : Type} (key : B → string)
    (outcome : B → option (option pyval))
    (body : gmap string pyval → B → gmap string pyval) acc pxs :
  (∀ acc px, body acc px
     = from_option (λ v, <[key px := v]> acc) acc (mjoin (outcome px))) →
  accumulate key outcome acc pxs = foldl body acc pxs.
Proof.
  intros Hbody. unfold accumulate. revert acc.
  induction pxs as [|px pxs IH]; intros acc; simpl; [done|].
  by rewrite IH, Hbody.
Qed.

(** An iteration that builds a record, then stores it at a key of the
    accumulator. *)
Lemma iteration_store X l (h : heap) d (m : M sval) k p :
  X ⊆ dom h → l ∉ X → h !! l = Some (ODict d) →
  refines (X ∪ {[l]}) denotes m h (Ok p) →
  let '(r, h') := (v ← m; setitem (Ref l) k v) h in
  hide {[l]} h ⊆ hide {[l]} h'
  ∧ r = Ok tt
  ∧ ∃ v, h' !! l = Some (ODict (<[k := v]> d))
         ∧ denotes (hide (X ∪ {[l]}) h') v p.
Proof.
  intros HX Hl Hd Hm. unfold refines in Hm. rewrite bind_run.
  destruct (m h) as [[v|e] h1], Hm as [Hsub Hv]; [|done].
  unfold setitem. rewrite (lookup_weaken _ _ _ _ Hd Hsub).
  split; [|split; [done|]].
  - rewrite hide_insert_hidden by set_solver. by apply hide_mono.
  - exists v. split; [apply lookup_insert_eq|].
    rewrite hide_insert_hidden by set_solver. done.
Qed.

(** ** The entity projector over the store *)

Lemma role_denotes_mono : monotone role_denotes.
Proof.
  intros h h' s r Hsub (? & ? & ? & ?).
  repeat split; (done || by eapply denotes_mono).
Qed.

Lemma entity_denotes_mono : monotone entity_denotes.
Proof.
  intros h h' s e Hsub (? & ? & ? & ? & ? & Hroles).
  repeat split; try (done || by eapply denotes_mono).
  destruct Hroles; constructor.
  eapply Forall2_monotone; [apply role_denotes_mono|done..].
Qed.

Lemma refines_role_fields X (h : heap) s r :
  X ⊆ dom h → role_denotes (hide X h) s r →
  refines X denotes (store_role_fields s) h (Ok (role_fields r)).
Proof.
  intros HX (Hkey & Hplural & Hlabel & Hdoc).
  apply refines_alloc_dict; [done|]. apply dict_denotes_display.
  repeat constructor; done.
Qed.

Lemma refines_role_item X (h : heap) s r :
  X ⊆ dom h → role_denotes (hide X h) s r →
  refines X item_denotes
    (fields ← store_role_fields s; mret (srole_key s, fields)) h
    (Ok (role_key r, role_fields r)).
Proof.
  intros HX Hr.
  apply (refines_bind_eq _ denotes _ _ _ _ (Ok (role_fields r))
           (λ fields, Ok (role_key r, fields))); [done| |].
  - by apply refines_role_fields.
  - intros v p h' _ Hv. apply refines_ret. destruct Hr as [-> _]. by split.
Qed.

Lemma refines_entity_fields X (h : heap) s e :
  X ⊆ dom h → entity_denotes (hide X h) s e →
  refines X denotes (store_entity_fields s) h (Ok (PDict (entity_fields e))).
Proof.
  intros HX (Hplural & Hlabel & Hdoc & Hperson & Hkey & Hroles).
  unfold refines, store_entity_fields, entity_fields.
  rewrite bind_run. unfold alloc at 1.
  set (l := fresh (dom h)). set (base := store_dict _).
  set (pbase := pydict _). set (h1 := <[l := ODict base]> h).
  assert (h !! l = None) as Hfresh by apply fresh_lookup_None.
  assert (dict_denotes (hide X h) base pbase) as Hbase.
  { apply dict_denotes_display. rewrite Hkey.
    repeat constructor; done. }
  assert (X ∪ {[l]} ⊆ dom h1) as HX1.
  { unfold h1. rewrite dom_insert_L. set_solver. }
  assert (hide X h ⊆ hide (X ∪ {[l]}) h1) as Hhide.
  { apply map_subseteq_spec. intros l' o. rewrite !lookup_hide.
    intros [Hl' ?]. assert (l' ≠ l) by congruence.
    split; [|set_solver]. unfold h1. by rewrite lookup_insert_ne. }
  destruct Hroles as [sroles roles Hroles|].
  - rewrite bind_run.
    assert (refines (X ∪ {[l]}) (λ h, Forall2 (item_denotes h))
      (store_map (λ role, fields ← store_role_fields role;
                          mret (srole_key role, fields)) sroles) h1
      (Ok ((λ role, (role_key role, role_fields role)) <$> roles))) as Hmap.
    { apply (refines_store_map _ role_denotes);
        [apply role_denotes_mono|apply item_denotes_mono| |done|].
      - intros. by apply refines_role_item.
      - eapply Forall2_monotone; [apply role_denotes_mono|done..]. }
    unfold refines in Hmap.
    destruct (store_map _ sroles h1) as [[items|err] h2],
      Hmap as [Hsub2 Hitems]; [|done].
    rewrite bind_run. unfold alloc at 1.
    set (lr := fresh (dom h2)). set (h3 := <[lr := _]> h2).
    assert (h2 !! lr = None) as Hfresh2 by apply fresh_lookup_None.
    assert (h2 ⊆ h3) as Hsub3 by by apply insert_subseteq.
    destruct (init_after_alloc X h h3 l base pbase "roles" (Ref lr)
      (PDict (pydict ((λ role, (role_key role, role_fields role)) <$> roles))))
      as (Hset & Hsub4 & Hden); [done|done|by etrans|done| |].
    { assert (X ∪ {[l]} ⊆ dom h2) as HX2 by by eapply subseteq_dom_trans.
      apply denotes_dict_intro with (store_dict items).
      - apply lookup_hide. split; [apply lookup_insert_eq|].
        by apply fresh_not_hidden.
      - apply dict_denotes_display.
        eapply Forall2_monotone; [apply item_denotes_mono| |done].
        by apply hide_insert_fresh. }
    rewrite bind_run, Hset. done.
  - rewrite bind_run. unfold alloc at 1.
    set (lr := fresh (dom h1)). set (h3 := <[lr := _]> h1).
    assert (h1 !! lr = None) as Hfresh2 by apply fresh_lookup_None.
    destruct (init_after_alloc X h h3 l base pbase "roles" (Ref lr) (PDict ∅))
      as (Hset & Hsub4 & Hden); [done|done|by apply insert_subseteq|done| |].
    { apply denotes_dict_intro with ∅; [|apply dict_denotes_empty].
      apply lookup_hide. split; [apply lookup_insert_eq|].
      by apply fresh_not_hidden. }
    rewrite bind_run, Hset. done.
Qed.

Lemma refines_build_entities X (h : heap) s c :
  X ⊆ dom h → option_Forall2 (country_denotes (hide X h)) s c →
  refines X denotes_dict_of (store_build_entities s) h (build_entities c).
Proof.
  intros HX [sc pc (_ & _ & Hentities & _)|]; [|by split].
  apply (refines_accumulator entity_denotes ent_key
           (λ e, Some (Some (PDict (entity_fields e))))
           store_build_entities_body entity_denotes_mono)
    with (pxs := entities (tax_benefit_system pc)); [|done..| |].
  - intros X' l h' d se e HX' Hl Hd He.
    unfold iteration_refines, store_build_entities_body.
    assert (refines (X' ∪ {[l]}) denotes (store_entity_fields se) h'
              (Ok (PDict (entity_fields e)))) as Hfields.
    { apply refines_entity_fields; [|done]. by eapply union_subseteq_dom. }
    pose proof (iteration_store X' l h' d (store_entity_fields se)
                  (sent_key se) (PDict (entity_fields e)) HX' Hl Hd Hfields)
      as Hit.
    destruct (mbind (M := M) _ _ h') as [r h2].
    destruct Hit as (Hsub & -> & v & Hl' & Hv).
    split; [done|]. exists v. split; [|done].
    by destruct He as (_ & _ & _ & _ & <- & _).
  - intros _. by rewrite (accumulate_foldl _ _ build_entities_body).
  - intros Hex. by apply Exists_exists in Hex as (? & _ & ?).
Qed.

(** A step whose pure counterpart returns, followed by the rest. *)
Lemma refines_bind_ok {A B C D : Type} X (R1 : heap → A → B → Prop)
    (R2 : heap → C → D → Prop) (m : M A) (k : A → M C) (h : heap)
    (b : B) (pure : result D) :
  refines X R1 m h (Ok b) →
  (∀ a h1, h ⊆ h1 → R1 (hide X h1) a b → refines X R2 (k a) h1 pure) →
  refines X R2 (m ≫= k) h pure.
Proof.
  unfold refines. rewrite bind_run. intros Hm Hk.
  destruct (m h) as [[a|e] h1], Hm as [Hsub HR]; [|done].
  specialize (Hk a h1 Hsub HR).
  destruct (k a h1) as [r h2], Hk as [Hsub2 HR2]. split; [by etrans|done].
Qed.

Lemma monotone_hide {A B : Type} (R : heap → A → B → Prop) X (h h' : heap)
    a b :
  monotone R → h ⊆ h' → R (hide X h) a b → R (hide X h') a b.
Proof. intros HR Hsub. apply HR. by apply hide_mono. Qed.

Create HintDb mono discriminated.
#[local] Hint Resolve denotes_mono dict_denotes_mono item_denotes_mono
  role_denotes_mono entity_denotes_mono : mono.
#[local] Hint Extern 1 (monotone (λ h, Forall2 _)) =>
  apply Forall2_monotone : mono.

(** Moves what is known of the store [h] to a store that extends it. *)
Ltac grow_to Hsub :=
  match type of Hsub with
  | ?h ⊆ ?h1 =>
      repeat match goal with
      | H : ?R (hide ?X h) ?a ?b |- _ =>
          apply (monotone_hide R X h h1 a b ltac:(eauto with mono) Hsub) in H
      | H : Forall2 (?R (hide ?X h)) ?a ?b |- _ =>
          apply (monotone_hide (λ h, Forall2 (R h)) X h h1 a b
                   ltac:(eauto with mono) Hsub) in H
      | H : ?X ⊆ dom h |- _ =>
          apply (λ H', subseteq_dom_trans X h h1 H' Hsub) in H
      end
  end.

(** ** The parameter projector over the store *)

Lemma value_at_instant_denotes_mono : monotone value_at_instant_denotes.
Proof. intros h h' s v Hsub [? ?]. split; [done|]. by eapply denotes_mono. Qed.

Lemma parameter_denotes_mono : monotone parameter_denotes.
Proof.
  intros h h' s p Hsub (? & ? & ? & ? & ?).
  repeat split; try (done || by eapply denotes_mono).
  eapply Forall2_monotone; [apply value_at_instant_denotes_mono|done..].
Qed.

#[local] Hint Resolve value_at_instant_denotes_mono parameter_denotes_mono
  : mono.

Section StoreParameterProjector.

Variable get_safe_json : pyval → pyval.
Variable store_get_safe_json : sval → M sval.

(** The coercion over the store refines the pure one: it changes no
    object, and its result reads as the coerced value. *)
Hypothesis get_safe_json_refines : ∀ X (h : heap) v p,
  X ⊆ dom h → denotes (hide X h) v p →
  refines X denotes (store_get_safe_json v) h (Ok (get_safe_json p)).

Lemma refines_value_item X (h : heap) s v :
  X ⊆ dom h → value_at_instant_denotes (hide X h) s v →
  refines X item_denotes
    (value ← store_get_safe_json (svai_value s);
     mret (sinstant_str s, value)) h
    (Ok (instant_str v, get_safe_json (vai_value v))).
Proof.
  intros HX [Hinstant Hvalue].
  eapply refines_bind_ok; [by apply get_safe_json_refines|].
  intros value h1 Hsub1 Hv. apply refines_ret. by split.
Qed.

Lemma refines_parameter_fields X (h : heap) s p :
  X ⊆ dom h → parameter_denotes (hide X h) s p →
  refines X denotes (store_parameter_fields store_get_safe_json s) h
    (Ok (PDict (parameter_fields get_safe_json p))).
Proof.
  intros HX (Hcls & Hname & Hdesc & Hmeta & Hvalues).
  unfold store_parameter_fields, parameter_fields.
  eapply refines_bind_ok; [by apply refines_dict_get|].
  intros label h1 Hsub1 Hlabel. grow_to Hsub1.
  eapply refines_bind_ok; [by apply refines_dict_get|].
  intros unit h2 Hsub2 Hunit. grow_to Hsub2.
  eapply refines_bind_ok; [by apply refines_dict_get|].
  intros period h3 Hsub3 Hperiod. grow_to Hsub3.
  eapply refines_bind_ok.
  { apply (refines_store_map X value_at_instant_denotes item_denotes);
      [eauto with mono..| |done|done].
    intros. by apply refines_value_item. }
  intros items h4 Hsub4 Hitems. grow_to Hsub4.
  eapply refines_bind_ok.
  { apply refines_alloc_dict; [done|].
    exact (dict_denotes_display _ _ _ Hitems). }
  intros values h5 Hsub5 Hvals. grow_to Hsub5.
  apply refines_alloc_dict; [done|]. apply dict_denotes_display.
  rewrite Hname. repeat constructor; done.
Qed.

Lemma refines_parameter_node_fields X (h : heap) s p :
  X ⊆ dom h → parameter_denotes (hide X h) s p →
  refines X denotes (store_parameter_node_fields s) h
    (Ok (PDict (parameter_node_fields p))).
Proof.
  intros HX (Hcls & Hname & Hdesc & Hmeta & Hvalues).
  unfold store_parameter_node_fields, parameter_node_fields.
  eapply refines_bind_ok; [by apply refines_dict_get|].
  intros label h1 Hsub1 Hlabel. grow_to Hsub1.
  apply refines_alloc_dict; [done|]. apply dict_denotes_display.
  rewrite Hname. repeat constructor; done.
Qed.

Lemma store_isinstance_denotes (h : heap) s p c :
  parameter_denotes h s p → store_isinstance s c = isinstance p c.
Proof. intros (Hcls & _). unfold store_isinstance, isinstance. by rewrite Hcls. Qed.

Lemma build_parameters_body_refines (stree : StoredTree) (tree : ParameterTree)
    X l (h : heap) d s p :
  snode_classes (stree_root stree) = node_classes (tree_root tree) →
  X ⊆ dom h → l ∉ X → h !! l = Some (ODict d) →
  parameter_denotes (hide (X ∪ {[l]}) h) s p →
  iteration_refines node_name
    (λ p, Some (parameter_record get_safe_json tree p))
    (store_build_parameters_body store_get_safe_json stree) X l h d s p.
Proof.
  intros Hroot HX Hl Hd Hp.
  unfold iteration_refines, store_build_parameters_body, parameter_record.
  rewrite !(store_isinstance_denotes _ s p _ Hp).
  replace (store_isinstance (stree_root stree) ClsParameterNode)
    with (isinstance (tree_root tree) ClsParameterNode)
    by (unfold store_isinstance, isinstance; by rewrite Hroot).
  assert (snode_name s = node_name p) as Hname by apply Hp.
  assert (X ∪ {[l]} ⊆ dom h) as HX' by by eapply union_subseteq_dom.
  rewrite Hname.
  destruct (negb _); [by split|].
  destruct (_ || _); [by split|].
  destruct (isinstance p ClsParameter).
  - pose proof (iteration_store X l h d
      (store_parameter_fields store_get_safe_json s) (node_name p)
      (PDict (parameter_fields get_safe_json p)) HX Hl Hd
      (refines_parameter_fields _ _ _ _ HX' Hp)) as Hit.
    destruct (mbind (M := M) _ _ h) as [r h2].
    destruct Hit as (Hsub & -> & v & Hl' & Hv). split; [done|]. by exists v.
  - destruct (isinstance (tree_root tree) ClsParameterNode); [|by split].
    pose proof (iteration_store X l h d
      (store_parameter_node_fields s) (node_name p)
      (PDict (parameter_node_fields p)) HX Hl Hd
      (refines_parameter_node_fields _ _ _ _ HX' Hp)) as Hit.
    destruct (mbind (M := M) _ _ h) as [r h2].
    destruct Hit as (Hsub & -> & v & Hl' & Hv). split; [done|]. by exists v.
Qed.

Lemma refines_build_parameters X (h : heap) s c :
  X ⊆ dom h → option_Forall2 (country_denotes (hide X h)) s c →
  refines X denotes_dict_of (store_build_parameters store_get_safe_json s) h
    (build_parameters get_safe_json c).
Proof.
  intros HX [sc pc (_ & [Hroot Hdesc] & _)|]; [|by split].
  apply (refines_accumulator parameter_denotes node_name
    (λ p, Some (parameter_record get_safe_json
                  (parameters (tax_benefit_system pc)) p))
    (store_build_parameters_body store_get_safe_json
       (sparameters (stax_benefit_system sc))) parameter_denotes_mono)
    with (pxs := get_descendants (parameters (tax_benefit_system pc)));
    [|done..| |].
  - intros. apply build_parameters_body_refines; [apply Hroot|done..].
  - intros _.
    rewrite (accumulate_foldl _ _
      (build_parameters_body get_safe_json
         (parameters (tax_benefit_system pc)))); [done|].
    intros. apply build_parameters_body_stores.
  - intros Hex. by apply Exists_exists in Hex as (? & _ & ?).
Qed.

End StoreParameterProjector.

(** ** The variable projector over the store *)

Lemma hide_fresh (Y : gset loc) (h : heap) r :
  h !! r = None → hide (Y ∪ {[r]}) h = hide Y h.
Proof.
  intros Hr. apply map_eq. intros l. apply option_eq. intros o.
  rewrite !lookup_hide. split; [set_solver|].
  intros [Hl ?]. split; [done|]. assert (l ≠ r) by congruence. set_solver.
Qed.

Lemma hide_anti (Y Z : gset loc) (h : heap) : Y ⊆ Z → hide Z h ⊆ hide Y h.
Proof.
  intros HYZ. apply map_subseteq_spec. intros l o. rewrite !lookup_hide.
  set_solver.
Qed.

(** A change at a location that was not in use. *)
Lemma hide_update_fresh (Z : gset loc) (h h' : heap) r o :
  h !! r = None → hide (Z ∪ {[r]}) h ⊆ hide (Z ∪ {[r]}) h' →
  hide Z h ⊆ hide Z (<[r := o]> h').
Proof.
  intros Hr Hsub. rewrite <- (hide_fresh Z h r Hr).
  etrans; [exact Hsub|].
  rewrite <- (hide_insert_hidden (Z ∪ {[r]}) h' r o) by set_solver.
  apply hide_anti. set_solver.
Qed.

Lemma getitem_run (h : heap) l d k v :
  h !! l = Some (ODict d) → d !! k = Some v →
  getitem (Ref l) k h = (Ok v, h).
Proof. intros Hl Hk. unfold getitem. by rewrite Hl, Hk. Qed.

Lemma setitem_run (h : heap) l d k v :
  h !! l = Some (ODict d) →
  setitem (Ref l) k v h = (Ok tt, <[l := ODict (<[k := v]> d)]> h).
Proof. intros Hl. unfold setitem. by rewrite Hl. Qed.

Lemma variable_denotes_mono : monotone variable_denotes.
Proof.
  intros h h' s v Hsub
    (? & ? & ? & ? & ? & ? & ? & ? & ? & ? & ? & ? & ? & ?).
  repeat split;
    first [ done
          | eapply denotes_mono; eassumption
          | eapply entity_denotes_mono; eassumption ].
Qed.

Lemma variable_item_denotes_mono : monotone variable_item_denotes.
Proof.
  intros h h' a b Hsub [Hn Hv]. split; [done|].
  by eapply variable_denotes_mono.
Qed.

Lemma refines_possible_value Y (h : heap) (member : EnumMember) :
  Y ⊆ dom h →
  refines Y denotes (store_possible_value member) h
    (Ok (possible_value member)).
Proof.
  intros HY. apply refines_alloc_dict; [done|]. apply dict_denotes_display.
  repeat constructor.
Qed.

Lemma isinstance_int_float_bool_denotes (h : heap) v p :
  denotes h v p →
  store_isinstance_int_float_bool v = isinstance_int_float_bool p.
Proof. by intros []. Qed.

Lemma getattr_name_denotes (h h' : heap) v p :
  denotes h v p →
  match store_getattr_name v h', getattr_name p with
  | (Ok n, h''), Ok n' => n = n' ∧ h'' = h'
  | (Raise _, h''), Raise _ => h'' = h'
  | _, _ => False
  end.
Proof.
  intros [q|l d pd _ _ _|l xs ps _ _ _]; [|reflexivity..].
  destruct q; try reflexivity. by split.
Qed.

(** The display of the fields of a variable. *)
Lemma variable_fields_denotes (h : heap) name s v :
  variable_denotes h s v →
  dict_denotes h
    (store_dict [
      ("documentation", svar_documentation s);
      ("entity", Imm (PStr (sent_key (svar_entity s))));
      ("valueType", Imm (PStr (svar_value_type_name s)));
      ("definitionPeriod", svar_definition_period s);
      ("name", Imm (PStr name));
      ("label", svar_label s);
      ("category", svar_category s);
      ("unit", svar_unit s);
      ("moduleName", svar_module_name s);
      ("indexInModule", svar_index_in_module s);
      ("isInputVariable", Imm (PBool (svar_is_input_variable s)));
      ("defaultValue",
        if store_isinstance_int_float_bool (svar_default_value s)
        then svar_default_value s
        else Imm PNone);
      ("adds", svar_adds s);
      ("subtracts", svar_subtracts s)])
    (variable_fields name v).
Proof.
  intros (Hdoc & Hent & Htype & Hperiod & Hlabel & Hcat & Hunit & Hmod
          & Hidx & Hinput & Hdefault & Hadds & Hsubs & Hposs).
  apply dict_denotes_display.
  rewrite (isinstance_int_float_bool_denotes _ _ _ Hdefault).
  rewrite Htype, Hinput.
  destruct Hent as (_ & _ & _ & _ & -> & _).
  repeat constructor; try done.
  simpl. destruct (isinstance_int_float_bool _); [done|constructor].
Qed.

Lemma ret_run {A : Type} (a : A) (h : heap) :
  mret (M := M) a h = (Ok a, h).
Proof. reflexivity. Qed.

Lemma raise_run {A : Type} (e : exn) (h : heap) :
  raise (A := A) e h = (Raise e, h).
Proof. reflexivity. Qed.

Lemma build_variables_body_refines X l (h : heap) d
    (a : string * StoredVariable) (b : string * PEVariable) :
  X ⊆ dom h → l ∉ X → h !! l = Some (ODict d) →
  variable_item_denotes (hide (X ∪ {[l]}) h) a b →
  iteration_refines fst (λ b, Some <$> variable_record b)
    store_build_variables_body X l h d a b.
Proof.
  destruct a as [name s], b as [name' v]. intros HX Hl Hd [Hn Hv].
  simpl in Hn, Hv. subst name'.
  unfold iteration_refines, store_build_variables_body, variable_record.
  rewrite bind_run. unfold store_variable_fields, alloc at 1.
  set (r := fresh (dom h)). set (base := store_dict _).
  set (h1 := <[r := ODict base]> h).
  assert (h !! r = None) as Hr by apply fresh_lookup_None.
  assert (r ≠ l) as Hrl by congruence.
  assert (r ∉ X) as HrX by by apply fresh_not_hidden.
  assert (dict_denotes (hide (X ∪ {[l]}) h) base (variable_fields name v))
    as Hbase by by apply variable_fields_denotes.
  rewrite bind_run. unfold setitem at 1.
  assert (h1 !! l = Some (ODict d)) as Hl1.
  { unfold h1. by rewrite lookup_insert_ne. }
  rewrite Hl1. set (dl := <[name := Ref r]> d).
  set (h2 := <[l := ODict dl]> h1).
  set (Y := X ∪ {[l]} ∪ {[r]}).
  assert (hide Y h2 = hide (X ∪ {[l]}) h) as HY2.
  { unfold h2, h1. rewrite !hide_insert_hidden by set_solver.
    by apply hide_fresh. }
  assert (hide {[l]} h ⊆ hide {[l]} h2) as Hsub2.
  { unfold h2. rewrite hide_insert_hidden by set_solver.
    by apply hide_mono, insert_subseteq. }
  assert (h2 !! l = Some (ODict dl)) as Hl2 by apply lookup_insert_eq.
  assert (h2 !! r = Some (ODict base)) as Hr2.
  { unfold h2, h1. rewrite lookup_insert_ne by done. apply lookup_insert_eq. }
  assert (Y ⊆ dom h2) as HYdom.
  { unfold Y, h2, h1. rewrite !dom_insert_L. set_solver. }
  destruct Hv as (Hdoc & Hent & Htype & Hperiod & Hlabel & Hcat & Hunit
                  & Hmod & Hidx & Hinput & Hdefault & Hadds & Hsubs & Hposs).
  rewrite Htype. destruct (String.eqb _ _).
  2: { rewrite ret_run. split; [done|]. exists (Ref r). split; [done|].
       apply denotes_dict_intro with base.
       - apply lookup_hide. split; [done|set_solver].
       - eapply dict_denotes_mono; [|done]. rewrite <- HY2.
         apply hide_anti. set_solver. }
  rewrite bind_run. unfold store_getattr_possible_values. rewrite Hposs.
  destruct (var_possible_values v) as [members|].
  2: { rewrite raise_run. by split. }
  rewrite ret_run, bind_run.
  pose proof (refines_store_map Y (λ _ (m m' : EnumMember), m = m') denotes
    store_possible_value possible_value) as Hmap.
  specialize (Hmap ltac:(by intros ? ? ? ? ? ?) denotes_mono).
  specialize (Hmap (λ h' m m' HY' Hm,
    eq_ind m (λ m', refines Y denotes (store_possible_value m) h'
                      (Ok (possible_value m')))
      (refines_possible_value Y h' m HY') m' Hm)).
  specialize (Hmap members members h2 HYdom).
  assert (Forall2 (λ m m' : EnumMember, m = m') members members) as Hsame.
  { clear. induction members; by constructor. }
  specialize (Hmap Hsame). unfold refines in Hmap.
  destruct (store_map store_possible_value members h2) as [[entries|e] h3],
    Hmap as [Hsub3 Hentries]; [|done].
  rewrite bind_run. unfold alloc at 1.
  set (lp := fresh (dom h3)). set (h4 := <[lp := OList entries]> h3).
  assert (h3 !! lp = None) as Hlp by apply fresh_lookup_None.
  assert (h2 ⊆ h4) as Hsub4 by (etrans; [done|by apply insert_subseteq]).
  assert (Y ⊆ dom h3) as HYdom3 by by eapply subseteq_dom_trans.
  assert (lp ∉ Y) as HlpY by by apply fresh_not_hidden.
  assert (denotes (hide Y h4) (Ref lp)
            (PList (possible_value <$> members))) as Hpossible.
  { apply denotes_list_intro with entries.
    - apply lookup_hide. split; [apply lookup_insert_eq|done].
    - eapply Forall2_monotone; [apply denotes_mono| |done].
      by apply hide_insert_fresh. }
  rewrite bind_run.
  rewrite (getitem_run h4 l dl name (Ref r));
    [|by eapply lookup_weaken|apply lookup_insert_eq].
  rewrite bind_run, (setitem_run h4 r base) by by eapply lookup_weaken.
  set (base5 := <["possibleValues" := Ref lp]> base).
  set (h5 := <[r := ODict base5]> h4).
  assert (hide Y h5 = hide Y h4) as HY5.
  { unfold h5. apply hide_insert_hidden. set_solver. }
  assert (hide (X ∪ {[l]}) h ⊆ hide Y h4) as HsubY.
  { rewrite <- HY2. by apply hide_mono. }
  assert (hide {[l]} h ⊆ hide {[l]} h5) as Hsub5.
  { unfold h5. apply hide_update_fresh; [done|].
    etrans; [|by apply hide_mono].
    unfold h2, h1. rewrite !hide_insert_hidden by set_solver.
    by rewrite hide_fresh. }
  rewrite bind_run.
  pose proof (getattr_name_denotes _ h5 _ _ Hdefault) as Hname.
  destruct (store_getattr_name (svar_default_value s) h5) as [[n|e] h5'],
    (getattr_name (var_default_value v)) as [n'|e'] eqn:Hpure;
    try done.
  2: { subst h5'. destruct (var_default_value v); try done. }
  destruct Hname as [<- ->].
  destruct (var_default_value v) as [| | | | | | |n' value]; try done.
  injection Hpure as <-.
  rewrite bind_run.
  rewrite (getitem_run h5 l dl name (Ref r));
    [|unfold h5; rewrite lookup_insert_ne by done; by eapply lookup_weaken
     |apply lookup_insert_eq].
  rewrite bind_run, (setitem_run h5 r base5) by apply lookup_insert_eq.
  rewrite ret_run.
  set (base6 := <["defaultValue" := Imm (PStr n')]> base5).
  set (h6 := <[r := ODict base6]> h5).
  assert (hide Y h6 = hide Y h4) as HY6.
  { unfold h6. rewrite hide_insert_hidden by set_solver. done. }
  assert (hide Y h6 ⊆ hide (X ∪ {[l]}) h6) as Hanti.
  { apply hide_anti. set_solver. }
  split.
  { unfold h6. apply hide_update_fresh; [done|].
    unfold h5. rewrite hide_insert_hidden by set_solver.
    etrans; [|by apply hide_mono].
    unfold h2, h1. rewrite !hide_insert_hidden by set_solver.
    by rewrite hide_fresh. }
  exists (Ref r). split.
  { unfold h6, h5. rewrite !lookup_insert_ne by done.
    by eapply lookup_weaken. }
  apply denotes_dict_intro with base6.
  { apply lookup_hide. split; [apply lookup_insert_eq|set_solver]. }
  eapply dict_denotes_mono; [exact Hanti|]. rewrite HY6.
  apply dict_denotes_insert; [constructor|].
  apply dict_denotes_insert; [done|].
  by eapply dict_denotes_mono.
Qed.


(** The items of the stored variables, in the order of the loop, denote
    items of the pure variables, each variable once. *)
Lemma variable_items_denote (h : heap)
    (svars : gmap string StoredVariable) (vars : gmap string PEVariable) :
  (∀ name, option_Forall2 (variable_denotes h)
             (svars !! name) (vars !! name)) →
  ∃ pxs,
    Forall2 (variable_item_denotes h) (map_to_list svars) pxs
    ∧ NoDup pxs.*1
    ∧ ∀ name v, (name, v) ∈ pxs ↔ vars !! name = Some v.
Proof.
  intros Hvars.
  assert (∀ xs : list (string * StoredVariable),
    (∀ name s, (name, s) ∈ xs → svars !! name = Some s) →
    ∃ pxs, Forall2 (variable_item_denotes h) xs pxs
      ∧ pxs.*1 = xs.*1
      ∧ ∀ name v, (name, v) ∈ pxs → vars !! name = Some v) as Hlist.
  { induction xs as [|[name s] xs IH]; intros Hxs.
    - exists []. repeat split; [constructor|]. intros ? ? []%elem_of_nil.
    - destruct IH as (pxs & Hall & Hkeys & Hin).
      { intros name' s' Hin. apply Hxs. by right. }
      pose proof (Hvars name) as Hname.
      rewrite (Hxs name s) in Hname by by left.
      inversion Hname as [s' v Hv Hs' Hlookup|]; subst.
      exists ((name, v) :: pxs). split; [by constructor|].
      split; [by rewrite !fmap_cons, Hkeys|].
      intros name' v' [[= -> ->]|Hin']%elem_of_cons; [done|by apply Hin]. }
  destruct (Hlist (map_to_list svars)) as (pxs & Hall & Hkeys & Hin).
  { intros name s. apply elem_of_map_to_list. }
  exists pxs. split; [done|]. split.
  { rewrite Hkeys. apply NoDup_fst_map_to_list. }
  intros name v. split; [apply Hin|]. intros Hlookup.
  pose proof (Hvars name) as Hname. rewrite Hlookup in Hname.
  inversion Hname as [s v' Hv Hs Hv'|]; subst.
  assert (name ∈ pxs.*1) as Hkey.
  { rewrite Hkeys. apply list_elem_of_fmap. exists (name, s).
    split; [done|]. by apply elem_of_map_to_list. }
  apply list_elem_of_fmap in Hkey as ([name' v'] & -> & Hin').
  simpl in *. apply Hin in Hin' as Hlookup'.
  by assert (v' = v) as <- by congruence.
Qed.

Lemma refines_build_variables X (h : heap) s c :
  X ⊆ dom h → option_Forall2 (country_denotes (hide X h)) s c →
  refines X denotes_dict_of (store_build_variables s) h (build_variables c).
Proof.
  intros HX [sc pc (Hvars & _)|]; [|by split].
  destruct (variable_items_denote _ _ _ Hvars) as (pxs & Hall & Hnodup & Hin).
  assert (∀ (acc : gmap string pyval) (x : string * PEVariable),
    from_option (λ v, <[x.1 := v]> acc) acc (variable_record x)
    = from_option (λ v, <[x.1 := v]> acc) acc
        (mjoin (Some <$> variable_record x))) as Hjoin.
  { intros acc x. by destruct (variable_record x). }
  apply (refines_accumulator variable_item_denotes fst
    (λ b, Some <$> variable_record b) store_build_variables_body
    variable_item_denotes_mono) with (pxs := pxs); [|done..| |].
  - intros. by apply build_variables_body_refines.
  - intros Hsome.
    destruct (proj2 (build_variables_returns pc)) as [out Hout].
    { intros name v Hlookup. apply Hin in Hlookup.
      rewrite Forall_forall in Hsome. apply Hsome in Hlookup.
      apply (well_formed_variable_record (name, v)).
      destruct (variable_record (name, v)); [by eexists|].
      by destruct Hlookup as [? ?]. }
    rewrite Hout. f_equal. apply map_eq. intros name.
    rewrite (build_variables_lookup pc out name Hout).
    rewrite (accumulate_foldl fst _
      (λ acc x, from_option (λ v, <[x.1 := v]> acc) acc (variable_record x)))
      by done.
    destruct (variables _ !! name) as [v|] eqn:Hlookup; simpl.
    + symmetry.
      apply (store_loop_lookup_unique fst variable_record _
               (λ acc x, eq_refl) pxs (name, v)); [by apply Hin|].
      intros [name' v'] Hin' Hkey. simpl in Hkey. subst name'.
      apply Hin in Hin'. congruence.
    + destruct (foldl _ _ _ !! name) as [w|] eqn:Hl; [|done].
      apply (store_loop_lookup_Some fst variable_record _ (λ acc x, eq_refl))
        in Hl as ([name' v'] & Hin'%Hin & Hkey & _).
      simpl in Hkey. congruence.
  - intros Hex. apply Exists_exists in Hex as ([name v] & Hin'%Hin & Hnone).
    destruct (build_variables (Some pc)) as [out|e] eqn:Hbuild; [|by eexists].
    assert (well_formed_variable v = true) as Hwf.
    { apply (proj1 (build_variables_returns pc)) with name; [by eexists|done]. }
    apply (well_formed_variable_record (name, v)) in Hwf as [w Hw].
    change (Some <$> variable_record (name, v) = None) in Hnone.
    by rewrite Hw in Hnone.
Qed.

(** ** The economy options over the store *)

(** An object allocated at [l] and filled by assignments, the values
    having been built without it. *)
Lemma filled_object_denotes X (h h' : heap) l d pd :
  X ⊆ dom h → h !! l = None → h ⊆ h' →
  dict_denotes (hide (X ∪ {[l]}) h') d pd →
  h ⊆ <[l := ODict d]> h'
  ∧ denotes (hide X (<[l := ODict d]> h')) (Ref l) (PDict pd).
Proof.
  intros HX Hl Hsub Hd. split; [by apply insert_subseteq_r|].
  assert (l ∉ X) as HlX.
  { intros Hin. apply HX, elem_of_dom in Hin as [? ?]. congruence. }
  apply denotes_dict_intro with d.
  { apply lookup_hide. split; [apply lookup_insert_eq|done]. }
  eapply dict_denotes_mono; [|done].
  rewrite <- (hide_insert_hidden (X ∪ {[l]}) h' l (ODict d)) by set_solver.
  apply hide_anti. set_solver.
Qed.

Lemma refines_option_entry Y (h : heap) (entry : pyval * string) :
  Y ⊆ dom h →
  refines Y denotes (store_option_entry entry) h
    (Ok (option_entry entry.1 entry.2)).
Proof.
  intros HY. apply refines_alloc_dict; [done|]. apply dict_denotes_display.
  repeat constructor.
Qed.

Lemma refines_option_entries Y (h : heap) (entries : list (pyval * string)) :
  Y ⊆ dom h →
  refines Y (λ h, Forall2 (denotes h))
    (store_map store_option_entry entries) h
    (Ok ((λ entry, option_entry entry.1 entry.2) <$> entries)).
Proof.
  intros HY.
  apply (refines_store_map Y (λ _ (e e' : pyval * string), e = e') denotes);
    [by intros ? ? ? ? ? ?|apply denotes_mono| |done|].
  - intros h' e e' HY' <-. by apply refines_option_entry.
  - clear. induction entries; by constructor.
Qed.

(** The table of one country: the regions and the time periods. *)
Lemma refines_options_table X (h : heap)
    (regions periods : list (pyval * string)) :
  X ⊆ dom h →
  refines X denotes_dict_of
    (options ← alloc (ODict ∅);
     entries ← store_map store_option_entry regions;
     region ← alloc (OList entries);
     entries ← store_map store_option_entry periods;
     time_period ← alloc (OList entries);
     _ ← setitem options "region" region;
     _ ← setitem options "time_period" time_period;
     mret options) h
    (Ok (<["time_period" :=
             PList ((λ entry, option_entry entry.1 entry.2) <$> periods)]>
           (<["region" :=
                PList ((λ entry, option_entry entry.1 entry.2) <$> regions)]>
              ∅))).
Proof.
  intros HX. unfold refines. rewrite bind_run. unfold alloc at 1.
  set (l := fresh (dom h)). set (h1 := <[l := ODict ∅]> h).
  assert (h !! l = None) as Hl by apply fresh_lookup_None.
  set (Y := X ∪ {[l]}).
  assert (Y ⊆ dom h1) as HY1.
  { unfold Y, h1. rewrite dom_insert_L. set_solver. }
  rewrite bind_run.
  pose proof (refines_option_entries Y h1 regions HY1) as Hregions.
  unfold refines in Hregions.
  destruct (store_map store_option_entry regions h1) as [[rs|e] h2],
    Hregions as [Hsub2 Hrs]; [|done].
  assert (Y ⊆ dom h2) as HY2 by by eapply subseteq_dom_trans.
  rewrite bind_run.
  pose proof (refines_alloc_list Y h2 rs _ HY2 Hrs) as Hregion.
  unfold refines in Hregion.
  destruct (alloc (OList rs) h2) as [[region|e] h3],
    Hregion as [Hsub3 Hregion]; [|done].
  assert (Y ⊆ dom h3) as HY3 by by eapply subseteq_dom_trans.
  rewrite bind_run.
  pose proof (refines_option_entries Y h3 periods HY3) as Hperiods.
  unfold refines in Hperiods.
  destruct (store_map store_option_entry periods h3) as [[ps|e] h4],
    Hperiods as [Hsub4 Hps]; [|done].
  assert (Y ⊆ dom h4) as HY4 by by eapply subseteq_dom_trans.
  rewrite bind_run.
  pose proof (refines_alloc_list Y h4 ps _ HY4 Hps) as Hperiod.
  unfold refines in Hperiod.
  destruct (alloc (OList ps) h4) as [[time_period|e] h5],
    Hperiod as [Hsub5 Hperiod]; [|done].
  assert (h1 ⊆ h5) as Hsub15 by (do 3 (etrans; [eassumption|]); done).
  assert (h5 !! l = Some (ODict ∅)) as Hl5.
  { eapply lookup_weaken; [apply lookup_insert_eq|done]. }
  rewrite bind_run, (setitem_run h5 l ∅) by done.
  rewrite bind_run, (setitem_run _ l (<["region" := region]> ∅))
    by apply lookup_insert_eq.
  rewrite ret_run, insert_insert_eq.
  apply filled_object_denotes; [done|done| |].
  { etrans; [by apply insert_subseteq|done]. }
  apply dict_denotes_insert; [done|].
  apply dict_denotes_insert; [|apply dict_denotes_empty].
  eapply denotes_mono; [|done]. apply hide_mono. by etrans.
Qed.

Lemma refines_build_microsimulation_options X (h : heap)
    (s : option StoredCountry) (c : option PolicyEngineCountry) country_id :
  X ⊆ dom h →
  refines X denotes_dict_of
    (store_build_microsimulation_options s country_id) h
    (Ok (build_microsimulation_options c country_id)).
Proof.
  intros HX.
  unfold store_build_microsimulation_options, build_microsimulation_options.
  destruct (String.eqb country_id "uk").
  { by apply refines_options_table. }
  destruct (String.eqb country_id "us").
  { by apply refines_options_table. }
  eapply refines_bind_ok.
  { apply refines_alloc_dict; [done|apply dict_denotes_empty]. }
  intros options h1 _ Hoptions. by apply refines_ret.
Qed.

(** ** The handler over the store *)

Lemma store_truthy_denotes X (h : heap) v p :
  denotes (hide X h) v p → store_truthy v h = (Ok (truthy p), h).
Proof.
  intros Hden. unfold store_truthy.
  inversion Hden as [q|l d pd Hl Hdom Hall|l xs ps Hl Hlen Hall]; subst.
  - done.
  - apply lookup_hide in Hl as [-> _]. simpl.
    by rewrite <- !size_dom, Hdom.
  - apply lookup_hide in Hl as [-> _]. simpl.
    by destruct xs, ps.
Qed.

Lemma refines_truthy {C D : Type} X (R : heap → C → D → Prop) (h : heap)
    v p (k : bool → M C) (pure : result D) :
  denotes (hide X h) v p →
  refines X R (k (truthy p)) h pure →
  refines X R (is_true ← store_truthy v; k is_true) h pure.
Proof.
  intros Hden Hk. unfold refines.
  by rewrite bind_run, (store_truthy_denotes X h v p Hden).
Qed.

Lemma denotes_dict_of_mono : monotone denotes_dict_of.
Proof. intros h h' v pd Hsub. by apply denotes_mono. Qed.

Lemma tree_denotes_mono : monotone tree_denotes.
Proof.
  intros h h' s t Hsub [Hroot Hdesc]. split.
  - by eapply parameter_denotes_mono.
  - eapply Forall2_monotone; [apply parameter_denotes_mono|done..].
Qed.

Lemma system_denotes_mono : monotone system_denotes.
Proof.
  intros h h' s t Hsub (Hvars & Htree & Hents & Hmeta).
  split; [|split; [|split]].
  - intros name. destruct (Hvars name); constructor.
    by eapply variable_denotes_mono.
  - by eapply tree_denotes_mono.
  - eapply Forall2_monotone; [apply entity_denotes_mono|done..].
  - by eapply denotes_mono.
Qed.

Lemma country_denotes_mono : monotone country_denotes.
Proof. intros h h' s c. apply system_denotes_mono. Qed.

Lemma registry_denotes_mono : monotone registry_denotes.
Proof.
  intros h h' s c Hsub Hreg country_id.
  destruct (Hreg country_id); constructor. by eapply country_denotes_mono.
Qed.

#[local] Hint Resolve denotes_dict_of_mono system_denotes_mono
  country_denotes_mono registry_denotes_mono : mono.

Section StoreHandler.

Variable COUNTRIES : gmap string PolicyEngineCountry.
Variable validate_country : string → pyval.
Variable get_safe_json : pyval → pyval.
Variable STORED_COUNTRIES : gmap string StoredCountry.
Variable store_validate_country : string → M sval.
Variable store_get_safe_json : sval → M sval.

(** The collaborators over the store refine the pure ones: they change
    no object, and their results read as the pure results. *)
Hypothesis validate_country_refines : ∀ X (h : heap) country_id,
  X ⊆ dom h →
  refines X denotes (store_validate_country country_id) h
    (Ok (validate_country country_id)).
Hypothesis get_safe_json_refines : ∀ X (h : heap) v p,
  X ⊆ dom h → denotes (hide X h) v p →
  refines X denotes (store_get_safe_json v) h (Ok (get_safe_json p)).

(** The handler over the store refines the pure handler. *)
Lemma refines_metadata X (h : heap) (country_id : string) :
  X ⊆ dom h →
  registry_denotes (hide X h) STORED_COUNTRIES COUNTRIES →
  refines X denotes
    (store_metadata STORED_COUNTRIES store_validate_country
       store_get_safe_json country_id) h
    (metadata COUNTRIES validate_country get_safe_json country_id).
Proof.
  intros HX Hreg. unfold store_metadata, metadata.
  eapply refines_bind_ok; [by apply validate_country_refines|].
  intros not_found h1 Hsub1 Hnot_found. grow_to Hsub1.
  apply (refines_truthy X denotes h1 not_found
           (validate_country country_id)); [done|].
  destruct (truthy (validate_country country_id)).
  { by apply refines_ret. }
  pose proof (Hreg country_id) as Hcountry.
  eapply refines_bind; [by apply refines_build_variables|].
  intros vars pvars h2 Hsub2 Hvars. grow_to Hsub2.
  pose proof (Hreg country_id) as Hcountry2.
  eapply refines_bind;
    [by apply (refines_build_parameters get_safe_json store_get_safe_json)|].
  intros params pparams h3 Hsub3 Hparams. grow_to Hsub3.
  pose proof (Hreg country_id) as Hcountry3.
  eapply refines_bind; [by apply refines_build_entities|].
  intros ents pents h4 Hsub4 Hents. grow_to Hsub4.
  destruct (Hreg country_id) as [sc pc Hc|]; [|apply refines_raise].
  change (refines X denotes
    (economy_options ← store_build_microsimulation_options (Some sc)
                          country_id;
     res ← alloc (ODict (store_dict [
       ("variables", vars);
       ("parameters", params);
       ("entities", ents);
       ("variableModules",
         svariable_module_metadata (stax_benefit_system sc));
       ("economy_options", economy_options);
       ("current_law_id",
         Imm (PInt (if String.eqb country_id "uk" then 1 else 2)))]));
     alloc (ODict (store_dict [
       ("status", Imm (PStr "ok"));
       ("message", Imm PNone);
       ("result", res)]))) h4
    (Ok (PDict (pydict [
       ("status", PStr "ok");
       ("message", PNone);
       ("result", PDict (pydict [
          ("variables", PDict pvars);
          ("parameters", PDict pparams);
          ("entities", PDict pents);
          ("variableModules",
            variable_module_metadata (tax_benefit_system pc));
          ("economy_options",
            PDict (build_microsimulation_options (Some pc) country_id));
          ("current_law_id",
            PInt (if String.eqb country_id "uk" then 1 else 2))]))])))).
  eapply refines_bind_ok;
    [by apply (refines_build_microsimulation_options _ _ _ (Some pc))|].
  intros opts h5 Hsub5 Hopts. grow_to Hsub5.
  destruct Hc as (_ & _ & _ & Hmodules).
  apply (refines_bind_ok X denotes denotes _ _ _
    (PDict (pydict [
       ("variables", PDict pvars);
       ("parameters", PDict pparams);
       ("entities", PDict pents);
       ("variableModules", variable_module_metadata (tax_benefit_system pc));
       ("economy_options",
         PDict (build_microsimulation_options (Some pc) country_id));
       ("current_law_id",
         PInt (if String.eqb country_id "uk" then 1 else 2))]))).
  { apply refines_alloc_dict; [done|]. apply dict_denotes_display.
    repeat constructor; done. }
  intros res h6 Hsub6 Hres. grow_to Hsub6.
  apply refines_alloc_dict; [done|]. apply dict_denotes_display.
  repeat constructor; done.
Qed.

End StoreHandler.

(** ** Determinism and the rule system left as it is *)

Section Determinism.

Variable COUNTRIES : gmap string PolicyEngineCountry.
Variable validate_country : string → pyval.
Variable get_safe_json : pyval → pyval.
Variable STORED_COUNTRIES : gmap string StoredCountry.
Variable store_validate_country : string → M sval.
Variable store_get_safe_json : sval → M sval.

Hypothesis validate_country_refines : ∀ X (h : heap) country_id,
  X ⊆ dom h →
  refines X denotes (store_validate_country country_id) h
    (Ok (validate_country country_id)).
Hypothesis get_safe_json_refines : ∀ X (h : heap) v p,
  X ⊆ dom h → denotes (hide X h) v p →
  refines X denotes (store_get_safe_json v) h (Ok (get_safe_json p)).

(** C10: the handler is deterministic and leaves the rule system as it
    is.  Run twice, one invocation after the other, on a store whose
    registry reads as the pure registry, with collaborators that change
    no object: every object of the first store is unchanged after each
    invocation, so the registry reads the same; both invocations return
    when the pure handler does, values that read as the envelope the pure
    handler returns, and so as equal envelopes; both raise when the pure
    handler does. *)
Theorem metadata_deterministic (h : heap) (country_id : string) :
  registry_denotes h STORED_COUNTRIES COUNTRIES →
  let '(r1, h1) :=
    store_metadata STORED_COUNTRIES store_validate_country
      store_get_safe_json country_id h in
  let '(r2, h2) :=
    store_metadata STORED_COUNTRIES store_validate_country
      store_get_safe_json country_id h1 in
  h ⊆ h1 ∧ h1 ⊆ h2
  ∧ registry_denotes h1 STORED_COUNTRIES COUNTRIES
  ∧ registry_denotes h2 STORED_COUNTRIES COUNTRIES
  ∧ match metadata COUNTRIES validate_country get_safe_json country_id with
    | Ok envelope =>
        ∃ v1 v2,
          r1 = Ok v1 ∧ r2 = Ok v2
          ∧ denotes h2 v1 envelope ∧ denotes h2 v2 envelope
          ∧ ∀ p1 p2, denotes h2 v1 p1 → denotes h2 v2 p2 → p1 = p2
    | Raise _ => (∃ e, r1 = Raise e) ∧ (∃ e, r2 = Raise e)
    end.
Proof.
  intros Hreg.
  pose proof (refines_metadata COUNTRIES validate_country get_safe_json
    STORED_COUNTRIES store_validate_country store_get_safe_json
    validate_country_refines get_safe_json_refines ∅ h country_id) as Hrun1.
  rewrite hide_empty in Hrun1.
  specialize (Hrun1 ltac:(set_solver) Hreg). unfold refines in Hrun1.
  destruct (store_metadata _ _ _ country_id h) as [r1 h1].
  destruct Hrun1 as [Hsub1 Hres1].
  assert (registry_denotes h1 STORED_COUNTRIES COUNTRIES) as Hreg1.
  { by eapply registry_denotes_mono. }
  pose proof (refines_metadata COUNTRIES validate_country get_safe_json
    STORED_COUNTRIES store_validate_country store_get_safe_json
    validate_country_refines get_safe_json_refines ∅ h1 country_id) as Hrun2.
  rewrite hide_empty in Hrun2.
  specialize (Hrun2 ltac:(set_solver) Hreg1). unfold refines in Hrun2.
  destruct (store_metadata _ _ _ country_id h1) as [r2 h2].
  destruct Hrun2 as [Hsub2 Hres2].
  split; [done|]. split; [done|]. split; [done|].
  split; [by eapply registry_denotes_mono|].
  rewrite !hide_empty in *.
  destruct (metadata _ _ _ country_id) as [envelope|e].
  - destruct r1 as [v1|]; [|done]. destruct r2 as [v2|]; [|done].
    assert (denotes h2 v1 envelope) as Hv1 by by eapply denotes_mono.
    exists v1, v2. repeat split; [done..|].
    intros p1 p2 Hp1 Hp2.
    rewrite <- (denotes_functional h2 v1 envelope p1 Hv1 Hp1).
    by apply (denotes_functional h2 v2).
  - destruct r1; [done|]. destruct r2; [done|]. split; by eexists.
Qed.

End Determinism.

(** *** The sample rule system in the store *)

Lemma imm_role_denotes (h : heap) r : role_denotes h (imm_role r) r.
Proof. repeat split; constructor. Qed.

Lemma imm_entity_denotes (h : heap) e : entity_denotes h (imm_entity e) e.
Proof.
  repeat split; try constructor. simpl.
  destruct (ent_roles e) as [roles|]; constructor.
  apply (Forall2_fmap_l imm_role), Forall_Forall2_diag, Forall_forall.
  intros. apply imm_role_denotes.
Qed.

Lemma imm_variable_denotes (h : heap) v :
  variable_denotes h (imm_variable v) v.
Proof.
  split; [constructor|]. split; [apply imm_entity_denotes|].
  repeat split; constructor.
Qed.

Lemma imm_values_denote (h : heap) (values : list ValueAtInstant) :
  Forall2 (value_at_instant_denotes h)
    (imm_value_at_instant <$> values) values.
Proof.
  apply Forall2_fmap_l, Forall_Forall2_diag, Forall_forall.
  intros. split; [done|constructor].
Qed.

Lemma imm_parameter_denotes (h : heap) p :
  parameter_denotes h (imm_parameter p) p.
Proof.
  repeat split; try constructor. apply imm_values_denote.
Qed.

Lemma stored_rate_parameter_denotes :
  parameter_denotes sample_heap stored_rate_parameter rate_parameter.
Proof.
  split; [done|]. split; [done|]. split; [apply denotes_imm|].
  split; [|apply imm_values_denote].
  eapply denotes_dict_intro; [reflexivity|].
  change (node_metadata rate_parameter)
    with ({["label" := PStr "Basic rate"; "unit" := PStr "/1"]}
            : gmap string pyval).
  rewrite <- insert_empty.
  repeat (apply dict_denotes_insert; [apply denotes_imm|]).
  apply dict_denotes_empty.
Qed.

Lemma sample_country_denotes :
  country_denotes sample_heap sample_stored_country sample_country.
Proof.
  split; [|split; [|split]].
  - intros name. simpl. rewrite lookup_fmap.
    destruct (_ !! name); constructor. apply imm_variable_denotes.
  - split; [apply imm_parameter_denotes|]. simpl.
    repeat constructor;
      first [ apply stored_rate_parameter_denotes
            | apply (imm_parameter_denotes sample_heap) ].
  - simpl. repeat constructor; apply imm_entity_denotes.
  - simpl. eapply denotes_dict_intro; [reflexivity|apply dict_denotes_empty].
Qed.

Lemma sample_registry_denotes :
  registry_denotes sample_heap sample_stored_countries sample_countries.
Proof.
  intros country_id. unfold sample_stored_countries, sample_countries.
  destruct (decide (country_id = "uk")) as [->|Huk].
  { rewrite !lookup_insert_eq. constructor. apply sample_country_denotes. }
  rewrite !lookup_insert_ne by done.
  destruct (decide (country_id = "us")) as [->|Hus].
  { rewrite !lookup_singleton_eq. constructor. apply sample_country_denotes. }
  rewrite !lookup_singleton_ne by done. constructor.
Qed.

Lemma metadata_deterministic_witness :
  ∃ v1 v2 h1 h2 envelope,
    store_metadata sample_stored_countries sample_store_validate_country
      sample_store_get_safe_json "uk" sample_heap = (Ok v1, h1)
    ∧ store_metadata sample_stored_countries sample_store_validate_country
        sample_store_get_safe_json "uk" h1 = (Ok v2, h2)
    ∧ sample_heap ⊆ h1 ∧ h1 ⊆ h2
    ∧ metadata sample_countries sample_validate_country (λ v, v) "uk"
      = Ok envelope
    ∧ denotes h2 v1 envelope ∧ denotes h2 v2 envelope.
Proof.
  pose proof (metadata_deterministic sample_countries
    sample_validate_country (λ v, v) sample_stored_countries
    sample_store_validate_country sample_store_get_safe_json) as Hdet.
  specialize (Hdet
    (λ X h country_id _, refines_ret X denotes h _ _ (denotes_imm _ _))
    (λ X h v p _ Hv, refines_ret X denotes h v p Hv)
    sample_heap "uk" sample_registry_denotes).
  destruct (store_metadata _ _ _ "uk" sample_heap) as [r1 h1].
  destruct (store_metadata _ _ _ "uk" h1) as [r2 h2] eqn:Hrun2.
  destruct Hdet as (Hsub1 & Hsub2 & _ & _ & Hres).
  destruct (metadata_accepted sample_countries sample_validate_country
              (λ v, v) "uk" sample_country)
    as (vars & params & ents & _ & _ & _ & Hmeta);
    [reflexivity|reflexivity|apply sample_variables_well_formed|].
  rewrite Hmeta in Hres.
  destruct Hres as (v1 & v2 & -> & -> & Hv1 & Hv2 & _).
  eexists v1, v2, h1, h2, _.
  split; [reflexivity|]. split; [exact Hrun2|]. split; [exact Hsub1|].
  split; [exact Hsub2|]. split; [exact Hmeta|]. split; [exact Hv1|exact Hv2].
Defined.

(** * Further properties of the projectors *)

(** ** Exceptions of the variable projector *)

Lemma ill_formed_variable (variable : PEVariable) :
  well_formed_variable variable = false
  ↔ var_value_type_name variable = "Enum"
    ∧ (var_possible_values variable = None
       ∨ ∀ member_name value, var_default_value variable
                              ≠ PEnum member_name value).
Proof.
  unfold well_formed_variable. split.
  - destruct (String.eqb _ _) eqn:Htype; [|done].
    apply String.eqb_eq in Htype. split; [done|].
    destruct (var_possible_values variable); [|by left].
    right. by destruct (var_default_value variable).
  - intros [-> Hbad]. simpl. destruct Hbad as [->|Hdefault]; [done|].
    destruct (var_possible_values variable); [|done].
    destruct (var_default_value variable) as [| | | | | | |n w]; try done.
    by destruct (Hdefault n w).
Qed.

(** X1: the variable projector raises when some variable of the value
    type named ["Enum"] has no [possible_values] attribute or a default
    that is not an enumeration member; it returns when every variable of
    that value type has a collection of members as its possible values
    and an enumeration member as its default. *)
Theorem build_variables_raises (c : PolicyEngineCountry) :
  ((∃ name variable,
      variables (tax_benefit_system c) !! name = Some variable
      ∧ var_value_type_name variable = "Enum"
      ∧ (var_possible_values variable = None
         ∨ ∀ member_name value, var_default_value variable
                                ≠ PEnum member_name value)) →
   ∃ e, build_variables (Some c) = Raise e)
  ∧ ((∀ name variable,
        variables (tax_benefit_system c) !! name = Some variable →
        var_value_type_name variable = "Enum" →
        (∃ members, var_possible_values variable = Some members)
        ∧ ∃ member_name value,
            var_default_value variable = PEnum member_name value) →
     ∃ out, build_variables (Some c) = Ok out).
Proof.
  split.
  - intros (name & variable & Hlookup & Hbad%ill_formed_variable).
    destruct (build_variables (Some c)) as [out|e] eqn:Hbuild; [|by eexists].
    assert (well_formed_variable variable = true) as Hwf.
    { apply (proj1 (build_variables_returns c)) with name; [by eexists|done]. }
    congruence.
  - intros Hall. apply build_variables_returns.
    intros name variable Hlookup. unfold well_formed_variable.
    destruct (String.eqb _ _) eqn:Htype; [|done].
    apply String.eqb_eq in Htype.
    destruct (Hall name variable Hlookup Htype)
      as [[members ->] (member_name & value & ->)].
    done.
Qed.

Lemma build_variables_raises_witness :
  (∃ e, build_variables (Some broken_country) = Raise e)
  ∧ ∃ out, build_variables (Some sample_country) = Ok out.
Proof.
  split.
  - apply (proj1 (build_variables_raises broken_country)).
    exists "filing_status", broken_variable.
    split; [reflexivity|]. split; [reflexivity|]. right. discriminate.
  - apply (proj2 (build_variables_raises sample_country)).
    simpl. intros name variable Hlookup Htype.
    apply lookup_insert_Some in Hlookup as [[_ <-]|[_ Hlookup]].
    + discriminate Htype.
    + apply lookup_singleton_Some in Hlookup as [_ <-].
      split; [by eexists|by eexists _, _].
Defined.

(** ** The records of the variable projector *)

Lemma dom_variable_fields name variable :
  dom (variable_fields name variable)
  = {["documentation"; "entity"; "valueType"; "definitionPeriod"; "name";
      "label"; "category"; "unit"; "moduleName"; "indexInModule";
      "isInputVariable"; "defaultValue"; "adds"; "subtracts"]}.
Proof. unfold variable_fields. rewrite dom_pydict. simpl. set_solver. Qed.

(** X2: when the variable projector returns, its mapping has exactly the
    names of the variables as keys; the record of a variable carries the
    name under which it is stored, the name of its value type, the key of
    its entity and its attributes as they are, under exactly fourteen
    keys, and a fifteenth, [possibleValues], exactly when the value type
    is named ["Enum"]. *)
Theorem build_variables_records (c : PolicyEngineCountry)
    (out : gmap string pyval) :
  build_variables (Some c) = Ok out →
  dom out = dom (variables (tax_benefit_system c))
  ∧ ∀ name variable,
      variables (tax_benefit_system c) !! name = Some variable →
      ∃ record,
        out !! name = Some (PDict record)
        ∧ record !! "name" = Some (PStr name)
        ∧ record !! "valueType" = Some (PStr (var_value_type_name variable))
        ∧ record !! "entity" = Some (PStr (ent_key (var_entity variable)))
        ∧ record !! "documentation" = Some (var_documentation variable)
        ∧ record !! "definitionPeriod"
          = Some (var_definition_period variable)
        ∧ record !! "label" = Some (var_label variable)
        ∧ record !! "category" = Some (var_category variable)
        ∧ record !! "unit" = Some (var_unit variable)
        ∧ record !! "moduleName" = Some (var_module_name variable)
        ∧ record !! "indexInModule" = Some (var_index_in_module variable)
        ∧ record !! "isInputVariable"
          = Some (PBool (var_is_input_variable variable))
        ∧ record !! "adds" = Some (var_adds variable)
        ∧ record !! "subtracts" = Some (var_subtracts variable)
        ∧ dom record
          = {["documentation"; "entity"; "valueType"; "definitionPeriod";
              "name"; "label"; "category"; "unit"; "moduleName";
              "indexInModule"; "isInputVariable"; "defaultValue"; "adds";
              "subtracts"]}
            ∪ (if String.eqb (var_value_type_name variable) "Enum"
               then {["possibleValues"]} else ∅).
Proof.
  intros Hout.
  assert (∀ name variable,
    variables (tax_benefit_system c) !! name = Some variable →
    ∃ record, variable_record (name, variable) = Some (PDict record)
      ∧ out !! name = Some (PDict record)) as Hrecord.
  { intros name variable Hlookup.
    pose proof (build_variables_lookup c out name Hout) as Hl.
    rewrite Hlookup in Hl.
    change (out !! name = variable_record (name, variable)) in Hl.
    assert (is_Some (variable_record (name, variable))) as [v Hv].
    { apply (well_formed_variable_record (name, variable)).
      apply (proj1 (build_variables_returns c)) with name; [by eexists|done]. }
    rewrite Hv in Hl.
    assert (∃ record, v = PDict record) as [record ->]; [|by eexists].
    unfold variable_record in Hv.
    destruct (String.eqb _ _), (var_possible_values variable),
      (var_default_value variable); simplify_eq; by eexists. }
  split.
  - apply set_eq. intros name. rewrite !elem_of_dom.
    destruct (variables _ !! name) as [variable|] eqn:Hlookup.
    + destruct (Hrecord name variable Hlookup) as (record & _ & ->).
      split; by eexists.
    + rewrite (build_variables_lookup c out name Hout), Hlookup.
      split; by intros [? ?].
  - intros name variable Hlookup.
    destruct (Hrecord name variable Hlookup) as (record & Hrec & Hl).
    exists record. split; [done|].
    unfold variable_record in Hrec.
    destruct (String.eqb _ _).
    + destruct (var_possible_values variable) as [members|]; [|done].
      destruct (var_default_value variable) as [| | | | | | |n w]; try done.
      injection Hrec as <-.
      rewrite !dom_insert_L, dom_variable_fields.
      rewrite !(lookup_insert_ne _ "defaultValue") by discriminate.
      rewrite !(lookup_insert_ne _ "possibleValues") by discriminate.
      unfold variable_fields.
      repeat (split; [dict_lookup|]). set_solver.
    + injection Hrec as <-. rewrite dom_variable_fields.
      unfold variable_fields.
      repeat (split; [dict_lookup|]). set_solver.
Qed.

Lemma build_variables_records_witness :
  ∃ out record,
    build_variables (Some sample_country) = Ok out
    ∧ dom out = {["age"; "filing_status"]}
    ∧ out !! "age" = Some (PDict record)
    ∧ record !! "name" = Some (PStr "age").
Proof.
  destruct (proj2 (build_variables_returns sample_country)
              sample_variables_well_formed) as [out Hout].
  destruct (build_variables_records sample_country out Hout)
    as [Hdom Hrecords].
  destruct (Hrecords "age" age_variable eq_refl)
    as (record & Hl & Hname & _).
  exists out, record. split; [exact Hout|]. split; [|by split].
  rewrite Hdom. simpl. rewrite dom_insert_L, dom_singleton_L. reflexivity.
Defined.

(** ** The outcomes of the handler *)

Lemma truthy_ok_envelope (res : pyval) :
  truthy (PDict (pydict [
    ("status", PStr "ok"); ("message", PNone); ("result", res)])) = true.
Proof.
  apply truthy_PDict. intros Hempty.
  assert (pydict [("status", PStr "ok"); ("message", PNone); ("result", res)]
          !! "status" = Some (PStr "ok")) as Hl by dict_lookup.
  by rewrite Hempty in Hl.
Qed.

Section HandlerOutcomes.

Variable COUNTRIES : gmap string PolicyEngineCountry.
Variable validate_country : string → pyval.
Variable get_safe_json : pyval → pyval.

(** The handler, once the validator has returned a false value. *)
Lemma metadata_not_passed (country_id : string) :
  truthy (validate_country country_id) = false →
  metadata COUNTRIES validate_country get_safe_json country_id
  = match COUNTRIES !! country_id with
    | None => Raise (AttributeError "NoneType" "tax_benefit_system")
    | Some c =>
        match build_variables (Some c) with
        | Raise e => Raise e
        | Ok variables =>
            Ok (PDict (pydict [
              ("status", PStr "ok");
              ("message", PNone);
              ("result", PDict (pydict [
                ("variables", PDict variables);
                ("parameters",
                  PDict (foldl
                    (build_parameters_body get_safe_json
                       (parameters (tax_benefit_system c))) ∅
                    (get_descendants (parameters (tax_benefit_system c)))));
                ("entities",
                  PDict (foldl build_entities_body ∅
                           (entities (tax_benefit_system c))));
                ("variableModules",
                  variable_module_metadata (tax_benefit_system c));
                ("economy_options",
                  PDict (build_microsimulation_options (Some c) country_id));
                ("current_law_id",
                  PInt (if String.eqb country_id "uk" then 1 else 2))
              ]))
            ]))
        end
    end.
Proof.
  intros Hfalse. unfold metadata. rewrite Hfalse.
  destruct (COUNTRIES !! country_id) as [c|]; [|reflexivity].
  by destruct (build_variables (Some c)).
Qed.

(** X3: the handler returns the result of the validator exactly when
    that result is true: a false result that is not [None] (an empty
    mapping, an empty string, zero) is not returned. *)
Theorem metadata_passes_through_iff (country_id : string) :
  metadata COUNTRIES validate_country get_safe_json country_id
  = Ok (validate_country country_id)
  ↔ truthy (validate_country country_id) = true.
Proof.
  split; [|apply metadata_passes_through].
  destruct (truthy (validate_country country_id)) eqn:Htruthy; [done|].
  rewrite (metadata_not_passed country_id Htruthy).
  destruct (COUNTRIES !! country_id) as [c|]; [|done].
  destruct (build_variables (Some c)); [|done].
  intros [= Heq]. rewrite <- Heq in Htruthy.
  by rewrite truthy_ok_envelope in Htruthy.
Qed.

(** X4: once the validator has returned a false value, the handler raises
    the [AttributeError] of [None.tax_benefit_system] when the registry
    has no country under the identifier, and raises when some variable of
    the registered country, of the value type named ["Enum"], has no
    [possible_values] attribute or a default that is not an enumeration
    member.  In both cases no envelope is returned. *)
Theorem metadata_raises (country_id : string) :
  truthy (validate_country country_id) = false →
  (COUNTRIES !! country_id = None →
   metadata COUNTRIES validate_country get_safe_json country_id
   = Raise (AttributeError "NoneType" "tax_benefit_system"))
  ∧ (∀ c name variable,
       COUNTRIES !! country_id = Some c →
       variables (tax_benefit_system c) !! name = Some variable →
       var_value_type_name variable = "Enum" →
       (var_possible_values variable = None
        ∨ ∀ member_name value, var_default_value variable
                               ≠ PEnum member_name value) →
       ∃ e, metadata COUNTRIES validate_country get_safe_json country_id
            = Raise e).
Proof.
  intros Hfalse. rewrite (metadata_not_passed country_id Hfalse). split.
  - by intros ->.
  - intros c name variable -> Hlookup Htype Hbad.
    destruct (build_variables (Some c)) as [out|e] eqn:Hbuild; [|by eexists].
    assert (well_formed_variable variable = true) as Hwf.
    { apply (proj1 (build_variables_returns c)) with name; [by eexists|done]. }
    assert (well_formed_variable variable = false) as Hill.
    { by apply ill_formed_variable. }
    congruence.
Qed.

End HandlerOutcomes.

Lemma metadata_raises_witness :
  metadata sample_countries (λ _, PNone) (λ v, v) "fr"
  = Raise (AttributeError "NoneType" "tax_benefit_system")
  ∧ ∃ e, metadata (<["fr" := broken_country]> sample_countries)
           (λ _, PNone) (λ v, v) "fr" = Raise e.
Proof.
  split.
  - apply (metadata_raises sample_countries (λ _, PNone) (λ v, v) "fr");
      reflexivity.
  - apply (proj2 (metadata_raises (<["fr" := broken_country]> sample_countries)
                    (λ _, PNone) (λ v, v) "fr" eq_refl)
             broken_country "filing_status" broken_variable).
    + apply lookup_insert_eq.
    + reflexivity.
    + reflexivity.
    + right. discriminate.
Defined.

Lemma metadata_passes_through_iff_witness :
  metadata sample_countries (λ _, PDict ∅) (λ v, v) "uk" ≠ Ok (PDict ∅).
Proof.
  intros Heq.
  by apply (metadata_passes_through_iff sample_countries (λ _, PDict ∅)
              (λ v, v) "uk") in Heq.
Defined.

(** ** The records of the parameter projector *)

Lemma pydict_app (items items' : list (string * pyval)) :
  pydict (items ++ items') = pydict items' ∪ pydict items.
Proof.
  rewrite !pydict_list_to_map, reverse_app. apply list_to_map_app.
Qed.

(** A loop over two collections, one after the other: what is stored for
    the second takes precedence. *)
Lemma store_loop_app {A : Type} (key : A → string)
    (stored : A → option pyval)
    (body : gmap string pyval → A → gmap string pyval) xs ys :
  (∀ acc x, body acc x
     = from_option (λ v, <[key x := v]> acc) acc (stored x)) →
  foldl body ∅ (xs ++ ys) = foldl body ∅ ys ∪ foldl body ∅ xs.
Proof.
  intros Hbody. rewrite !(store_loop_pydict key stored body Hbody).
  unfold stored_items. by rewrite omap_app, pydict_app.
Qed.

Lemma dom_parameter_fields get_safe_json parameter :
  dom (parameter_fields get_safe_json parameter)
  = {["type"; "parameter"; "description"; "label"; "unit"; "period";
      "values"]}.
Proof. unfold parameter_fields. rewrite dom_pydict. simpl. set_solver. Qed.

Lemma dom_parameter_node_fields parameter :
  dom (parameter_node_fields parameter)
  = {["type"; "parameter"; "description"; "label"]}.
Proof. unfold parameter_node_fields. rewrite dom_pydict. simpl. set_solver. Qed.

Section ParameterRecords.

Variable get_safe_json : pyval → pyval.

(** X5: a descendant that passes both filters and is a plain parameter
    gets, whatever the root of the tree is, a record of exactly seven
    keys: its type ["parameter"], its name, its description, the [label],
    [unit] and [period] of its metadata ([None] for a key that the
    metadata do not have) and [values], the mapping from the instants of
    its value list to the coerced values: an instant that occurs several
    times keeps the value of its last occurrence.  The mapping returned
    holds the record when no other descendant has the name. *)
Theorem build_parameters_branch_a (c : PolicyEngineCountry)
    (parameter : ParameterObject) :
  let tree := parameters (tax_benefit_system c) in
  parameter ∈ get_descendants tree →
  (∃ rest, node_name parameter = "gov" +:+ rest) →
  isinstance parameter ClsParameterScale = false →
  isinstance parameter ClsParameterScaleBracket = false →
  isinstance parameter ClsParameter = true →
  ∃ record values,
    (∀ parameter_data,
       build_parameters_body get_safe_json tree parameter_data parameter
       = <[node_name parameter := PDict record]> parameter_data)
    ∧ dom record = {["type"; "parameter"; "description"; "label"; "unit";
                     "period"; "values"]}
    ∧ record !! "type" = Some (PStr "parameter")
    ∧ record !! "parameter" = Some (PStr (node_name parameter))
    ∧ record !! "description" = Some (node_description parameter)
    ∧ record !! "label"
      = Some (default PNone (node_metadata parameter !! "label"))
    ∧ record !! "unit"
      = Some (default PNone (node_metadata parameter !! "unit"))
    ∧ record !! "period"
      = Some (default PNone (node_metadata parameter !! "period"))
    ∧ record !! "values" = Some (PDict values)
    ∧ dom values = list_to_set (instant_str <$> node_values_list parameter)
    ∧ (∀ instant v, values !! instant = Some v →
         ∃ value_at_instant,
           value_at_instant ∈ node_values_list parameter
           ∧ instant_str value_at_instant = instant
           ∧ v = get_safe_json (vai_value value_at_instant))
    ∧ (∀ earlier value_at_instant later,
         node_values_list parameter
         = earlier ++ value_at_instant :: later →
         (∀ other, other ∈ later →
            instant_str other ≠ instant_str value_at_instant) →
         values !! instant_str value_at_instant
         = Some (get_safe_json (vai_value value_at_instant)))
    ∧ ∃ out,
        build_parameters get_safe_json (Some c) = Ok out
        ∧ ((∀ other, other ∈ get_descendants tree →
              node_name other = node_name parameter → other = parameter) →
           out !! node_name parameter = Some (PDict record)).
Proof.
  intros tree Hin Hgov Hscale Hbracket Hparam.
  assert (parameter_record get_safe_json tree parameter
          = Some (PDict (parameter_fields get_safe_json parameter))) as Hrec.
  { unfold parameter_record. apply gov_slice_prefix in Hgov.
    by rewrite Hgov, Hscale, Hbracket, Hparam. }
  eexists _, _. split.
  { intros data. by rewrite build_parameters_body_stores, Hrec. }
  split; [apply dom_parameter_fields|].
  unfold parameter_fields, dict_get.
  do 7 (split; [dict_lookup|]).
  split.
  { rewrite dom_pydict. f_equal. rewrite <- list_fmap_compose.
    by apply list_fmap_ext. }
  split.
  { intros instant v Hl%pydict_lookup_Some.
    apply list_elem_of_fmap in Hl as (vai & [= -> ->] & Hvai).
    by exists vai. }
  split.
  { intros earlier vai later -> Hlater.
    rewrite (cons_middle vai earlier later), app_assoc, fmap_app, pydict_app.
    rewrite lookup_union_r.
    - rewrite fmap_app. simpl. rewrite pydict_snoc. apply lookup_insert_eq.
    - apply not_elem_of_dom. rewrite dom_pydict, elem_of_list_to_set.
      rewrite <- list_fmap_compose.
      intros (other & Heq & Hother)%list_elem_of_fmap. simpl in Heq.
      by apply (Hlater other Hother). }
  eexists. split; [reflexivity|]. intros Huniq. fold tree.
  etrans; [|exact Hrec].
  apply (store_loop_lookup_unique node_name
           (parameter_record get_safe_json tree)); [|done..].
  intros. apply build_parameters_body_stores.
Qed.

(** X6: every entry of the mapping returned by the parameter projector
    is a record that carries its own key as [parameter] and is either a
    parameter record of seven keys or a node record of four keys; a node
    record occurs only when the root of the tree is a parameter node, so
    that under any other root nothing but plain parameters is
    recorded. *)
Theorem build_parameters_entries (c : PolicyEngineCountry) :
  let tree := parameters (tax_benefit_system c) in
  ∃ out,
    build_parameters get_safe_json (Some c) = Ok out
    ∧ ∀ k v, out !! k = Some v →
        ∃ record,
          v = PDict record
          ∧ record !! "parameter" = Some (PStr k)
          ∧ ((record !! "type" = Some (PStr "parameter")
              ∧ dom record = {["type"; "parameter"; "description"; "label";
                               "unit"; "period"; "values"]})
             ∨ (record !! "type" = Some (PStr "parameterNode")
                ∧ dom record = {["type"; "parameter"; "description";
                                 "label"]}
                ∧ isinstance (tree_root tree) ClsParameterNode = true)).
Proof.
  intros tree. eexists. split; [reflexivity|]. fold tree.
  intros k v Hl.
  apply (store_loop_lookup_Some node_name
           (parameter_record get_safe_json tree)) in Hl
    as (parameter & Hin & <- & Hrec).
  2: { intros. apply build_parameters_body_stores. }
  unfold parameter_record in Hrec.
  destruct (negb _); [done|]. destruct (_ || _); [done|].
  destruct (isinstance parameter ClsParameter).
  - injection Hrec as <-. eexists. split; [done|].
    split; [unfold parameter_fields; dict_lookup|]. left.
    split; [unfold parameter_fields; dict_lookup|apply dom_parameter_fields].
  - destruct (isinstance (tree_root tree) ClsParameterNode) eqn:Hroot;
      [|done].
    injection Hrec as <-. eexists. split; [done|].
    split; [unfold parameter_node_fields; dict_lookup|]. right.
    split; [unfold parameter_node_fields; dict_lookup|].
    split; [apply dom_parameter_node_fields|done].
Qed.

(** X7: the parameter projector on a tree whose descendants are those of
    a first tree followed by those of a second (the roots being of the
    same kind) returns the union of the two mappings, the entries of the
    second taking precedence: a later descendant replaces an earlier one
    of the same name. *)
Theorem build_parameters_app (c c1 c2 : PolicyEngineCountry) :
  isinstance (tree_root (parameters (tax_benefit_system c1)))
    ClsParameterNode
  = isinstance (tree_root (parameters (tax_benefit_system c)))
      ClsParameterNode →
  isinstance (tree_root (parameters (tax_benefit_system c2)))
    ClsParameterNode
  = isinstance (tree_root (parameters (tax_benefit_system c)))
      ClsParameterNode →
  get_descendants (parameters (tax_benefit_system c))
  = get_descendants (parameters (tax_benefit_system c1))
    ++ get_descendants (parameters (tax_benefit_system c2)) →
  ∃ out out1 out2,
    build_parameters get_safe_json (Some c) = Ok out
    ∧ build_parameters get_safe_json (Some c1) = Ok out1
    ∧ build_parameters get_safe_json (Some c2) = Ok out2
    ∧ out = out2 ∪ out1.
Proof.
  intros Hroot1 Hroot2 Hdesc. eexists _, _, _.
  split; [reflexivity|]. split; [reflexivity|]. split; [reflexivity|].
  rewrite Hdesc.
  assert (∀ c', isinstance (tree_root (parameters (tax_benefit_system c')))
                  ClsParameterNode
                = isinstance (tree_root (parameters (tax_benefit_system c)))
                    ClsParameterNode →
    ∀ xs, foldl (build_parameters_body get_safe_json
                   (parameters (tax_benefit_system c'))) ∅ xs
          = foldl (build_parameters_body get_safe_json
                     (parameters (tax_benefit_system c))) ∅ xs) as Hsame.
  { intros c' Hroot xs. generalize (∅ : gmap string pyval).
    induction xs as [|x xs IH]; intros acc; simpl; [done|].
    rewrite IH. f_equal. unfold build_parameters_body. by rewrite Hroot. }
  rewrite (Hsame c1 Hroot1), (Hsame c2 Hroot2).
  apply (store_loop_app node_name
           (parameter_record get_safe_json
              (parameters (tax_benefit_system c)))).
  intros. apply build_parameters_body_stores.
Qed.

(** X14: the keys of the mapping returned by the parameter projector
    are exactly the names of the descendants that begin with [gov], are
    neither a scale nor a scale bracket, and are a plain parameter or sit
    in a tree whose root is a parameter node.  Every other descendant is
    left out: its name is a key only when another descendant of that name
    is recorded. *)
Theorem build_parameters_dom (c : PolicyEngineCountry) :
  let tree := parameters (tax_benefit_system c) in
  ∃ out,
    build_parameters get_safe_json (Some c) = Ok out
    ∧ ∀ k, k ∈ dom out ↔
        ∃ parameter,
          parameter ∈ get_descendants tree
          ∧ node_name parameter = k
          ∧ (∃ rest, k = "gov" +:+ rest)
          ∧ isinstance parameter ClsParameterScale = false
          ∧ isinstance parameter ClsParameterScaleBracket = false
          ∧ (isinstance parameter ClsParameter = true
             ∨ isinstance (tree_root tree) ClsParameterNode = true).
Proof.
  intros tree. eexists. split; [reflexivity|]. fold tree.
  intros k. rewrite elem_of_dom.
  assert (∀ acc x, build_parameters_body get_safe_json tree acc x
            = from_option (λ v, <[node_name x := v]> acc) acc
                (parameter_record get_safe_json tree x)) as Hbody.
  { intros. apply build_parameters_body_stores. }
  split.
  - intros [v Hl].
    apply (store_loop_lookup_Some node_name
             (parameter_record get_safe_json tree) _ Hbody) in Hl
      as (parameter & Hin & <- & Hrec).
    exists parameter. split; [done|]. split; [done|].
    unfold parameter_record in Hrec.
    destruct (String.eqb "gov" _) eqn:Hgov; simpl in Hrec; [|done].
    apply gov_slice_prefix in Hgov. split; [done|].
    destruct (isinstance parameter ClsParameterScale); [done|].
    destruct (isinstance parameter ClsParameterScaleBracket); [done|].
    simpl in Hrec. split; [done|]. split; [done|].
    destruct (isinstance parameter ClsParameter); [by left|].
    destruct (isinstance (tree_root tree) ClsParameterNode); [by right|done].
  - intros (parameter & Hin & <- & Hgov & Hscale & Hbracket & Hcase).
    apply gov_slice_prefix in Hgov.
    assert (is_Some (parameter_record get_safe_json tree parameter))
      as [v Hrec].
    { unfold parameter_record. rewrite Hgov, Hscale, Hbracket. simpl.
      destruct Hcase as [->| ->]; [done|].
      by destruct (isinstance parameter ClsParameter). }
    destruct (store_loop_lookup_key node_name
                (parameter_record get_safe_json tree) _ Hbody
                (get_descendants tree) parameter v Hin Hrec)
      as (y & w & _ & _ & _ & Hl).
    by exists w.
Qed.

End ParameterRecords.

Lemma build_parameters_branch_a_witness :
  ∃ out record values,
    build_parameters (λ v, v)
      (Some (country_with_descendants [revised_rate_parameter])) = Ok out
    ∧ out !! "gov.tax.rate" = Some (PDict record)
    ∧ record !! "unit" = Some (PStr "/1")
    ∧ record !! "period" = Some PNone
    ∧ record !! "values" = Some (PDict values)
    ∧ values !! "2022-01-01" = Some (PInt 19)
    ∧ values !! "2015-01-01" = Some (PInt 22).
Proof.
  destruct (build_parameters_branch_a (λ v, v)
              (country_with_descendants [revised_rate_parameter])
              revised_rate_parameter)
    as (record & values & _ & _ & _ & _ & _ & _ & Hunit & Hperiod & Hvalues
        & _ & _ & Hlast & out & Hout & Hl).
  - apply list_elem_of_singleton. reflexivity.
  - by exists ".tax.rate".
  - reflexivity.
  - reflexivity.
  - reflexivity.
  - exists out, record, values. split; [exact Hout|].
    split.
    { apply Hl. by intros other ->%list_elem_of_singleton. }
    split; [exact Hunit|]. split; [exact Hperiod|]. split; [exact Hvalues|].
    split.
    + apply (Hlast
        [{| instant_str := "2022-01-01"; vai_value := PInt 20 |};
         {| instant_str := "2015-01-01"; vai_value := PInt 22 |}]
        {| instant_str := "2022-01-01"; vai_value := PInt 19 |} []);
        [reflexivity|].
      intros other Hother. by apply elem_of_nil in Hother.
    + apply (Hlast
        [{| instant_str := "2022-01-01"; vai_value := PInt 20 |}]
        {| instant_str := "2015-01-01"; vai_value := PInt 22 |}
        [{| instant_str := "2022-01-01"; vai_value := PInt 19 |}]);
        [reflexivity|].
      intros other ->%list_elem_of_singleton. discriminate.
Defined.

Lemma build_parameters_entries_witness :
  ∃ out record,
    build_parameters (λ v, v) (Some sample_country) = Ok out
    ∧ out !! "gov" = Some (PDict record)
    ∧ record !! "parameter" = Some (PStr "gov").
Proof.
  destruct (build_parameters_entries (λ v, v) sample_country)
    as (out & Hout & Hentries).
  assert (is_Some (out !! "gov")) as [v Hv].
  { injection Hout as <-. vm_compute. eauto. }
  destruct (Hentries "gov" v Hv) as (record & -> & Hparameter & _).
  exists out, record. split; [exact Hout|]. split; [exact Hv|].
  exact Hparameter.
Defined.

Lemma build_parameters_dom_witness :
  ∃ out,
    build_parameters (λ v, v) (Some sample_country) = Ok out
    ∧ "gov.tax.rate" ∈ dom out
    ∧ "calibration.weight" ∉ dom out.
Proof.
  destruct (build_parameters_dom (λ v, v) sample_country)
    as (out & Hout & Hdom).
  exists out. split; [exact Hout|]. split.
  - apply Hdom. exists rate_parameter.
    split; [simpl; rewrite !elem_of_cons; auto 10|].
    split; [reflexivity|]. split; [by exists ".tax.rate"|].
    split; [reflexivity|]. split; [reflexivity|]. by left.
  - intros Hin. apply Hdom in Hin as (_ & _ & _ & [rest Hrest] & _).
    discriminate Hrest.
Defined.

Lemma build_parameters_app_witness :
  ∃ out out1 out2,
    build_parameters (λ v, v) (Some sample_country) = Ok out
    ∧ build_parameters (λ v, v)
        (Some (country_with_descendants
                 (take 3 (get_descendants sample_tree)))) = Ok out1
    ∧ build_parameters (λ v, v)
        (Some (country_with_descendants
                 (drop 3 (get_descendants sample_tree)))) = Ok out2
    ∧ out = out2 ∪ out1.
Proof.
  apply (build_parameters_app (λ v, v) sample_country
           (country_with_descendants (take 3 (get_descendants sample_tree)))
           (country_with_descendants (drop 3 (get_descendants sample_tree))));
    reflexivity.
Defined.

(** ** The records of the entity projector *)

Lemma build_entities_body_stores (data : gmap string pyval) (entity : Entity) :
  build_entities_body data entity
  = from_option (λ v, <[ent_key entity := v]> data) data
      (Some (PDict (entity_fields entity))).
Proof. reflexivity. Qed.



(** X9: the entity projector on a collection that is a first collection
    followed by a second returns the union of the two mappings, the
    entries of the second taking precedence. *)
Theorem build_entities_app (c c1 c2 : PolicyEngineCountry) :
  entities (tax_benefit_system c)
  = entities (tax_benefit_system c1) ++ entities (tax_benefit_system c2) →
  ∃ out out1 out2,
    build_entities (Some c) = Ok out
    ∧ build_entities (Some c1) = Ok out1
    ∧ build_entities (Some c2) = Ok out2
    ∧ out = out2 ∪ out1.
Proof.
  intros Hentities. eexists _, _, _.
  split; [reflexivity|]. split; [reflexivity|]. split; [reflexivity|].
  rewrite Hentities.
  apply (store_loop_app ent_key
           (λ entity, Some (PDict (entity_fields entity)))).
  apply build_entities_body_stores.
Qed.


Lemma build_entities_app_witness :
  ∃ out out1 out2,
    build_entities (Some sample_country) = Ok out
    ∧ build_entities (Some (country_with_entities [person_entity])) = Ok out1
    ∧ build_entities (Some (country_with_entities [household_entity]))
      = Ok out2
    ∧ out = out2 ∪ out1.
Proof.
  apply (build_entities_app sample_country
           (country_with_entities [person_entity])
           (country_with_entities [household_entity])).
  reflexivity.
Defined.

(** ** Enumeration variables whose default is not a possible value *)

(** X10: for a variable of the value type named ["Enum"], the projector
    does not look for the default among the possible values: whatever
    enumeration member the default is, [defaultValue] is its name and
    [possibleValues] has one entry for each member that iterating
    [possible_values] yields, in that order, and none when there is
    none. *)
Theorem build_variables_enum_any_default (variable_data : gmap string pyval)
    (variable_name : string) (variable : PEVariable)
    (members : list EnumMember) (default_name : string)
    (default_value : pyval) :
  var_value_type_name variable = "Enum" →
  var_possible_values variable = Some members →
  var_default_value variable = PEnum default_name default_value →
  ∃ record possible,
    build_variables_body variable_data (variable_name, variable)
    = Ok (<[variable_name := PDict record]> variable_data)
    ∧ record !! "defaultValue" = Some (PStr default_name)
    ∧ record !! "possibleValues" = Some (PList possible)
    ∧ length possible = length members
    ∧ (members = [] → possible = [])
    ∧ ∀ i member, members !! i = Some member →
        possible !! i = Some (PDict (pydict [
          ("value", PStr (member_name member));
          ("label", member_value member)])).
Proof.
  intros Htype Hmembers Hdefault.
  eexists _, _. split.
  { apply (build_variables_body_stores variable_data
             (variable_name, variable)).
    unfold variable_record. by rewrite Htype, Hmembers, Hdefault. }
  split; [by rewrite lookup_insert_eq|].
  split.
  { rewrite lookup_insert_ne by discriminate. by rewrite lookup_insert_eq. }
  split; [apply length_map|]. split; [by intros ->|].
  intros i member Hi.
  change (map possible_value members) with (possible_value <$> members).
  by rewrite list_lookup_fmap, Hi.
Qed.

Lemma build_variables_enum_any_default_witness :
  ∃ record,
    build_variables_body ∅ ("status", empty_enum_variable)
    = Ok (<["status" := PDict record]> ∅)
    ∧ record !! "defaultValue" = Some (PStr "SINGLE")
    ∧ record !! "possibleValues" = Some (PList []).
Proof.
  destruct (build_variables_enum_any_default ∅ "status" empty_enum_variable
              [] "SINGLE" (PStr "Single"))
    as (record & possible & Hbody & Hdefault & Hpossible & _ & Hempty & _);
    [reflexivity..|].
  exists record. split; [exact Hbody|]. split; [exact Hdefault|].
  by rewrite Hpossible, (Hempty eq_refl).
Defined.

(** * Further properties over the store *)

(** ** The projectors over the store *)

Section StoreProjectors.

Variable get_safe_json : pyval → pyval.
Variable store_get_safe_json : sval → M sval.

Hypothesis get_safe_json_refines : ∀ X (h : heap) v p,
  X ⊆ dom h → denotes (hide X h) v p →
  refines X denotes (store_get_safe_json v) h (Ok (get_safe_json p)).

(** X11: over a store in which the country reads as a pure country, each
    projector refines the pure projector: it changes no object of the
    store (the records it fills are objects that it creates), it returns
    a dictionary that reads as the mapping of the pure projector when
    that one returns, and raises when that one raises; with no country,
    both raise. *)
Theorem store_projectors_refine (h : heap) (s : option StoredCountry)
    (c : option PolicyEngineCountry) (country_id : string) :
  option_Forall2 (country_denotes h) s c →
  refines ∅ denotes_dict_of (store_build_variables s) h (build_variables c)
  ∧ refines ∅ denotes_dict_of
      (store_build_parameters store_get_safe_json s) h
      (build_parameters get_safe_json c)
  ∧ refines ∅ denotes_dict_of (store_build_entities s) h (build_entities c)
  ∧ refines ∅ denotes_dict_of
      (store_build_microsimulation_options s country_id) h
      (Ok (build_microsimulation_options c country_id)).
Proof.
  intros Hcountry. rewrite <- (hide_empty h) in Hcountry.
  assert ((∅ : gset loc) ⊆ dom h) as Hempty by set_solver.
  split; [by apply refines_build_variables|].
  split; [by apply refines_build_parameters|].
  split; [by apply refines_build_entities|].
  by apply refines_build_microsimulation_options.
Qed.

End StoreProjectors.

Lemma store_projectors_refine_witness :
  refines ∅ denotes_dict_of
    (store_build_variables (Some sample_stored_country)) sample_heap
    (build_variables (Some sample_country))
  ∧ refines ∅ denotes_dict_of
      (store_build_parameters sample_store_get_safe_json
         (Some sample_stored_country)) sample_heap
      (build_parameters (λ v, v) (Some sample_country))
  ∧ refines ∅ denotes_dict_of
      (store_build_entities (Some sample_stored_country)) sample_heap
      (build_entities (Some sample_country))
  ∧ refines ∅ denotes_dict_of
      (store_build_microsimulation_options (Some sample_stored_country) "uk")
      sample_heap
      (Ok (build_microsimulation_options (Some sample_country) "uk")).
Proof.
  apply (store_projectors_refine (λ v, v) sample_store_get_safe_json).
  - intros X h v p _ Hv. exact (refines_ret X denotes h v p Hv).
  - constructor. apply sample_country_denotes.
Defined.

(** ** The table of the economy options *)

(** X15: whenever the economy options hold regions, the identifier is
    ["uk"] or ["us"]; the first region is the country itself; the names of
    the regions are pairwise distinct; each region is a [{name, label}]
    pair of two strings; the only time period is the year 2022; and the
    options are those computed without any country: the country argument
    is not read. *)
Theorem build_microsimulation_options_regions
    (country : option PolicyEngineCountry) (country_id : string)
    (regions : list pyval) :
  build_microsimulation_options country country_id !! "region"
  = Some (PList regions) →
  (country_id = "uk" ∨ country_id = "us")
  ∧ head (entry_names regions) = Some (PStr country_id)
  ∧ NoDup (entry_names regions)
  ∧ Forall (λ entry, ∃ name label,
              entry = PDict (pydict [("name", PStr name);
                                     ("label", PStr label)])) regions
  ∧ build_microsimulation_options country country_id !! "time_period"
    = Some (PList [PDict (pydict [("name", PInt 2022);
                                  ("label", PStr "2022")])])
  ∧ build_microsimulation_options country country_id
    = build_microsimulation_options None country_id.
Proof.
  unfold build_microsimulation_options.
  destruct (String.eqb country_id "uk") eqn:Huk;
    [|destruct (String.eqb country_id "us") eqn:Hus].
  - apply String.eqb_eq in Huk as ->. cbv zeta.
    rewrite lookup_insert_ne by discriminate. rewrite lookup_insert_eq.
    intros [= <-].
    split; [by left|]. split; [reflexivity|].
    split.
    { set (names := entry_names _). vm_compute in names. subst names.
      repeat (apply NoDup_cons; split;
        [rewrite ?elem_of_cons, elem_of_nil; intros Hin;
         repeat (destruct Hin as [Hin|Hin]; [discriminate Hin|]);
         exact Hin|]).
      apply NoDup_nil_2. }
    split; [|split; [by rewrite lookup_insert_eq|reflexivity]].
    repeat (apply Forall_cons; split; [by eexists _, _|]).
    apply Forall_nil_2.
  - apply String.eqb_eq in Hus as ->. cbv zeta.
    rewrite lookup_insert_ne by discriminate. rewrite lookup_insert_eq.
    intros [= <-].
    split; [by right|]. split; [reflexivity|].
    split.
    { set (names := entry_names _). vm_compute in names. subst names.
      repeat (apply NoDup_cons; split;
        [rewrite ?elem_of_cons, elem_of_nil; intros Hin;
         repeat (destruct Hin as [Hin|Hin]; [discriminate Hin|]);
         exact Hin|]).
      apply NoDup_nil_2. }
    split; [|split; [by rewrite lookup_insert_eq|reflexivity]].
    repeat (apply Forall_cons; split; [by eexists _, _|]).
    apply Forall_nil_2.
  - cbv zeta. by rewrite lookup_empty.
Qed.

Lemma build_microsimulation_options_regions_witness :
  ∃ regions,
    build_microsimulation_options (Some sample_country) "us" !! "region"
    = Some (PList regions)
    ∧ head (entry_names regions) = Some (PStr "us")
    ∧ NoDup (entry_names regions)
    ∧ length regions = 13
    ∧ build_microsimulation_options (Some sample_country) "us"
      = build_microsimulation_options None "us".
Proof.
  eexists.
  assert (build_microsimulation_options (Some sample_country) "us"
            !! "region" = Some (PList _)) as Hregion by reflexivity.
  destruct (build_microsimulation_options_regions (Some sample_country)
              "us" _ Hregion) as (_ & Hhead & Hnodup & _ & _ & Hsame).
  split; [exact Hregion|]. split; [exact Hhead|]. split; [exact Hnodup|].
  split; [reflexivity|exact Hsame].
Defined.

(** ** The handler over the store *)

(** A projector that fills a new dictionary returns that dictionary. *)
Lemma accumulator_result {A : Type} (body : sval → A → M unit)
    (xs : list A) (h h' : heap) v :
  (acc ← alloc (ODict ∅); _ ← store_for_each (body acc) xs; mret acc) h
  = (Ok v, h') →
  v = Ref (fresh (dom h)).
Proof.
  rewrite bind_run. unfold alloc at 1. rewrite bind_run.
  destruct (store_for_each _ xs _) as [[[]|e] h2]; [|done].
  rewrite ret_run. by intros [= <- _].
Qed.

(** A sequence that returns has run both of its parts. *)
Lemma bind_inv {A B : Type} (m : M A) (k : A → M B) (h h' : heap) b :
  (m ≫= k) h = (Ok b, h') →
  ∃ a h1, m h = (Ok a, h1) ∧ k a h1 = (Ok b, h').
Proof.
  rewrite bind_run. destruct (m h) as [[a|e] h1]; [|done]. by exists a, h1.
Qed.

(** The options mapping is a new dictionary. *)
Lemma store_build_microsimulation_options_result country country_id
    (h h' : heap) v :
  store_build_microsimulation_options country country_id h = (Ok v, h') →
  v = Ref (fresh (dom h)).
Proof.
  unfold store_build_microsimulation_options. intros Hrun.
  apply bind_inv in Hrun as (options & h1 & [= <- <-] & Hrun).
  destruct (String.eqb country_id "uk");
    [|destruct (String.eqb country_id "us")].
  - do 6 (apply bind_inv in Hrun as (? & ? & _ & Hrun)).
    rewrite ret_run in Hrun. by injection Hrun as <- _.
  - do 6 (apply bind_inv in Hrun as (? & ? & _ & Hrun)).
    rewrite ret_run in Hrun. by injection Hrun as <- _.
  - rewrite ret_run in Hrun. by injection Hrun as <- _.
Qed.

Lemma fresh_not_in_smaller (h h' : heap) : h ⊆ h' → fresh (dom h') ∉ dom h.
Proof.
  intros Hsub Hin. apply (is_fresh (dom h')).
  by apply (subseteq_dom h h').
Qed.

Section StoreHandlerRun.

Variable COUNTRIES : gmap string PolicyEngineCountry.
Variable validate_country : string → pyval.
Variable get_safe_json : pyval → pyval.
Variable STORED_COUNTRIES : gmap string StoredCountry.
Variable store_validate_country : string → M sval.
Variable store_get_safe_json : sval → M sval.

Hypothesis validate_country_refines : ∀ X (h : heap) country_id,
  X ⊆ dom h →
  refines X denotes (store_validate_country country_id) h
    (Ok (validate_country country_id)).
Hypothesis get_safe_json_refines : ∀ X (h : heap) v p,
  X ⊆ dom h → denotes (hide X h) v p →
  refines X denotes (store_get_safe_json v) h (Ok (get_safe_json p)).

(** X12: one invocation of the handler over a store whose registry reads
    as the pure registry changes no object of the store, so that the
    registry reads the same afterwards; it returns a value that reads as
    the envelope of the pure handler when that one returns, and raises
    when that one raises. *)
Theorem store_metadata_refines (h : heap) (country_id : string) :
  registry_denotes h STORED_COUNTRIES COUNTRIES →
  let '(r, h') :=
    store_metadata STORED_COUNTRIES store_validate_country
      store_get_safe_json country_id h in
  h ⊆ h'
  ∧ registry_denotes h' STORED_COUNTRIES COUNTRIES
  ∧ match r, metadata COUNTRIES validate_country get_safe_json country_id
    with
    | Ok v, Ok envelope => denotes h' v envelope
    | Raise _, Raise _ => True
    | _, _ => False
    end.
Proof.
  intros Hreg.
  pose proof (refines_metadata COUNTRIES validate_country get_safe_json
    STORED_COUNTRIES store_validate_country store_get_safe_json
    validate_country_refines get_safe_json_refines ∅ h country_id) as Hrun.
  rewrite hide_empty in Hrun.
  specialize (Hrun ltac:(set_solver) Hreg). unfold refines in Hrun.
  destruct (store_metadata _ _ _ country_id h) as [r h'].
  destruct Hrun as [Hsub Hres]. rewrite hide_empty in Hres.
  split; [done|]. split; [by eapply registry_denotes_mono|done].
Qed.

(** The run of the handler on a country that the validator accepts. *)
Lemma store_metadata_accepted_run (h : heap) (country_id : string)
    (sc : StoredCountry) (c : PolicyEngineCountry) :
  registry_denotes h STORED_COUNTRIES COUNTRIES →
  truthy (validate_country country_id) = false →
  STORED_COUNTRIES !! country_id = Some sc →
  COUNTRIES !! country_id = Some c →
  (∀ name variable,
     variables (tax_benefit_system c) !! name = Some variable →
     well_formed_variable variable = true) →
  ∃ h1 h2 h3 h4 h5 not_found vars params ents opts,
    h ⊆ h1 ∧ h1 ⊆ h2 ∧ h2 ⊆ h3 ∧ h3 ⊆ h4 ∧ h4 ⊆ h5
    ∧ store_validate_country country_id h = (Ok not_found, h1)
    ∧ store_build_variables (Some sc) h1 = (Ok vars, h2)
    ∧ store_build_parameters store_get_safe_json (Some sc) h2
      = (Ok params, h3)
    ∧ store_build_entities (Some sc) h3 = (Ok ents, h4)
    ∧ store_build_microsimulation_options (Some sc) country_id h4
      = (Ok opts, h5)
    ∧ store_metadata STORED_COUNTRIES store_validate_country
        store_get_safe_json country_id h
      = (res ← alloc (ODict (store_dict [
           ("variables", vars);
           ("parameters", params);
           ("entities", ents);
           ("variableModules",
             svariable_module_metadata (stax_benefit_system sc));
           ("economy_options", opts);
           ("current_law_id",
             Imm (PInt (if String.eqb country_id "uk" then 1 else 2)))]));
         alloc (ODict (store_dict [
           ("status", Imm (PStr "ok"));
           ("message", Imm PNone);
           ("result", res)]))) h5.
Proof.
  intros Hreg Hfalse Hstored Hcountry Hwf.
  assert (∀ h', h ⊆ h' →
    option_Forall2 (country_denotes (hide ∅ h')) (Some sc) (Some c))
    as Hsc.
  { intros h' Hsub. rewrite hide_empty. pose proof (Hreg country_id) as Hc.
    rewrite Hstored, Hcountry in Hc. inversion Hc; subst. constructor.
    by eapply country_denotes_mono. }
  assert (∀ h' : heap, (∅ : gset loc) ⊆ dom h') as Hempty by set_solver.
  unfold store_metadata. rewrite Hstored.
  pose proof (validate_country_refines ∅ h country_id (Hempty h)) as Hv.
  unfold refines in Hv. rewrite bind_run.
  destruct (store_validate_country country_id h) as [[not_found|e] h1]
    eqn:Hrun1; destruct Hv as [Hsub1 Hnf]; [|done].
  rewrite bind_run, (store_truthy_denotes ∅ h1 not_found _ Hnf), Hfalse.
  destruct (proj2 (build_variables_returns c) Hwf) as [pvars Hpvars].
  pose proof (refines_build_variables ∅ h1 _ _ (Hempty h1) (Hsc h1 Hsub1))
    as Hvars.
  unfold refines in Hvars. rewrite Hpvars in Hvars. rewrite bind_run.
  destruct (store_build_variables (Some sc) h1) as [[vars|e] h2]
    eqn:Hrun2; destruct Hvars as [Hsub2 Hvars]; [|done].
  assert (h ⊆ h2) as Hh2 by by etrans.
  pose proof (refines_build_parameters get_safe_json store_get_safe_json
    get_safe_json_refines ∅ h2 _ _ (Hempty h2) (Hsc h2 Hh2)) as Hparams.
  unfold refines in Hparams. rewrite bind_run.
  destruct (store_build_parameters store_get_safe_json (Some sc) h2)
    as [[params|e] h3] eqn:Hrun3; destruct Hparams as [Hsub3 Hparams];
    [|done].
  assert (h ⊆ h3) as Hh3 by by etrans.
  pose proof (refines_build_entities ∅ h3 _ _ (Hempty h3) (Hsc h3 Hh3))
    as Hents.
  unfold refines in Hents. rewrite bind_run.
  destruct (store_build_entities (Some sc) h3) as [[ents|e] h4] eqn:Hrun4;
    destruct Hents as [Hsub4 Hents]; [|done].
  pose proof (refines_build_microsimulation_options ∅ h4 (Some sc) (Some c)
    country_id (Hempty h4)) as Hopts.
  unfold refines in Hopts. rewrite bind_run. simpl.
  rewrite bind_run.
  destruct (store_build_microsimulation_options (Some sc) country_id h4)
    as [[opts|e] h5] eqn:Hrun5; destruct Hopts as [Hsub5 Hopts]; [|done].
  exists h1, h2, h3, h4, h5, not_found, vars, params, ents, opts.
  repeat (split; [assumption || reflexivity|]). reflexivity.
Qed.

(** X13: when the validator accepts the country and every variable of
    its rule system is well formed, the handler returns a reference to an
    envelope that is a new object of the store, with the keys [status],
    [message] and [result]; the result is another new object; its
    [variables], [parameters], [entities] and [economy_options] are new
    objects too, while [variableModules] is the very reference that the
    rule system holds: that object is shared with the response, not
    copied. *)
Theorem store_metadata_shares_variable_modules (h : heap)
    (country_id : string) (sc : StoredCountry) (c : PolicyEngineCountry) :
  registry_denotes h STORED_COUNTRIES COUNTRIES →
  truthy (validate_country country_id) = false →
  STORED_COUNTRIES !! country_id = Some sc →
  COUNTRIES !! country_id = Some c →
  (∀ name variable,
     variables (tax_benefit_system c) !! name = Some variable →
     well_formed_variable variable = true) →
  ∃ l r h' envelope result,
    store_metadata STORED_COUNTRIES store_validate_country
      store_get_safe_json country_id h = (Ok (Ref l), h')
    ∧ l ∉ dom h ∧ r ∉ dom h ∧ l ≠ r
    ∧ h' !! l = Some (ODict envelope)
    ∧ dom envelope = {["status"; "message"; "result"]}
    ∧ envelope !! "result" = Some (Ref r)
    ∧ h' !! r = Some (ODict result)
    ∧ result !! "variableModules"
      = Some (svariable_module_metadata (stax_benefit_system sc))
    ∧ ∀ k, k ∈ ["variables"; "parameters"; "entities"; "economy_options"] →
        ∃ l', result !! k = Some (Ref l') ∧ l' ∉ dom h.
Proof.
  intros Hreg Hfalse Hstored Hcountry Hwf.
  destruct (store_metadata_accepted_run h country_id sc c Hreg Hfalse
              Hstored Hcountry Hwf)
    as (h1 & h2 & h3 & h4 & h5 & not_found & vars & params & ents & opts
        & Hsub1 & Hsub2 & Hsub3 & Hsub4 & Hsub5 & _ & Hvars & Hparams
        & Hents & Hopts & ->).
  assert (h ⊆ h2) as Hh2 by by etrans.
  assert (h ⊆ h3) as Hh3 by by etrans.
  assert (h ⊆ h4) as Hh4 by by etrans.
  assert (h ⊆ h5) as Hh5 by by etrans.
  apply accumulator_result in Hvars, Hents.
  unfold store_build_parameters, store_getattr_tax_benefit_system
    in Hparams.
  cbv zeta in Hparams.
  apply (accumulator_result
    (store_build_parameters_body store_get_safe_json
       (sparameters (stax_benefit_system sc)))) in Hparams.
  apply store_build_microsimulation_options_result in Hopts.
  subst vars params ents opts.
  rewrite bind_run. unfold alloc.
  set (result := store_dict _).
  set (r := fresh (dom h5)).
  set (h6 := <[r := ODict result]> h5).
  set (envelope := store_dict _).
  set (l := fresh (dom h6)).
  assert (l ∉ dom h6) as Hl by apply is_fresh.
  assert (l ≠ r) as Hlr.
  { intros Heq. apply Hl. rewrite Heq. unfold h6. rewrite dom_insert_L.
    set_solver. }
  exists l, r, (<[l := ODict envelope]> h6), envelope, result.
  split; [reflexivity|].
  split. { intros Hin. apply Hl. unfold h6. rewrite dom_insert_L.
           apply elem_of_union_r. by apply (subseteq_dom h h5). }
  split; [by apply fresh_not_in_smaller|]. split; [done|].
  split; [by rewrite lookup_insert_eq|].
  split. { unfold envelope, store_dict. cbn [foldl fst snd].
           rewrite !dom_insert_L. set_solver. }
  split; [reflexivity|].
  split. { rewrite lookup_insert_ne by done. unfold h6.
           by rewrite lookup_insert_eq. }
  split; [reflexivity|].
  intros k Hk. repeat (apply elem_of_cons in Hk as [->|Hk]);
    [..|by apply elem_of_nil in Hk].
  - eexists. split; [reflexivity|]. by apply fresh_not_in_smaller.
  - eexists. split; [reflexivity|]. by apply fresh_not_in_smaller.
  - eexists. split; [reflexivity|]. by apply fresh_not_in_smaller.
  - eexists. split; [reflexivity|]. by apply fresh_not_in_smaller.
Qed.

End StoreHandlerRun.

Lemma store_metadata_refines_witness :
  ∃ v h' envelope,
    store_metadata sample_stored_countries sample_store_validate_country
      sample_store_get_safe_json "uk" sample_heap = (Ok v, h')
    ∧ sample_heap ⊆ h'
    ∧ registry_denotes h' sample_stored_countries sample_countries
    ∧ metadata sample_countries sample_validate_country (λ v, v) "uk"
      = Ok envelope
    ∧ denotes h' v envelope.
Proof.
  pose proof (store_metadata_refines sample_countries
    sample_validate_country (λ v, v) sample_stored_countries
    sample_store_validate_country sample_store_get_safe_json
    (λ X h country_id _, refines_ret X denotes h _ _ (denotes_imm _ _))
    (λ X h v p _ Hv, refines_ret X denotes h v p Hv)
    sample_heap "uk" sample_registry_denotes) as Hrun.
  destruct (store_metadata _ _ _ "uk" sample_heap) as [r h'].
  destruct Hrun as (Hsub & Hreg & Hres).
  destruct (metadata_accepted sample_countries sample_validate_country
              (λ v, v) "uk" sample_country)
    as (vars & params & ents & _ & _ & _ & Hmeta);
    [reflexivity|reflexivity|apply sample_variables_well_formed|].
  rewrite Hmeta in Hres. destruct r as [v|e]; [|destruct Hres].
  eexists v, h', _.
  split; [reflexivity|]. split; [exact Hsub|]. split; [exact Hreg|].
  split; [exact Hmeta|exact Hres].
Defined.

Lemma store_metadata_shares_variable_modules_witness :
  ∃ l r h' envelope result,
    store_metadata sample_stored_countries sample_store_validate_country
      sample_store_get_safe_json "uk" sample_heap = (Ok (Ref l), h')
    ∧ l ∉ dom sample_heap ∧ r ∉ dom sample_heap ∧ l ≠ r
    ∧ h' !! l = Some (ODict envelope)
    ∧ dom envelope = {["status"; "message"; "result"]}
    ∧ envelope !! "result" = Some (Ref r)
    ∧ h' !! r = Some (ODict result)
    ∧ result !! "variableModules" = Some (Ref 2%positive)
    ∧ ∀ k, k ∈ ["variables"; "parameters"; "entities"; "economy_options"] →
        ∃ l', result !! k = Some (Ref l') ∧ l' ∉ dom sample_heap.
Proof.
  apply (store_metadata_shares_variable_modules sample_countries
    sample_validate_country (λ v, v) sample_stored_countries
    sample_store_validate_country sample_store_get_safe_json
    (λ X h country_id _, refines_ret X denotes h _ _ (denotes_imm _ _))
    (λ X h v p _ Hv, refines_ret X denotes h v p Hv)
    sample_heap "uk" sample_stored_country sample_country
    sample_registry_denotes).
  - reflexivity.
  - reflexivity.
  - reflexivity.
  - apply sample_variables_well_formed.
Defined.
